(** * Travel magazine registration server (src/server.js)

    A shallow embedding of the Express + SQLite backend: the JavaScript
    values and coercions the handlers rely on, the SQL statements they
    issue (as operations on a small relational store), the handlers
    themselves, and the properties of the specification proved or
    refuted against them.

    Conventions.
    - A JavaScript string is a sequence of UTF-16 code units; [string]
      stands for the strings whose code units are below 256, one
      character per code unit, so [String.length] is [.length].
    - A JavaScript number is an IEEE binary64 value; finite ones are
      dyadic rationals [m * 2^e].  Decimal literals are rounded to the
      nearest such value (ties to even), as the engine does.
    - Request bodies are JSON objects whose members are primitive values
      (strings, numbers, booleans, null); a member that is absent reads
      as [undefined]. *)

From stdpp Require Import base gmap strings list fin_maps pretty.
From Stdlib Require Import ZArith Ascii String Lia.

Local Open Scope Z_scope.

(* ================================================================== *)
(** ** JavaScript numbers *)
(* ================================================================== *)

(** [Fin m e] is the finite number [m * 2^e]; the sign of zero is not
    tracked (no operation of the server distinguishes -0 from +0). *)
Inductive number :=
  | NaN
  | Infinity (negative : bool)
  | Fin (m e : Z).

Global Instance number_eq_dec : EqDecision number.
Proof. solve_decision. Defined.

(** Canonical form: odd mantissa, or [Fin 0 0]. *)
Fixpoint strip_twos (p : positive) (e : Z) : positive * Z :=
  match p with
  | xO p' => strip_twos p' (e + 1)
  | _ => (p, e)
  end.

Definition norm_fin (m e : Z) : number :=
  match m with
  | Z0 => Fin 0 0
  | Zpos p => let '(p', e') := strip_twos p e in Fin (Zpos p') e'
  | Zneg p => let '(p', e') := strip_twos p e in Fin (Zneg p') e'
  end.

Definition norm (n : number) : number :=
  match n with
  | Fin m e => norm_fin m e
  | _ => n
  end.

(** Nearest integer to [a / b] for [a >= 0], [b > 0], ties to even. *)
Definition round_half_even (a b : Z) : Z :=
  let q := a / b in
  let r := a mod b in
  if 2 * r <? b then q
  else if b <? 2 * r then q + 1
  else if Z.even q then q else q + 1.

(** Floor of the binary logarithm of [n / d] for [n, d > 0]. *)
Definition log2_ratio (n d : Z) : Z :=
  let lg := Z.log2 n - Z.log2 d in
  let above := if 0 <=? lg then d * 2 ^ lg <=? n else d <=? n * 2 ^ (- lg) in
  if above then lg else lg - 1.

(** The binary64 value nearest to [n / d] ([n > 0], [d > 0]): 53-bit
    significand, exponents of the unit in the last place from -1074 to
    971, overflow to infinity. *)
Definition round_pos (n d : Z) : number :=
  let ex := log2_ratio n d in
  let u := Z.max (ex - 52) (-1074) in
  let mant := if 0 <=? u then round_half_even n (d * 2 ^ u)
              else round_half_even (n * 2 ^ (- u)) d in
  if (971 <? u) || ((u =? 971) && (2 ^ 53 <=? mant)) then Infinity false
  else norm_fin mant u.

Definition neg_number (x : number) : number :=
  match x with
  | NaN => NaN
  | Infinity s => Infinity (negb s)
  | Fin m e => Fin (- m) e
  end.

Definition round_ratio (n d : Z) : number :=
  match n with
  | Z0 => Fin 0 0
  | Zpos _ => round_pos n d
  | Zneg _ => neg_number (round_pos (- n) d)
  end.

(** The number denoted by the decimal [d * 10^e].  Magnitudes that are
    out of the binary64 range by a wide margin are settled without
    computing the power. *)
Definition digits10 (z : Z) : Z := if z =? 0 then 0 else Z.log2 (Z.abs z) / 3.

Definition of_decimal (d e : Z) : number :=
  if d =? 0 then Fin 0 0
  else if 400 <? e then Infinity (d <? 0)
  else if e + digits10 d + 1 <? -400 then Fin 0 0
  else if 0 <=? e then round_ratio (d * 10 ^ e) 1
  else round_ratio d (10 ^ (- e)).

Definition of_Z (z : Z) : number := round_ratio z 1.

(** Comparison of finite values by bringing both to the smaller
    exponent. *)
Definition fin_compare (m1 e1 m2 e2 : Z) : comparison :=
  let e := Z.min e1 e2 in
  (m1 * 2 ^ (e1 - e)) ?= (m2 * 2 ^ (e2 - e)).

(** [x < y] on numbers; false whenever an operand is NaN. *)
Definition num_ltb (x y : number) : bool :=
  match x, y with
  | NaN, _ | _, NaN => false
  | Infinity true, Infinity true => false
  | Infinity true, _ => true
  | _, Infinity true => false
  | Infinity false, _ => false
  | _, Infinity false => true
  | Fin m1 e1, Fin m2 e2 =>
      match fin_compare m1 e1 m2 e2 with Lt => true | _ => false end
  end.

(** [x > y] is [y < x]. *)
Definition num_gtb (x y : number) : bool := num_ltb y x.

Definition num_is_zero (x : number) : bool :=
  match x with Fin m _ => m =? 0 | _ => false end.

Definition num_is_nan (x : number) : bool :=
  match x with NaN => true | _ => false end.

(** The integer a finite number denotes, if it denotes one. *)
Definition num_to_Z (x : number) : option Z :=
  match x with
  | Fin m e =>
      if 0 <=? e then Some (m * 2 ^ e)
      else if m mod 2 ^ (- e) =? 0 then Some (m / 2 ^ (- e)) else None
  | _ => None
  end.

(** [Number.isInteger]. *)
Definition Number_isInteger (x : number) : bool :=
  match num_to_Z x with Some _ => true | None => false end.

(* ================================================================== *)
(** ** Strings and numbers: [Number(string)] and [String(number)] *)
(* ================================================================== *)

Definition code (c : ascii) : Z := Z.of_N (N_of_ascii c).

(** Value of a digit in the given radix. *)
Definition digit_val (radix : Z) (c : ascii) : option Z :=
  let k := code c in
  let v := if (48 <=? k) && (k <=? 57) then Some (k - 48)
           else if (97 <=? k) && (k <=? 102) then Some (k - 87)
           else if (65 <=? k) && (k <=? 70) then Some (k - 55)
           else None in
  match v with
  | Some d => if d <? radix then Some d else None
  | None => None
  end.

(** Reads a run of digits: the accumulated value, how many digits were
    read, and the rest of the input. *)
Fixpoint scan_digits (radix : Z) (s : string) (acc cnt : Z) : Z * Z * string :=
  match s with
  | String c s' =>
      match digit_val radix c with
      | Some d => scan_digits radix s' (acc * radix + d) (cnt + 1)
      | None => (acc, cnt, s)
      end
  | EmptyString => (acc, cnt, s)
  end.

(** White space and line terminators of the language, among the code
    units below 256: TAB, LF, VT, FF, CR, SP, NBSP. *)
Definition is_space (c : ascii) : bool :=
  let k := code c in
  ((9 <=? k) && (k <=? 13)) || (k =? 32) || (k =? 160).

Fixpoint trim_left (s : string) : string :=
  match s with
  | String c s' => if is_space c then trim_left s' else s
  | EmptyString => EmptyString
  end.

Fixpoint trim_right (s : string) : string :=
  match s with
  | String c s' =>
      match trim_right s' with
      | EmptyString => if is_space c then EmptyString else String c EmptyString
      | t => String c t
      end
  | EmptyString => EmptyString
  end.

Definition trim (s : string) : string := trim_right (trim_left s).

Definition is_exp_mark (c : ascii) : bool := (code c =? 101) || (code c =? 69).

(** StrUnsignedDecimalLiteral: [Infinity], or digits with an optional
    fraction and an optional exponent, at least one digit in all. *)
Definition parse_unsigned_decimal (s : string) : number :=
  if String.eqb s "Infinity" then Infinity false
  else
    let '(ip, ni, r1) := scan_digits 10 s 0 0 in
    let '(m, nf, r2) :=
      match r1 with
      | String "."%char r => scan_digits 10 r ip 0
      | _ => (ip, 0, r1)
      end in
    if ni + nf =? 0 then NaN
    else
      match r2 with
      | EmptyString => of_decimal m (- nf)
      | String c r3 =>
          if is_exp_mark c then
            let '(sgn, r4) :=
              match r3 with
              | String "+"%char r => (1, r)
              | String "-"%char r => (-1, r)
              | _ => (1, r3)
              end in
            let '(ev, ne, r5) := scan_digits 10 r4 0 0 in
            if (ne =? 0) || negb (String.eqb r5 "") then NaN
            else of_decimal m (sgn * ev - nf)
          else NaN
      end.

(** NonDecimalIntegerLiteral after its prefix. *)
Definition parse_radix (radix : Z) (s : string) : number :=
  let '(v, n, rest) := scan_digits radix s 0 0 in
  if (n =? 0) || negb (String.eqb rest "") then NaN else of_Z v.

(** StringToNumber: the empty (or blank) string is 0; anything that is
    not a StringNumericLiteral is NaN. *)
Definition StringToNumber (s : string) : number :=
  let t := trim s in
  match t with
  | EmptyString => Fin 0 0
  | String "+"%char r => parse_unsigned_decimal r
  | String "-"%char r => neg_number (parse_unsigned_decimal r)
  | String "0"%char (String x r) =>
      let k := code x in
      if (k =? 120) || (k =? 88) then parse_radix 16 r
      else if (k =? 111) || (k =? 79) then parse_radix 8 r
      else if (k =? 98) || (k =? 66) then parse_radix 2 r
      else parse_unsigned_decimal t
  | _ => parse_unsigned_decimal t
  end.

(** Number::toString, radix 10.  For positive finite [x = a / b] it
    needs the shortest digit string [s] (of [k] digits) and the exponent
    [n] with [s * 10^(n-k)] rounding to [x]. *)
Definition pos_ratio (m e : Z) : Z * Z :=
  if 0 <=? e then (m * 2 ^ e, 1) else (m, 2 ^ (- e)).

Fixpoint lead_shift (fuel : nat) (a b j : Z) : Z :=
  match fuel with
  | O => j
  | S f => if b <=? a then j else lead_shift f (a * 10) b (j + 1)
  end.

(** [n] with [10^(n-1) <= a/b < 10^n]. *)
Definition decimal_exponent (a b : Z) : Z :=
  if b <=? a then Z.of_nat (String.length (pretty (a / b)))
  else 1 - lead_shift 400 a b 0.

(** The [k]-digit candidate for [a/b], if one rounds back to [x]. *)
Definition digits_at (x : number) (a b n k : Z) : option (Z * Z) :=
  let '(sa, sb) := if 0 <=? k - n then (a * 10 ^ (k - n), b)
                   else (a, b * 10 ^ (n - k)) in
  let lo := sa / sb in
  let rem := sa mod sb in
  let back s := bool_decide (of_decimal s (n - k) = x) in
  let up := if lo + 1 =? 10 ^ k then (10 ^ (k - 1), n + 1) else (lo + 1, n) in
  let lo_ok := back lo in
  let hi_ok := negb (rem =? 0) && back (lo + 1) in
  if lo_ok && hi_ok then
    if 2 * rem <? sb then Some (lo, n)
    else if sb <? 2 * rem then Some up
    else if Z.even lo then Some (lo, n) else Some up
  else if lo_ok then Some (lo, n)
  else if hi_ok then Some up
  else None.

Fixpoint shortest_digits (fuel : nat) (x : number) (a b n k : Z) : Z * Z * Z :=
  match fuel with
  | O => (round_half_even (a * 10 ^ Z.max 0 (k - n)) (b * 10 ^ Z.max 0 (n - k)), n, k)
  | S f =>
      match digits_at x a b n k with
      | Some (s, n') => (s, n', k)
      | None => shortest_digits f x a b n (k + 1)
      end
  end.

Fixpoint zeros (n : nat) : string :=
  match n with
  | O => EmptyString
  | S n' => String "0"%char (zeros n')
  end.

Definition format_digits (s n k : Z) : string :=
  let ds := pretty s in
  if (k <=? n) && (n <=? 21) then ds +:+ zeros (Z.to_nat (n - k))
  else if (0 <? n) && (n <=? 21) then
    substring 0 (Z.to_nat n) ds +:+ "." +:+ substring (Z.to_nat n) (Z.to_nat (k - n)) ds
  else if (-6 <? n) && (n <=? 0) then
    "0." +:+ zeros (Z.to_nat (- n)) +:+ ds
  else
    let ex := (if 0 <? n - 1 then "+" else "-") +:+ pretty (Z.abs (n - 1)) in
    if k =? 1 then ds +:+ "e" +:+ ex
    else substring 0 1 ds +:+ "." +:+ substring 1 (Z.to_nat (k - 1)) ds +:+ "e" +:+ ex.

Definition pos_to_string (m e : Z) : string :=
  let '(a, b) := pos_ratio m e in
  let '(s, n, k) := shortest_digits 17 (norm_fin m e) a b (decimal_exponent a b) 1 in
  format_digits s n k.

Definition number_to_string (x : number) : string :=
  match x with
  | NaN => "NaN"
  | Infinity false => "Infinity"
  | Infinity true => "-Infinity"
  | Fin Z0 _ => "0"
  | Fin (Zpos p) e => pos_to_string (Zpos p) e
  | Fin (Zneg p) e => "-" +:+ pos_to_string (Zpos p) e
  end.

(* ================================================================== *)
(** ** JavaScript values and the coercions the server applies *)
(* ================================================================== *)

Inductive value :=
  | VUndefined
  | VNull
  | VBool (b : bool)
  | VNum (n : number)
  | VStr (s : string).

Global Instance value_eq_dec : EqDecision value.
Proof. solve_decision. Defined.

(** ToBoolean: what [!v] and [v || w] test. *)
Definition ToBoolean (v : value) : bool :=
  match v with
  | VUndefined | VNull => false
  | VBool b => b
  | VNum n => negb (num_is_zero n || num_is_nan n)
  | VStr s => negb (String.eqb s "")
  end.

(** [!v] *)
Definition not_ (v : value) : bool := negb (ToBoolean v).

(** [v || w] *)
Definition or_ (v w : value) : value := if ToBoolean v then v else w.

(** [Number(v)] *)
Definition Number_ (v : value) : number :=
  match v with
  | VUndefined => NaN
  | VNull => Fin 0 0
  | VBool true => Fin 1 0
  | VBool false => Fin 0 0
  | VNum n => n
  | VStr s => StringToNumber s
  end.

(** [String(v)] *)
Definition String_ (v : value) : string :=
  match v with
  | VUndefined => "undefined"
  | VNull => "null"
  | VBool true => "true"
  | VBool false => "false"
  | VNum n => number_to_string n
  | VStr s => s
  end.

(** [v.length] for a value that is neither [undefined] nor [null]
    (reading a property of those throws; the server only reads
    [.length] behind a truthiness test): the length of a string, an
    integer that binary64 holds exactly, and [undefined] on a boolean
    or a number. *)
Definition length_ (v : value) : value :=
  match v with
  | VStr s => VNum (Fin (Z.of_nat (String.length s)) 0)
  | _ => VUndefined
  end.

(** [v < w] where [w] is a number: both sides are converted with
    ToNumber, and a NaN makes the comparison false. *)
Definition lt_ (v : value) (w : number) : bool := num_ltb (Number_ v) w.

(** [s.includes(t)] *)
Fixpoint includes (s t : string) : bool :=
  String.prefix t s ||
  match s with
  | String _ s' => includes s' t
  | EmptyString => false
  end.

(** A JSON object: member name to value; [get o k] is [o.k]. *)
Definition get (o : gmap string value) (k : string) : value :=
  default VUndefined (o !! k).

(* ================================================================== *)
(** ** Regular expressions *)
(* ================================================================== *)

(** The fragment used by [phoneRegex]: literal characters, [\d],
    concatenation and bounded repetition [r{lo,hi}]; [Alt], [Eps] and
    [Void] close it under derivatives. *)
Inductive regex :=
  | Void
  | Eps
  | Lit (c : ascii)
  | Digit
  | Cat (r1 r2 : regex)
  | Alt (r1 r2 : regex)
  | Rep (r : regex) (lo hi : nat).

Fixpoint nullable (r : regex) : bool :=
  match r with
  | Void => false
  | Eps => true
  | Lit _ => false
  | Digit => false
  | Cat r1 r2 => nullable r1 && nullable r2
  | Alt r1 r2 => nullable r1 || nullable r2
  | Rep r lo _ => Nat.eqb lo 0 || nullable r
  end.

(** [\d] without the unicode flag: the ten ASCII digits. *)
Definition is_digit (c : ascii) : bool := (48 <=? code c) && (code c <=? 57).

Fixpoint deriv (c : ascii) (r : regex) : regex :=
  match r with
  | Void => Void
  | Eps => Void
  | Lit c' => if Ascii.eqb c c' then Eps else Void
  | Digit => if is_digit c then Eps else Void
  | Cat r1 r2 =>
      if nullable r1 then Alt (Cat (deriv c r1) r2) (deriv c r2)
      else Cat (deriv c r1) r2
  | Alt r1 r2 => Alt (deriv c r1) (deriv c r2)
  | Rep r lo hi =>
      match hi with
      | O => Void
      | S hi' => Cat (deriv c r) (Rep r (Nat.pred lo) hi')
      end
  end.

(** Whole-string match. *)
Fixpoint matches (r : regex) (s : string) : bool :=
  match s with
  | EmptyString => nullable r
  | String c s' => matches (deriv c r) s'
  end.

(** [re.test(v)] for a pattern written [/^...$/] without flags: the
    argument is converted with ToString and must match as a whole. *)
Definition test (r : regex) (v : value) : bool := matches r (String_ v).

(** [/^\+\d{1,3}-\d{3}-\d{3}-\d{4}$/] *)
Definition phoneRegex : regex :=
  Cat (Lit "+") (Cat (Rep Digit 1 3) (Cat (Lit "-") (Cat (Rep Digit 3 3)
  (Cat (Lit "-") (Cat (Rep Digit 3 3) (Cat (Lit "-") (Rep Digit 4 4))))))).

(* ================================================================== *)
(** ** Validation (server.js, validateRegistration) *)
(* ================================================================== *)

(** The request body: [None] when [req.body] is [undefined]. *)
Definition validateRegistration (payload : option (gmap string value)) : option string :=
  match payload with
  | None => Some "Missing registration data."
  | Some p =>
      let fullName := get p "fullName" in
      let sex := get p "sex" in
      let phone := get p "phone" in
      let email := get p "email" in
      let destination := get p "destination" in
      let city := get p "city" in
      let persons := get p "persons" in
      let travelTime := get p "travelTime" in
      if not_ fullName || lt_ (length_ fullName) (of_Z 2) then
        Some "Full name is required."
      else if not_ sex then
        Some "Sex is required."
      else if negb (test phoneRegex (or_ phone (VStr ""))) then
        Some "Phone must match +234-801-234-5678 format."
      else if not_ email || negb (includes (String_ email) "@") then
        Some "Email is required."
      else if not_ destination then
        Some "Destination is required."
      else if not_ city || lt_ (length_ city) (of_Z 2) then
        Some "City is required."
      else
        let personsNumber := Number_ persons in
        if negb (Number_isInteger personsNumber)
           || num_ltb personsNumber (of_Z 1)
           || num_gtb personsNumber (of_Z 20) then
          Some "Number of persons must be between 1 and 20."
        else if not_ travelTime then
          Some "Travel time is required."
        else None
  end.

(* ================================================================== *)
(** ** The SQLite store *)
(* ================================================================== *)

(** The statements of server.js are modelled on a small relational
    store.  Every table of the application declares
    [id INTEGER PRIMARY KEY AUTOINCREMENT]: rows are keyed by that id,
    and [tbl_seq] is the largest id handed out so far (the table's entry
    in sqlite_sequence).  Cells hold the value that was bound: text for
    strings, a number for numbers, [VNull] for NULL.  Storage classes
    and column affinity are not modelled beyond that; they leave text
    bound to a TEXT column and an integer bound to an INTEGER column
    unchanged. *)
Record column := Column {
  col_name : string;
  col_type : string;
  col_notnull : bool;
  col_unique : bool;
  col_default : value
}.

Record table := Table {
  tbl_columns : list column;
  tbl_rows : gmap Z (gmap string value);
  tbl_seq : Z
}.

Inductive outcome (A : Type) :=
  | Done (a : A)
  | Failed (err : string).
Arguments Done {A} a.
Arguments Failed {A} err.

Global Instance column_eq_dec : EqDecision column.
Proof. solve_decision. Defined.

Global Instance table_eq_dec : EqDecision table.
Proof. solve_decision. Defined.

Global Instance outcome_eq_dec {A} `{EqDecision A} : EqDecision (outcome A).
Proof. solve_decision. Defined.

(** How the driver binds a JavaScript parameter. *)
Definition bind (v : value) : value :=
  match v with
  | VUndefined => VNull
  | VBool b => VNum (of_Z (if b then 1 else 0))
  | _ => v
  end.

Definition is_null (v : value) : bool :=
  match v with VNull | VUndefined => true | _ => false end.

(** SQL [=] between a cell and a bound parameter: text with text,
    number with number; NULL equals nothing.  The conversion SQLite
    applies to a number that is compared with a TEXT column is not
    modelled: what is proved about a lookup takes a text parameter. *)
Definition sql_eq (cell param : value) : bool :=
  match cell, param with
  | VStr a, VStr b => String.eqb a b
  | VNum a, VNum b => bool_decide (norm a = norm b)
  | _, _ => false
  end.

Definition column_names (t : table) : list string := col_name <$> tbl_columns t.

Definition has_column (t : table) (c : string) : bool :=
  bool_decide (c ∈ column_names t).

(** [CREATE TABLE IF NOT EXISTS name (id INTEGER PRIMARY KEY
    AUTOINCREMENT, cols)] *)
Definition create_table_if_not_exists (name : string) (cols : list column)
    (db : gmap string table) : gmap string table :=
  match db !! name with
  | Some _ => db
  | None => <[name := Table cols ∅ 0]> db
  end.

(** [ALTER TABLE name ADD COLUMN col]: existing rows read the default
    in the new column. *)
Definition alter_table_add_column (name : string) (col : column)
    (db : gmap string table) : outcome (gmap string table) :=
  match db !! name with
  | None => Failed "no such table"
  | Some t =>
      if has_column t (col_name col) || String.eqb (col_name col) "id" then
        Failed "duplicate column name"
      else if col_notnull col && is_null (col_default col) then
        Failed "Cannot add a NOT NULL column with default value NULL"
      else
        Done (<[name := Table (tbl_columns t ++ [col])
                              (insert (col_name col) (col_default col) <$> tbl_rows t)
                              (tbl_seq t)]> db)
  end.

Definition max_key (rows : gmap Z (gmap string value)) : Z :=
  foldr Z.max 0 (map_to_list rows).*1.

(** The row an INSERT or UPDATE writes: the assigned columns take the
    bound parameters, the others keep [old].  A number or a boolean
    bound to a TEXT column, which SQLite stores as text, is outside
    what is modelled: what is proved about the cells of a text column
    takes a text member. *)
Definition assign_row (assignments : list (string * value))
    (old : gmap string value) : gmap string value :=
  (bind <$> list_to_map assignments) ∪ old.

Definition default_row (t : table) : gmap string value :=
  list_to_map ((λ c, (col_name c, col_default c)) <$> tbl_columns t).

(** NOT NULL is checked on the columns a statement writes: all of them
    for an INSERT, the assigned ones for an UPDATE. *)
Definition violates_notnull (t : table) (written : list string)
    (r : gmap string value) : bool :=
  existsb (λ c, col_notnull c && bool_decide (col_name c ∈ written)
                && is_null (default VNull (r !! col_name c)))
          (tbl_columns t).

(** Does another row than [self] hold the same non-NULL value in a
    UNIQUE column? *)
Definition violates_unique (t : table) (self : option Z) (r : gmap string value) : bool :=
  existsb (λ c, col_unique c &&
     bool_decide (Exists (λ kr,
        Some kr.1 ≠ self ∧
        sql_eq (default VNull (kr.2 !! col_name c))
               (default VNull (r !! col_name c)) = true)
       (map_to_list (tbl_rows t))))
    (tbl_columns t).

Definition unknown_column (t : table) (cols : list string) : bool :=
  negb (forallb (λ c, has_column t c || String.eqb c "id") cols).

(** [INSERT INTO name (c1, ...) VALUES (?, ...)]; on success the new
    store and [lastID]. *)
Definition insert_into (name : string) (assignments : list (string * value))
    (db : gmap string table) : outcome (gmap string table * Z) :=
  match db !! name with
  | None => Failed "no such table"
  | Some t =>
      if unknown_column t assignments.*1 then Failed "no such column"
      else
        let r := assign_row assignments (default_row t) in
        if violates_notnull t (column_names t) r then Failed "NOT NULL constraint failed"
        else if violates_unique t None r then Failed "UNIQUE constraint failed"
        else
          let id := Z.max (tbl_seq t) (max_key (tbl_rows t)) + 1 in
          Done (<[name := Table (tbl_columns t) (<[id := r]> (tbl_rows t)) id]> db, id)
  end.

(** The object the driver builds for a selected row. *)
Definition select_columns (cols : list string) (id : Z) (r : gmap string value)
    : gmap string value :=
  list_to_map ((λ c, (c, if String.eqb c "id" then VNum (of_Z id)
                         else default VNull (r !! c))) <$> cols).

(** The row id a bound number addresses, if any. *)
Definition row_id (id : number) : option Z := num_to_Z id.

(** [SELECT cols FROM name WHERE id = ?] through [db.get]: the row, or
    nothing. *)
Definition select_by_id (name : string) (cols : list string) (id : number)
    (db : gmap string table) : outcome (option (gmap string value)) :=
  match db !! name with
  | None => Failed "no such table"
  | Some t =>
      if unknown_column t cols then Failed "no such column"
      else Done (k ← row_id id; select_columns cols k <$> tbl_rows t !! k)
  end.

(** [UPDATE name SET c1 = ?, ... WHERE id = ?]; on success the new store
    and [changes]. *)
Definition update_by_id (name : string) (assignments : list (string * value))
    (id : number) (db : gmap string table) : outcome (gmap string table * Z) :=
  match db !! name with
  | None => Failed "no such table"
  | Some t =>
      if unknown_column t assignments.*1 then Failed "no such column"
      else
        match k ← row_id id; (λ r, (k, r)) <$> tbl_rows t !! k with
        | None => Done (db, 0)
        | Some (k, old) =>
            let r := assign_row assignments old in
            if violates_notnull t assignments.*1 r then
              Failed "NOT NULL constraint failed"
            else if violates_unique t (Some k) r then Failed "UNIQUE constraint failed"
            else Done (<[name := Table (tbl_columns t) (<[k := r]> (tbl_rows t))
                                       (tbl_seq t)]> db, 1)
        end
  end.

(** [DELETE FROM name WHERE id = ?]; on success the new store and
    [changes]. *)
Definition delete_by_id (name : string) (id : number)
    (db : gmap string table) : outcome (gmap string table * Z) :=
  match db !! name with
  | None => Failed "no such table"
  | Some t =>
      match k ← row_id id; (λ _, k) <$> tbl_rows t !! k with
      | None => Done (db, 0)
      | Some k =>
          Done (<[name := Table (tbl_columns t) (delete k (tbl_rows t))
                                (tbl_seq t)]> db, 1)
      end
  end.

(** Order of cells under ORDER BY: NULL, then numbers, then text by
    code unit. *)
Definition cell_leb (a b : value) : bool :=
  match bind a, bind b with
  | VNull, _ => true
  | _, VNull => false
  | VNum x, VNum y => negb (num_ltb y x)
  | VNum _, _ => true
  | _, VNum _ => false
  | VStr s, VStr t => match String.compare s t with Gt => false | _ => true end
  | _, _ => true
  end.

Fixpoint insert_desc (by_col : string) (x : Z * gmap string value)
    (l : list (Z * gmap string value)) : list (Z * gmap string value) :=
  match l with
  | [] => [x]
  | y :: l' =>
      if cell_leb (default VNull (y.2 !! by_col)) (default VNull (x.2 !! by_col))
      then x :: l
      else y :: insert_desc by_col x l'
  end.

(** [SELECT cols FROM name ORDER BY by_col DESC] through [db.all].  The
    order among rows with equal keys is the engine's choice; here it is
    the one insertion sort gives. *)
Definition select_all_desc (name : string) (cols : list string) (by_col : string)
    (db : gmap string table) : outcome (list (gmap string value)) :=
  match db !! name with
  | None => Failed "no such table"
  | Some t =>
      if unknown_column t (by_col :: cols) then Failed "no such column"
      else Done ((λ kr, select_columns cols kr.1 kr.2) <$>
                 foldr (insert_desc by_col) [] (map_to_list (tbl_rows t)))
  end.

(** [SELECT cols FROM name WHERE col = ?] through [db.get]: the first
    matching row, or nothing. *)
Definition select_where (name : string) (cols : list string) (col : string)
    (param : value) (db : gmap string table) : outcome (option (gmap string value)) :=
  match db !! name with
  | None => Failed "no such table"
  | Some t =>
      if unknown_column t (col :: cols) then Failed "no such column"
      else Done ((λ kr, select_columns cols kr.1 kr.2) <$>
                 head (filter (λ kr, sql_eq (default VNull (kr.2 !! col)) (bind param) = true)
                              (map_to_list (tbl_rows t))))
  end.

(* ================================================================== *)
(** ** The server (server.js) *)
(* ================================================================== *)

(** What a request reads from outside the store: the clock, the process
    environment and the outcome of the bcrypt calls ([None] is the
    error argument of the callback). *)
Record env := Env {
  now : string;                                     (* new Date().toISOString() *)
  ADMIN_USERNAME : option string;
  ADMIN_PASSWORD : option string;
  bcrypt_hash : string → option string;
  bcrypt_compare : value → value → option bool
}.

(** [req.session]: the session middleware attaches an object to every
    request; a field that was never set reads [undefined]. *)
Record session := Session {
  adminId : value;
  username : value
}.

Record request := Request {
  req_session : session;
  req_id : string;                                  (* req.params.id *)
  req_body : option (gmap string value)             (* req.body *)
}.

Inductive json :=
  | JMessage (message : string)
  | JSaved (message : string) (id : Z)
  | JUsername (name : value)
  | JData (row : gmap string value)
  | JRows (rows : list (gmap string value)).

Record response := Response {
  status : Z;
  headers : list (string * string);
  body : json
}.

(** Calls that leave the handler. *)
Inductive event :=
  | Sql (statement : string)
  | BcryptHash (password : string)
  | BcryptCompare (password hash : value)
  | ConsoleError (msg : string)
  | ConsoleLog (msg : string).

(** What handling a request amounts to: the response, the store and
    the session afterwards ([None] once destroyed), and the calls made,
    in order. *)
Record result := Result {
  res : response;
  db_after : gmap string table;
  session_after : option session;
  trace : list event
}.

Global Instance session_eq_dec : EqDecision session.
Proof. solve_decision. Defined.

Global Instance json_eq_dec : EqDecision json.
Proof. solve_decision. Defined.

Global Instance response_eq_dec : EqDecision response.
Proof. solve_decision. Defined.

Global Instance event_eq_dec : EqDecision event.
Proof. solve_decision. Defined.

Global Instance result_eq_dec : EqDecision result.
Proof. solve_decision. Defined.

Definition handler : Type := env → request → gmap string table → result.

(** [res.status(code).json(body)] from a handler that did not touch
    the store or the session. *)
Definition reply (code : Z) (hs : list (string * string)) (b : json)
    (req : request) (db : gmap string table) (tr : list event) : result :=
  Result (Response code hs b) db (Some (req_session req)) tr.

Definition registrations_columns : list column :=
  [ Column "full_name" "TEXT" true false VNull;
    Column "sex" "TEXT" true false VNull;
    Column "phone" "TEXT" true false VNull;
    Column "email" "TEXT" true false VNull;
    Column "destination" "TEXT" true false VNull;
    Column "city" "TEXT" true false VNull;
    Column "persons" "INTEGER" true false VNull;
    Column "travel_time" "TEXT" true false VNull;
    Column "message" "TEXT" false false VNull;
    Column "created_at" "TEXT" true false VNull ].

Definition admins_columns : list column :=
  [ Column "username" "TEXT" true true VNull;
    Column "password_hash" "TEXT" true false VNull ].

(** [a || b] on an environment variable and a default. *)
Definition env_or (a : option string) (b : string) : string :=
  match a with
  | Some s => if String.eqb s "" then b else s
  | None => b
  end.

(** ensureDefaultAdmin.  Its callbacks run one after the other, each
    on the outcome of the call before it. *)
Definition ensureDefaultAdmin (e : env) (db : gmap string table)
    : gmap string table * list event :=
  let adminUsername := env_or (ADMIN_USERNAME e) "admin" in
  let adminPassword := env_or (ADMIN_PASSWORD e) "admin123" in
  let lookup := [Sql "SELECT id FROM admins WHERE username = ?"] in
  match select_where "admins" ["id"] "username" (VStr adminUsername) db with
  | Failed _ => (db, lookup ++ [ConsoleError "Admin lookup failed"])
  | Done (Some _) => (db, lookup)
  | Done None =>
      match bcrypt_hash e adminPassword with
      | None => (db, lookup ++ [BcryptHash adminPassword; ConsoleError "Admin hash failed"])
      | Some hash =>
          let calls := lookup ++ [BcryptHash adminPassword;
                         Sql "INSERT INTO admins (username, password_hash) VALUES (?, ?)"] in
          match insert_into "admins"
                  [("username", VStr adminUsername); ("password_hash", VStr hash)] db with
          | Failed _ => (db, calls ++ [ConsoleError "Admin insert failed"])
          | Done (db', _) => (db', calls ++ [ConsoleLog "Default admin created."])
          end
      end
  end.

(** The callback [() => undefined] of the two ALTER TABLE statements
    drops their error. *)
Definition ignore_error (db : gmap string table) (o : outcome (gmap string table))
    : gmap string table :=
  match o with
  | Done db' => db'
  | Failed _ => db
  end.

(** initializeDatabase: inside [db.serialize] the statements run in the
    order they are issued. *)
Definition initializeDatabase (e : env) (db : gmap string table)
    : gmap string table * list event :=
  let db1 := create_table_if_not_exists "registrations" registrations_columns db in
  let db2 := ignore_error db1
    (alter_table_add_column "registrations" (Column "city" "TEXT" true false (VStr "")) db1) in
  let db3 := ignore_error db2
    (alter_table_add_column "registrations" (Column "email" "TEXT" true false (VStr "")) db2) in
  let db4 := create_table_if_not_exists "admins" admins_columns db3 in
  let '(db5, tr) := ensureDefaultAdmin e db4 in
  (db5, [Sql "CREATE TABLE IF NOT EXISTS registrations";
         Sql "ALTER TABLE registrations ADD COLUMN city";
         Sql "ALTER TABLE registrations ADD COLUMN email";
         Sql "CREATE TABLE IF NOT EXISTS admins"] ++ tr).

(** isAdmin: the middleware in front of the admin-only routes.
    [req.session] is an object, so [req.session && req.session.adminId]
    is the truth value of [adminId]. *)
Definition isAdmin (next : handler) : handler := λ e req db,
  if ToBoolean (adminId (req_session req)) then next e req db
  else reply 401 [] (JMessage "Unauthorized") req db [].

Definition registration_select : list string :=
  ["id"; "full_name"; "sex"; "phone"; "email"; "destination"; "city";
   "persons"; "travel_time"; "message"; "created_at"].

(** The parameters of the INSERT and of the UPDATE, but for
    [created_at] and [id]. *)
Definition registration_params (p : gmap string value) : list (string * value) :=
  [ ("full_name", get p "fullName");
    ("sex", get p "sex");
    ("phone", get p "phone");
    ("email", get p "email");
    ("destination", get p "destination");
    ("city", get p "city");
    ("persons", VNum (Number_ (get p "persons")));
    ("travel_time", get p "travelTime");
    ("message", or_ (get p "message") (VStr "")) ].

(** app.post("/api/registrations") *)
Definition post_registrations : handler := λ e req db,
  match validateRegistration (req_body req) with
  | Some error => reply 400 [] (JMessage error) req db []
  | None =>
      let p := default ∅ (req_body req) in
      let calls := [Sql "INSERT INTO registrations"] in
      match insert_into "registrations"
              (registration_params p ++ [("created_at", VStr (now e))]) db with
      | Failed _ =>
          reply 500 [] (JMessage "Failed to save registration.") req db
                (calls ++ [ConsoleError "Registration insert failed"])
      | Done (db', lastID) =>
          reply 201 [] (JSaved "Saved" lastID) req db' calls
      end
  end.

(** app.post("/api/admin/login") *)
Definition post_admin_login : handler := λ e req db,
  let b := default ∅ (req_body req) in
  let username := get b "username" in
  let password := get b "password" in
  if not_ username || not_ password then
    reply 400 [] (JMessage "Username and password required.") req db []
  else
    let lookup := [Sql "SELECT id, password_hash FROM admins WHERE username = ?"] in
    match select_where "admins" ["id"; "password_hash"] "username" username db with
    | Failed _ =>
        reply 500 [] (JMessage "Login failed.") req db
              (lookup ++ [ConsoleError "Admin lookup failed"])
    | Done None =>
        reply 401 [] (JMessage "Invalid credentials.") req db lookup
    | Done (Some row) =>
        let calls := lookup ++ [BcryptCompare password (get row "password_hash")] in
        match bcrypt_compare e password (get row "password_hash") with
        | None =>
            reply 500 [] (JMessage "Login failed.") req db
                  (calls ++ [ConsoleError "Password compare failed"])
        | Some false =>
            reply 401 [] (JMessage "Invalid credentials.") req db calls
        | Some true =>
            Result (Response 200 [] (JMessage "Logged in")) db
                   (Some (Session (get row "id") username)) calls
        end
    end.

(** app.post("/api/admin/logout") *)
Definition post_admin_logout : handler := λ e req db,
  Result (Response 200 [] (JMessage "Logged out")) db None [].

(** app.get("/api/admin/me") *)
Definition get_admin_me : handler := λ e req db,
  if not_ (adminId (req_session req)) then
    reply 401 [] (JMessage "Unauthorized") req db []
  else
    reply 200 [("Cache-Control", "no-store")]
          (JUsername (username (req_session req))) req db [].

(** app.get("/api/admin/registrations") *)
Definition get_admin_registrations : handler := isAdmin (λ e req db,
  let hs := [("Cache-Control", "no-store")] in
  let calls := [Sql "SELECT FROM registrations ORDER BY created_at DESC"] in
  match select_all_desc "registrations" registration_select "created_at" db with
  | Failed _ =>
      reply 500 hs (JMessage "Failed to fetch registrations.") req db
            (calls ++ [ConsoleError "Registrations fetch failed"])
  | Done rows => reply 200 hs (JRows rows) req db calls
  end).

(** app.get("/api/admin/registrations/:id") *)
Definition get_admin_registration : handler := isAdmin (λ e req db,
  let id := Number_ (VStr (req_id req)) in
  if negb (Number_isInteger id) then
    reply 400 [] (JMessage "Invalid id.") req db []
  else
    let hs := [("Cache-Control", "no-store")] in
    let calls := [Sql "SELECT FROM registrations WHERE id = ?"] in
    match select_by_id "registrations" registration_select id db with
    | Failed _ =>
        reply 500 hs (JMessage "Failed to fetch registration.") req db
              (calls ++ [ConsoleError "Registration fetch failed"])
    | Done None => reply 404 hs (JMessage "Not found.") req db calls
    | Done (Some row) => reply 200 hs (JData row) req db calls
    end).

(** app.put("/api/admin/registrations/:id") *)
Definition put_admin_registration : handler := isAdmin (λ e req db,
  let id := Number_ (VStr (req_id req)) in
  if negb (Number_isInteger id) then
    reply 400 [] (JMessage "Invalid id.") req db []
  else
    match validateRegistration (req_body req) with
    | Some error => reply 400 [] (JMessage error) req db []
    | None =>
        let p := default ∅ (req_body req) in
        let calls := [Sql "UPDATE registrations SET ... WHERE id = ?"] in
        match update_by_id "registrations" (registration_params p) id db with
        | Failed _ =>
            reply 500 [] (JMessage "Failed to update registration.") req db
                  (calls ++ [ConsoleError "Registration update failed"])
        | Done (db', changes) =>
            if changes =? 0 then reply 404 [] (JMessage "Not found.") req db' calls
            else reply 200 [] (JMessage "Updated") req db' calls
        end
    end).

(** app.delete("/api/admin/registrations/:id") *)
Definition delete_admin_registration : handler := isAdmin (λ e req db,
  let id := Number_ (VStr (req_id req)) in
  if negb (Number_isInteger id) then
    reply 400 [] (JMessage "Invalid id.") req db []
  else
    let calls := [Sql "DELETE FROM registrations WHERE id = ?"] in
    match delete_by_id "registrations" id db with
    | Failed _ =>
        reply 500 [] (JMessage "Failed to delete registration.") req db
              (calls ++ [ConsoleError "Registration delete failed"])
    | Done (db', changes) =>
        if changes =? 0 then reply 404 [] (JMessage "Not found.") req db' calls
        else reply 200 [] (JMessage "Deleted") req db' calls
    end).

(** The routes of the application. *)
Inductive route :=
  | PostRegistrations
  | PostAdminLogin
  | PostAdminLogout
  | GetAdminMe
  | GetAdminRegistrations
  | GetAdminRegistration
  | PutAdminRegistration
  | DeleteAdminRegistration.

Definition dispatch (r : route) : handler :=
  match r with
  | PostRegistrations => post_registrations
  | PostAdminLogin => post_admin_login
  | PostAdminLogout => post_admin_logout
  | GetAdminMe => get_admin_me
  | GetAdminRegistrations => get_admin_registrations
  | GetAdminRegistration => get_admin_registration
  | PutAdminRegistration => put_admin_registration
  | DeleteAdminRegistration => delete_admin_registration
  end.

(* ================================================================== *)
(** ** The specification's reading of the rules *)
(* ================================================================== *)

(** The eight rules of the Validation Layer, in their order. *)
Inductive rule :=
  | RFullName | RSex | RPhone | REmail
  | RDestination | RCity | RPersons | RTravelTime.

Definition rank (k : rule) : nat :=
  match k with
  | RFullName => 1 | RSex => 2 | RPhone => 3 | REmail => 4
  | RDestination => 5 | RCity => 6 | RPersons => 7 | RTravelTime => 8
  end%nat.

Definition rule_message (k : rule) : string :=
  match k with
  | RFullName => "Full name is required."
  | RSex => "Sex is required."
  | RPhone => "Phone must match +234-801-234-5678 format."
  | REmail => "Email is required."
  | RDestination => "Destination is required."
  | RCity => "City is required."
  | RPersons => "Number of persons must be between 1 and 20."
  | RTravelTime => "Travel time is required."
  end.

(** A member is present when it is there and is not the empty text. *)
Definition present (v : value) : bool :=
  match v with
  | VUndefined | VNull => false
  | VStr s => negb (String.eqb s "")
  | _ => true
  end.

Definition text_length_ge (n : nat) (v : value) : bool :=
  match v with
  | VStr s => (n <=? String.length s)%nat
  | _ => false
  end.

Definition text_matches (r : regex) (v : value) : bool :=
  match v with
  | VStr s => matches r s
  | _ => false
  end.

Definition text_contains (t : string) (v : value) : bool :=
  match v with
  | VStr s => includes s t
  | _ => false
  end.

(** The value denotes (as [Number] reads it) an integer between [lo]
    and [hi]. *)
Definition integer_between (lo hi : Z) (v : value) : bool :=
  match num_to_Z (Number_ v) with
  | Some z => (lo <=? z) && (z <=? hi)
  | None => false
  end.

Definition satisfies (k : rule) (p : gmap string value) : bool :=
  match k with
  | RFullName => present (get p "fullName") && text_length_ge 2 (get p "fullName")
  | RSex => present (get p "sex")
  | RPhone => text_matches phoneRegex (get p "phone")
  | REmail => present (get p "email") && text_contains "@" (get p "email")
  | RDestination => present (get p "destination")
  | RCity => present (get p "city") && text_length_ge 2 (get p "city")
  | RPersons => integer_between 1 20 (get p "persons")
  | RTravelTime => present (get p "travelTime")
  end.

(** The data model types seven validated members and [message] as
    text: such a member is a string when it is there at all. *)
Definition text_or_absent (v : value) : bool :=
  match v with
  | VStr _ | VUndefined | VNull => true
  | _ => false
  end.

Definition validated_text_members : list string :=
  ["fullName"; "sex"; "phone"; "email"; "destination"; "city"; "travelTime"].

Definition text_members (names : list string) (p : gmap string value) : bool :=
  forallb (λ k, text_or_absent (get p k)) names.

Definition text_payload (p : gmap string value) : bool :=
  text_members ("message" :: validated_text_members) p.

Definition text_body (b : option (gmap string value)) : bool :=
  match b with
  | Some p => text_payload p
  | None => true
  end.

(** The enumeration of the data model for [sex]. *)
Definition sex_enumeration : list value :=
  [VStr "female"; VStr "male"; VStr "nonbinary"; VStr "prefer-not"].

(* ================================================================== *)
(** ** Store states *)
(* ================================================================== *)

Definition stored_columns : list string :=
  ["full_name"; "sex"; "phone"; "email"; "destination"; "city";
   "persons"; "travel_time"; "message"; "created_at"].

(** The shape [initializeDatabase] leaves the registrations table in:
    the ten columns of the application, in any order, and no other. *)
Definition table_ready (t : table) : bool :=
  forallb (λ c, bool_decide (col_name c ∈ stored_columns) && negb (col_unique c))
          (tbl_columns t)
  && forallb (has_column t) stored_columns.

Definition ready (db : gmap string table) : bool :=
  match db !! "registrations" with
  | Some t => table_ready t
  | None => false
  end.

(** The stored registration with the given id. *)
Definition stored (db : gmap string table) (id : Z) : option (gmap string value) :=
  t ← db !! "registrations"; tbl_rows t !! id.

(** A stored row read back as a payload. *)
Definition row_payload (r : gmap string value) : gmap string value :=
  list_to_map
    [ ("fullName", get r "full_name"); ("sex", get r "sex");
      ("phone", get r "phone"); ("email", get r "email");
      ("destination", get r "destination"); ("city", get r "city");
      ("persons", get r "persons"); ("travelTime", get r "travel_time");
      ("message", get r "message") ].

(** The request path [idstr] addresses the row [id]. *)
Definition addresses (idstr : string) (id : Z) : Prop :=
  num_to_Z (Number_ (VStr idstr)) = Some id.

(** The record a fetch returns for the registration [p] saved under
    [id] at time [created]. *)
Definition registration_record (id : Z) (created : string)
    (p : gmap string value) : gmap string value :=
  list_to_map
    [ ("id", VNum (of_Z id));
      ("full_name", get p "fullName");
      ("sex", get p "sex");
      ("phone", get p "phone");
      ("email", get p "email");
      ("destination", get p "destination");
      ("city", get p "city");
      ("persons", VNum (Number_ (get p "persons")));
      ("travel_time", get p "travelTime");
      ("message", or_ (get p "message") (VStr ""));
      ("created_at", VStr created) ].

(** The states the store goes through: a fresh database initialised at
    start-up, then requests whose bodies are typed as the data model
    says, and restarts. *)
Inductive reachable : gmap string table → Prop :=
  | reachable_boot e :
      reachable (initializeDatabase e ∅).1
  | reachable_request db r e req :
      reachable db → text_body (req_body req) = true →
      reachable (db_after (dispatch r e req db))
  | reachable_restart db e :
      reachable db → reachable (initializeDatabase e db).1.

Definition is_console_error (ev : event) : bool :=
  match ev with ConsoleError _ => true | _ => false end.

Definition is_bcrypt_compare (ev : event) : bool :=
  match ev with BcryptCompare _ _ => true | _ => false end.

(** The admin-only registration operations. *)
Definition admin_only (r : route) : bool :=
  match r with
  | GetAdminRegistrations | GetAdminRegistration
  | PutAdminRegistration | DeleteAdminRegistration => true
  | _ => false
  end.

(* ================================================================== *)
(** ** Predicates on the store *)
(* ================================================================== *)

(** The four schema statements of [initializeDatabase], in order, the
    errors of the two ALTER TABLE statements dropped. *)
Definition schema_statements (db : gmap string table) : gmap string table :=
  let db1 := create_table_if_not_exists "registrations" registrations_columns db in
  let db2 := ignore_error db1
    (alter_table_add_column "registrations" (Column "city" "TEXT" true false (VStr "")) db1) in
  let db3 := ignore_error db2
    (alter_table_add_column "registrations" (Column "email" "TEXT" true false (VStr "")) db2) in
  create_table_if_not_exists "admins" admins_columns db3.

(** Both tables exist, and the registrations table has the two migrated
    columns. *)
Definition schema_ready (db : gmap string table) : Prop :=
  (∃ t, db !! "registrations" = Some t ∧
        has_column t "city" = true ∧ has_column t "email" = true) ∧
  (∃ t, db !! "admins" = Some t).

(** The calls of a run of [initializeDatabase] that finds the
    administrator. *)
Definition quiet_run : list event :=
  [ Sql "CREATE TABLE IF NOT EXISTS registrations";
    Sql "ALTER TABLE registrations ADD COLUMN city";
    Sql "ALTER TABLE registrations ADD COLUMN email";
    Sql "CREATE TABLE IF NOT EXISTS admins";
    Sql "SELECT id FROM admins WHERE username = ?" ].

(** What a run without error leaves: the registrations table with its
    two migrated columns, and an administrator under the configured
    name. *)
Definition initialised (u : string) (db : gmap string table) : Prop :=
  schema_ready db ∧
  (∃ row, select_where "admins" ["id"] "username" (VStr u) db = Done (Some row)).

(** What the store is known to hold: the registrations table in its
    initialised shape, and in it only rows that pass validation and
    hold text where the data model says text. *)
Definition row_ok (r : gmap string value) : Prop :=
  validateRegistration (Some (row_payload r)) = None ∧
  text_payload (row_payload r) = true.

Definition store_ok (db : gmap string table) : Prop :=
  ready db = true ∧ ∀ id r, stored db id = Some r → row_ok r.

(** Looking a name up in a list of pairs, first match first. *)
Fixpoint assoc (k : string) (l : list (string * value)) : option value :=
  match l with
  | [] => None
  | (k', v) :: l' => if String.eqb k' k then Some v else assoc k l'
  end.

(* ================================================================== *)
(** ** Sample data *)
(* ================================================================== *)

Definition sample_env : env :=
  Env "2024-05-01T09:00:00.000Z" None None
      (λ pw, Some ("$2a$10$" +:+ pw))
      (λ pw hash, Some (bool_decide (VStr ("$2a$10$" +:+ String_ pw) = hash))).

Definition sample_db : gmap string table := (initializeDatabase sample_env ∅).1.

(** Scenario 1 of the specification. *)
Definition ada : gmap string value :=
  list_to_map
    [ ("fullName", VStr "Ada"); ("sex", VStr "female");
      ("phone", VStr "+234-801-234-5678"); ("email", VStr "a@example.com");
      ("destination", VStr "Kenya"); ("city", VStr "Nairobi");
      ("persons", VNum (of_Z 2)); ("travelTime", VStr "2024-05-01T10:00") ].

(** The same registration as the form sends it: [persons] is the text
    of the input field. *)
Definition ada_form : gmap string value := <["persons" := VStr "3"]> ada.

Definition anonymous : session := Session VUndefined VUndefined.
Definition admin_session : session := Session (VNum (of_Z 1)) (VStr "admin").

(** The same environment with the argument check of bcryptjs: a
    comparison whose arguments are not both strings calls back with the
    error "Illegal arguments". *)
Definition strict_env : env :=
  Env (now sample_env) None None (bcrypt_hash sample_env)
      (λ pw hash,
         match pw, hash with
         | VStr s, VStr h => Some (bool_decide ("$2a$10$" +:+ s = h))
         | _, _ => None
         end).

(** Two login bodies with the number 123 as the password. *)
Definition admin_123 : gmap string value :=
  list_to_map [("username", VStr "admin"); ("password", VNum (of_Z 123))].
Definition nobody_123 : gmap string value :=
  list_to_map [("username", VStr "nobody"); ("password", VNum (of_Z 123))].

(** The store after a registration whose [sex] is not one of the four
    options of the form. *)
Definition other_db : gmap string table :=
  db_after (post_registrations sample_env
              (Request anonymous "" (Some (<["sex" := VStr "other"]> ada))) sample_db).

Definition sample_db1 : gmap string table :=
  db_after (post_registrations sample_env (Request anonymous "" (Some ada)) sample_db).

(* ================================================================== *)
(** ** The registration form (script.js) *)
(* ================================================================== *)

(** [value.replace(/\D/g, "")]: the digits of the string, in order. *)
Fixpoint keep_digits (s : string) : string :=
  match s with
  | EmptyString => EmptyString
  | String c s' => if is_digit c then String c (keep_digits s') else keep_digits s'
  end.

(** Every character of the string is a digit. *)
Fixpoint all_digits (s : string) : bool :=
  match s with
  | EmptyString => true
  | String c s' => is_digit c && all_digits s'
  end.

(** [s.slice(a, b)] for [0 <= a <= b]; both ends are clamped to the
    length. *)
Definition slice (s : string) (a b : nat) : string := substring a (b - a) s.

(** [s.slice(a)] *)
Definition slice_from (s : string) (a : nat) : string :=
  substring a (String.length s - a) s.

(** formatPhoneNumber *)
Definition formatPhoneNumber (value : string) : string :=
  let digits := keep_digits value in
  if String.eqb digits "" then ""
  else
    let maxDigits := slice digits 0 13 in
    let countryLength :=
      Z.to_nat (Z.max 1 (Z.min 3 (Z.of_nat (String.length maxDigits) - 10))) in
    let country := slice maxDigits 0 countryLength in
    let local := slice_from maxDigits countryLength in
    let part1 := slice local 0 3 in
    let part2 := slice local 3 6 in
    let part3 := slice local 6 10 in
    let formatted := "+" +:+ country in
    let formatted := if String.eqb part1 "" then formatted
                     else formatted +:+ "-" +:+ part1 in
    let formatted := if String.eqb part2 "" then formatted
                     else formatted +:+ "-" +:+ part2 in
    let formatted := if String.eqb part3 "" then formatted
                     else formatted +:+ "-" +:+ part3 in
    formatted.

(** The listener of the phone input: the value the field is left with
    and the message given to [setCustomValidity]. *)
Definition phone_input (value : string) : string * string :=
  let formatted := formatPhoneNumber value in
  if negb (String.eqb formatted "") && negb (matches phoneRegex formatted)
  then (formatted, "Use the format +234-801-234-5678.")
  else (formatted, "").

(** [formData.get(name)]: the text of the field, [null] when the form
    has no such field. *)
Definition form_value (v : option string) : value :=
  match v with
  | Some s => VStr s
  | None => VNull
  end.

(** The payload the submit listener posts. *)
Definition submit_payload (formData : string → option string) : gmap string value :=
  list_to_map
    [ ("fullName", form_value (formData "fullName"));
      ("sex", form_value (formData "sex"));
      ("phone", form_value (formData "phone"));
      ("email", form_value (formData "email"));
      ("destination", form_value (formData "destination"));
      ("city", form_value (formData "city"));
      ("persons", form_value (formData "persons"));
      ("travelTime", form_value (formData "travelTime"));
      ("message", form_value (formData "message")) ].

(** The fields of the form filled in as in scenario 1; the form holds
    [persons] as text. *)
Definition ada_fields (name : string) : option string :=
  match ada_form !! name with
  | Some (VStr s) => Some s
  | _ => None
  end.

(* ================================================================== *)
(** ** Sequences of requests *)
(* ================================================================== *)

(** The session the next request of the same client carries: the one
    the response left, a new empty one after a logout. *)
Definition next_session (r : result) : session :=
  default (Session VUndefined VUndefined) (session_after r).

(** What happens to the store between two observations: a request is
    handled, or the server is started again on the same database file. *)
Inductive step :=
  | Handle (r : route) (e : env) (req : request)
  | Restart (e : env).

Definition run_step (db : gmap string table) (s : step) : gmap string table :=
  match s with
  | Handle r e req => db_after (dispatch r e req db)
  | Restart e => (initializeDatabase e db).1
  end.

(** The store after a sequence of steps. *)
Definition serve (steps : list step) (db : gmap string table) : gmap string table :=
  foldl run_step db steps.

(** The largest registration id handed out so far. *)
Definition issued (db : gmap string table) : Z :=
  match db !! "registrations" with
  | Some t => tbl_seq t
  | None => 0
  end.

(** The sequence number of the registrations table is at least every id
    in use. *)
Definition sequence_covers (db : gmap string table) : Prop :=
  ∀ id, stored db id ≠ None → id <= issued db.

(** The members of a payload the server reads. *)
Definition read_members : list string :=
  ["fullName"; "sex"; "phone"; "email"; "destination"; "city"; "persons";
   "travelTime"; "message"].

(** The columns the INSERT and the UPDATE of a registration write from
    the payload. *)
Definition written_columns : list string :=
  ["full_name"; "sex"; "phone"; "email"; "destination"; "city"; "persons";
   "travel_time"; "message"].

(** The three ways a request changes the store: a row under an id that
    is new and above the sequence number, new cells in the written
    columns of a row, a row removed; the columns of the table stay and
    its sequence number does not go down. *)
Inductive store_change (db db' : gmap string table) : Prop :=
  | change_insert t id r :
      db !! "registrations" = Some t → tbl_rows t !! id = None → tbl_seq t < id →
      db' = <["registrations" := Table (tbl_columns t) (<[id := r]> (tbl_rows t)) id]> db →
      store_change db db'
  | change_update t k old r :
      db !! "registrations" = Some t → tbl_rows t !! k = Some old →
      (∀ c, c ∉ written_columns → r !! c = old !! c) →
      db' = <["registrations" := Table (tbl_columns t) (<[k := r]> (tbl_rows t))
                                       (tbl_seq t)]> db →
      store_change db db'
  | change_delete t k old :
      db !! "registrations" = Some t → tbl_rows t !! k = Some old →
      db' = <["registrations" := Table (tbl_columns t) (delete k (tbl_rows t))
                                       (tbl_seq t)]> db →
      store_change db db'.

(** A list of cells runs from the greatest to the least in the order of
    ORDER BY. *)
Fixpoint descending (l : list value) : bool :=
  match l with
  | a :: l' =>
      match l' with
      | b :: _ => cell_leb b a && descending l'
      | [] => true
      end
  | [] => true
  end.

(** The administrators table has the columns the login reads. *)
Definition admins_ready (db : gmap string table) : bool :=
  match db !! "admins" with
  | Some t => negb (unknown_column t ["username"; "id"; "password_hash"])
  | None => false
  end.

(** Both tables are there with the columns the handlers name. *)
Definition healthy (db : gmap string table) : bool := ready db && admins_ready db.

(* ================================================================== *)
(** * Properties *)
(* ================================================================== *)

(** Membership in a list that is written out. *)
Ltac in_list := repeat first [apply list_elem_of_here | apply list_elem_of_further].

(** Closed goals over finite maps, settled by evaluating their decision
    procedure. *)
Ltac by_compute :=
  lazymatch goal with
  | |- ?P => apply (bool_decide_eq_true_1 P); vm_compute; reflexivity
  end.

(** ** Numbers *)

Lemma Zcompare_scale (n m p : Z) : 0 < p → (n * p ?= m * p) = (n ?= m).
Proof.
  intros Hp.
  destruct (Z.compare_spec n m), (Z.compare_spec (n * p) (m * p)); first [done | nia].
Qed.

Lemma fin_compare_scaled m1 e1 m2 e2 e :
  e <= e1 → e <= e2 →
  fin_compare m1 e1 m2 e2 = (m1 * 2 ^ (e1 - e) ?= m2 * 2 ^ (e2 - e)).
Proof.
  intros H1 H2. unfold fin_compare.
  set (mn := Z.min e1 e2).
  assert (Hmn : e <= mn) by (unfold mn; lia).
  assert (Hp : 0 < 2 ^ (mn - e)) by (apply Z.pow_pos_nonneg; lia).
  rewrite <- (Zcompare_scale _ _ _ Hp).
  rewrite <- !Z.mul_assoc, <- !Z.pow_add_r by (unfold mn; lia).
  by replace (e1 - mn + (mn - e)) with (e1 - e) by lia;
     replace (e2 - mn + (mn - e)) with (e2 - e) by lia.
Qed.

(** Comparing a number that denotes the integer [z] with the integer
    [k * 2^ke] compares the integers. *)
Lemma fin_compare_integer m e z k ke :
  num_to_Z (Fin m e) = Some z → 0 <= ke →
  fin_compare m e k ke = (z ?= k * 2 ^ ke) ∧
  fin_compare k ke m e = (k * 2 ^ ke ?= z).
Proof.
  intros Hz Hke. unfold num_to_Z in Hz.
  destruct (0 <=? e) eqn:He.
  - apply Z.leb_le in He. injection Hz as <-.
    rewrite (fin_compare_scaled m e k ke 0), (fin_compare_scaled k ke m e 0) by lia.
    by rewrite !Z.sub_0_r.
  - apply Z.leb_gt in He.
    destruct (m mod 2 ^ (- e) =? 0) eqn:Hm; [|done].
    apply Z.eqb_eq in Hm. injection Hz as <-.
    assert (Hp : 0 < 2 ^ (- e)) by (apply Z.pow_pos_nonneg; lia).
    assert (Hd : m = m / 2 ^ (- e) * 2 ^ (- e)).
    { rewrite (Z.div_mod m (2 ^ (- e))) at 1 by lia. rewrite Hm. lia. }
    rewrite (fin_compare_scaled m e k ke e), (fin_compare_scaled k ke m e e) by lia.
    rewrite Z.sub_diag, Z.pow_0_r, Z.mul_1_r.
    replace (ke - e) with (ke + - e) by lia.
    rewrite Z.pow_add_r, Z.mul_assoc by lia.
    rewrite Hd at 1 3.
    by rewrite !Zcompare_scale.
Qed.

(** The test of the persons rule, on any number, is the test that the
    number denotes an integer from 1 to 20. *)
Lemma persons_test_spec (x : number) :
  negb (Number_isInteger x) || num_ltb x (of_Z 1) || num_gtb x (of_Z 20)
  = negb (match num_to_Z x with
          | Some z => (1 <=? z) && (z <=? 20)
          | None => false
          end).
Proof.
  change (of_Z 1) with (Fin 1 0). change (of_Z 20) with (Fin 5 2).
  unfold Number_isInteger, num_gtb.
  destruct x as [|[]|m e]; try done.
  destruct (num_to_Z (Fin m e)) as [z|] eqn:Hz; [|done].
  cbn [negb orb num_ltb].
  destruct (fin_compare_integer m e z 1 0 Hz) as [-> _]; [lia|].
  destruct (fin_compare_integer m e z 5 2 Hz) as [_ ->]; [lia|].
  change (1 * 2 ^ 0) with 1. change (5 * 2 ^ 2) with 20.
  destruct (Z.compare_spec z 1), (Z.compare_spec 20 z);
    destruct (Z.leb_spec 1 z), (Z.leb_spec z 20); simpl; first [done | lia].
Qed.

(** ** Validation on text *)

Lemma length_test_text (v : value) :
  text_or_absent v = true →
  not_ v || lt_ (length_ v) (of_Z 2) = negb (present v && text_length_ge 2 v).
Proof.
  change (of_Z 2) with (Fin 1 1).
  destruct v as [| |b|n|s]; try done. intros _.
  unfold not_, lt_. cbn [ToBoolean length_ Number_ num_ltb present text_length_ge].
  rewrite negb_involutive.
  rewrite (fin_compare_scaled _ 0 1 1 0) by lia.
  change (1 * 2 ^ (1 - 0)) with 2. rewrite Z.sub_diag, Z.pow_0_r, Z.mul_1_r.
  destruct s as [|a [|b s]]; try done.
  cbn [String.length String.eqb negb andb orb].
  destruct (Z.compare_spec (Z.of_nat (S (S (String.length s)))) 2); simpl; first [done | lia].
Qed.

Lemma present_test_text (v : value) :
  text_or_absent v = true → not_ v = negb (present v).
Proof. by destruct v. Qed.

Lemma phone_test_text (v : value) :
  text_or_absent v = true →
  test phoneRegex (or_ v (VStr "")) = text_matches phoneRegex v.
Proof. by destruct v as [| |b|n|[|a s]]. Qed.

Lemma email_test_text (v : value) :
  text_or_absent v = true →
  not_ v || negb (includes (String_ v) "@") = negb (present v && text_contains "@" v).
Proof. by destruct v as [| |b|n|[|a s]]. Qed.

Lemma text_members_get names p k :
  text_members names p = true → k ∈ names → text_or_absent (get p k) = true.
Proof.
  unfold text_members. rewrite forallb_forall. intros H Hk.
  apply H. by apply list_elem_of_In.
Qed.

(** On a payload typed as the data model says, the validator answers
    with the message of the first rule the payload does not satisfy. *)
Lemma validate_text_spec (p : gmap string value) :
  text_members validated_text_members p = true →
  validateRegistration (Some p) =
    if negb (satisfies RFullName p) then Some (rule_message RFullName)
    else if negb (satisfies RSex p) then Some (rule_message RSex)
    else if negb (satisfies RPhone p) then Some (rule_message RPhone)
    else if negb (satisfies REmail p) then Some (rule_message REmail)
    else if negb (satisfies RDestination p) then Some (rule_message RDestination)
    else if negb (satisfies RCity p) then Some (rule_message RCity)
    else if negb (satisfies RPersons p) then Some (rule_message RPersons)
    else if negb (satisfies RTravelTime p) then Some (rule_message RTravelTime)
    else None.
Proof.
  intros Ht.
  assert (Hk : ∀ k, k ∈ validated_text_members → text_or_absent (get p k) = true)
    by (intros; by eapply text_members_get).
  unfold validateRegistration, satisfies, integer_between.
  rewrite !length_test_text, email_test_text, phone_test_text, !present_test_text,
    persons_test_spec by (apply Hk; in_list).
  done.
Qed.

(** ** What a valid payload contains *)

Lemma validate_None_inv (p : gmap string value) :
  validateRegistration (Some p) = None →
  ToBoolean (get p "fullName") = true ∧ ToBoolean (get p "sex") = true ∧
  ToBoolean (get p "phone") = true ∧ ToBoolean (get p "email") = true ∧
  ToBoolean (get p "destination") = true ∧ ToBoolean (get p "city") = true ∧
  ToBoolean (get p "travelTime") = true ∧
  integer_between 1 20 (get p "persons") = true.
Proof.
  unfold validateRegistration, integer_between. rewrite persons_test_spec.
  unfold not_.
  destruct (ToBoolean (get p "fullName")); [|done].
  destruct (lt_ _ _); [done|].
  destruct (ToBoolean (get p "sex")); [|done].
  destruct (test phoneRegex _) eqn:Hphone; [|done].
  destruct (ToBoolean (get p "email")); [|done].
  destruct (includes _ _); [|done].
  destruct (ToBoolean (get p "destination")); [|done].
  destruct (ToBoolean (get p "city")); [|done].
  destruct (lt_ _ _); [done|].
  destruct (num_to_Z _) as [z|]; [|done].
  destruct ((1 <=? z) && (z <=? 20)); [|done].
  destruct (ToBoolean (get p "travelTime")); [|done].
  intros _. repeat split.
  unfold or_ in Hphone. by destruct (ToBoolean (get p "phone")).
Qed.

Lemma truthy_not_null (v : value) : ToBoolean v = true → is_null (bind v) = false.
Proof. by destruct v as [| |[]| |]. Qed.

Lemma truthy_text (v : value) :
  ToBoolean v = true → text_or_absent v = true → bind v = v.
Proof. by destruct v. Qed.

Lemma message_text (v : value) :
  text_or_absent v = true → bind (or_ v (VStr "")) = or_ v (VStr "").
Proof. by destruct v as [| | | |[|a s]]. Qed.

Lemma message_not_null (v : value) : is_null (bind (or_ v (VStr ""))) = false.
Proof. unfold or_. destruct (ToBoolean v) eqn:H; [by apply truthy_not_null|done]. Qed.

(** ** Rows *)

Lemma list_to_map_assoc (l : list (string * value)) (k : string) :
  (list_to_map l : gmap string value) !! k = assoc k l.
Proof.
  induction l as [|[k' v] l IH]; [done|].
  cbn [list_to_map foldr assoc uncurry]. rewrite lookup_insert.
  destruct (String.eqb_spec k' k); case_decide; simplify_eq; done.
Qed.

Lemma assign_row_lookup (a : list (string * value)) (old : gmap string value) (k : string) :
  assign_row a old !! k =
    match assoc k a with
    | Some v => Some (bind v)
    | None => old !! k
    end.
Proof.
  unfold assign_row. rewrite lookup_union, lookup_fmap, list_to_map_assoc.
  destruct (assoc k a); simpl; by destruct (old !! k).
Qed.

Lemma max_key_ge (rows : gmap Z (gmap string value)) k r :
  rows !! k = Some r → k <= max_key rows.
Proof.
  intros H. apply elem_of_map_to_list in H.
  assert (Hk : k ∈ (map_to_list rows).*1) by (apply list_elem_of_fmap; by exists (k, r)).
  clear H. unfold max_key. induction Hk as [x l|x y l _ IH]; simpl; lia.
Qed.

Lemma next_id_fresh (t : table) :
  tbl_rows t !! (Z.max (tbl_seq t) (max_key (tbl_rows t)) + 1) = None.
Proof.
  destruct (tbl_rows t !! _) as [r|] eqn:H; [|done].
  apply max_key_ge in H. lia.
Qed.

Lemma existsb_false {A} (f : A → bool) (l : list A) :
  (∀ x, x ∈ l → f x = false) → existsb f l = false.
Proof.
  intros H. induction l as [|x l IH]; [done|]. simpl.
  rewrite (H x), IH; [done| |]; set_solver.
Qed.

(** ** The registrations table once initialised *)

Lemma ready_table (db : gmap string table) :
  ready db = true →
  ∃ t, db !! "registrations" = Some t ∧
       (∀ c, c ∈ tbl_columns t → col_name c ∈ stored_columns ∧ col_unique c = false) ∧
       (∀ k, k ∈ stored_columns → has_column t k = true).
Proof.
  unfold ready. destruct (db !! "registrations") as [t|]; [|done].
  unfold table_ready. rewrite andb_true_iff, !forallb_forall.
  intros [H1 H2]. exists t. split; [done|]. split.
  - intros c Hc. apply list_elem_of_In, H1 in Hc.
    apply andb_true_iff in Hc as [Hc Hu]. apply bool_decide_eq_true in Hc.
    by destruct (col_unique c).
  - intros k Hk. by apply H2, list_elem_of_In.
Qed.

Lemma ready_known (t : table) (cols : list string) :
  (∀ k, k ∈ stored_columns → has_column t k = true) →
  forallb (λ c, bool_decide (c ∈ "id" :: stored_columns)) cols = true →
  unknown_column t cols = false.
Proof.
  intros H Hsub. unfold unknown_column. apply negb_false_iff, forallb_forall.
  intros c Hc. rewrite forallb_forall in Hsub.
  apply Hsub, bool_decide_eq_true, elem_of_cons in Hc as [->|Hc].
  - apply orb_true_r.
  - by rewrite H.
Qed.

Lemma no_unique_violation (t : table) self r :
  (∀ c, c ∈ tbl_columns t → col_name c ∈ stored_columns ∧ col_unique c = false) →
  violates_unique t self r = false.
Proof.
  intros H. apply existsb_false. intros c Hc. by destruct (H c Hc) as [_ ->].
Qed.

(** The cells a valid payload writes are not NULL. *)
Lemma written_cells_not_null (p : gmap string value) (extra : list (string * value))
    (old : gmap string value) (k : string) :
  validateRegistration (Some p) = None →
  k ∈ (registration_params p).*1 →
  is_null (default VNull (assign_row (registration_params p ++ extra) old !! k)) = false.
Proof.
  intros Hv Hk. apply validate_None_inv in Hv as (?&?&?&?&?&?&?&?).
  rewrite assign_row_lookup. cbn in Hk.
  set_unfold in Hk.
  destruct Hk as [->|[->|[->|[->|[->|[->|[->|[->|[->|[]]]]]]]]]];
    cbn; first [by apply truthy_not_null | by apply message_not_null | done].
Qed.

(** ** Statements on an initialised store *)

Lemma addresses_integer idstr id :
  addresses idstr id →
  Number_isInteger (Number_ (VStr idstr)) = true ∧ row_id (Number_ (VStr idstr)) = Some id.
Proof. unfold addresses, Number_isInteger, row_id. by intros ->. Qed.

Lemma registration_params_names (p : gmap string value) :
  (registration_params p).*1 =
  ["full_name"; "sex"; "phone"; "email"; "destination"; "city";
   "persons"; "travel_time"; "message"].
Proof. done. Qed.

Lemma insert_registration (db : gmap string table) (p : gmap string value) (created : string) :
  ready db = true → validateRegistration (Some p) = None →
  ∃ t, db !! "registrations" = Some t ∧
    let id := Z.max (tbl_seq t) (max_key (tbl_rows t)) + 1 in
    let r := assign_row (registration_params p ++ [("created_at", VStr created)])
                        (default_row t) in
    insert_into "registrations"
      (registration_params p ++ [("created_at", VStr created)]) db
    = Done (<["registrations" := Table (tbl_columns t) (<[id := r]> (tbl_rows t)) id]> db, id).
Proof.
  intros Hr Hv. destruct (ready_table db Hr) as (t & Ht & Hcols & Hhas).
  exists t. split; [done|]. cbn zeta. unfold insert_into. rewrite Ht.
  rewrite ready_known; [|done|].
  2:{ by rewrite fmap_app, registration_params_names. }
  rewrite no_unique_violation by done.
  replace (violates_notnull _ _ _) with false; [done|].
  symmetry. apply existsb_false. intros c Hc.
  destruct (Hcols c Hc) as [Hn _].
  replace (is_null _) with false; [by rewrite andb_false_r|].
  symmetry. unfold stored_columns in Hn.
  change (col_name c ∈ (registration_params p).*1 ++ ["created_at"]) in Hn.
  apply elem_of_app in Hn as [Hn|Hn].
  - by apply written_cells_not_null.
  - apply list_elem_of_singleton in Hn as ->. by rewrite assign_row_lookup.
Qed.

Lemma select_registration (db : gmap string table) (id : number) :
  ready db = true →
  ∃ t, db !! "registrations" = Some t ∧
    select_by_id "registrations" registration_select id db
    = Done (k ← row_id id; select_columns registration_select k <$> tbl_rows t !! k).
Proof.
  intros Hr. destruct (ready_table db Hr) as (t & Ht & Hcols & Hhas).
  exists t. split; [done|]. unfold select_by_id. rewrite Ht.
  by rewrite ready_known.
Qed.

Lemma update_registration (db : gmap string table) (p : gmap string value) (id : number) :
  ready db = true → validateRegistration (Some p) = None →
  ∃ t, db !! "registrations" = Some t ∧
    update_by_id "registrations" (registration_params p) id db
    = match k ← row_id id; (λ r, (k, r)) <$> tbl_rows t !! k with
      | None => Done (db, 0)
      | Some (k, old) =>
          Done (<["registrations" :=
                    Table (tbl_columns t)
                          (<[k := assign_row (registration_params p) old]> (tbl_rows t))
                          (tbl_seq t)]> db, 1)
      end.
Proof.
  intros Hr Hv. destruct (ready_table db Hr) as (t & Ht & Hcols & Hhas).
  exists t. split; [done|]. unfold update_by_id. rewrite Ht.
  rewrite ready_known; [|done|].
  2:{ by rewrite registration_params_names. }
  destruct (_ ≫= _) as [[k old]|]; [|done].
  rewrite no_unique_violation by done.
  replace (violates_notnull _ _ _) with false; [done|].
  symmetry. apply existsb_false. intros c Hc.
  destruct (bool_decide_reflect (col_name c ∈ (registration_params p).*1)) as [Hn|Hn].
  - pose proof (written_cells_not_null p [] old (col_name c) Hv Hn) as Hw.
    rewrite app_nil_r in Hw. by rewrite Hw, andb_false_r.
  - by rewrite andb_false_r.
Qed.

(** What a fetch builds from the row a valid, typed payload wrote. *)
Lemma select_written_row (p : gmap string value) (id : Z) (created : string)
    (old : gmap string value) :
  validateRegistration (Some p) = None → text_payload p = true →
  select_columns registration_select id
    (assign_row (registration_params p ++ [("created_at", VStr created)]) old)
  = registration_record id created p.
Proof.
  intros Hv Ht. apply validate_None_inv in Hv as (?&?&?&?&?&?&?&?).
  assert (Hk : ∀ k, k ∈ "message" :: validated_text_members →
               text_or_absent (get p k) = true)
    by (intros; by eapply text_members_get).
  unfold select_columns, registration_record, registration_select.
  cbn [fmap list_fmap String.eqb Ascii.eqb Bool.eqb].
  rewrite !assign_row_lookup.
  cbn [assoc registration_params app String.eqb Ascii.eqb Bool.eqb default from_option bind].
  unfold Datatypes.id.
  rewrite message_text, !truthy_text;
    first [done | apply Hk; in_list].
Qed.

(** ** The order of the rules *)

(** C2 (as amended): on a payload typed as the data model says (each of the seven
    text members is a string when it is there), if the payload violates
    rule [k] and satisfies every rule before [k] in the order full name,
    sex, phone, email, destination, city, persons, travel time, the
    validator returns exactly the message of rule [k]; if it satisfies
    all eight rules the validator returns nothing. *)
Theorem validate_first_failure (p : gmap string value) :
  text_members validated_text_members p = true →
  (∀ k, (∀ j, (rank j < rank k)%nat → satisfies j p = true) →
        satisfies k p = false →
        validateRegistration (Some p) = Some (rule_message k)) ∧
  ((∀ k, satisfies k p = true) → validateRegistration (Some p) = None).
Proof.
  intros Ht. rewrite (validate_text_spec p Ht). split.
  - intros k Hprev Hk.
    destruct k; rewrite Hk;
      rewrite ?(Hprev RFullName), ?(Hprev RSex), ?(Hprev RPhone), ?(Hprev REmail),
        ?(Hprev RDestination), ?(Hprev RCity), ?(Hprev RPersons)
        by (cbn; lia);
      done.
  - intros Hall. by rewrite !Hall.
Qed.

Lemma validate_first_failure_witness :
  validateRegistration (Some (<["phone" := VStr "0801234567"]> (<["city" := VStr "N"]> ada)))
  = Some "Phone must match +234-801-234-5678 format." ∧
  validateRegistration (Some ada) = None.
Proof.
  split.
  - destruct (validate_first_failure
                (<["phone" := VStr "0801234567"]> (<["city" := VStr "N"]> ada)))
      as [H _]; [vm_compute; reflexivity|].
    apply (H RPhone); [|vm_compute; reflexivity].
    intros j Hj. destruct j; cbn in Hj; first [vm_compute; reflexivity | lia].
  - destruct (validate_first_failure ada) as [_ H]; [vm_compute; reflexivity|].
    apply H. intros k. destruct k; vm_compute; reflexivity.
Defined.

(** C2 (as stated) fails outside the payloads the data model types: a
    payload whose [fullName] is the number 42 does not satisfy the first
    rule (a number has no length), no rule comes before it, and the
    validator does not answer with that rule's message: it accepts the
    payload. *)
Lemma validate_number_name_accepted :
  satisfies RFullName (<["fullName" := VNum (of_Z 42)]> ada) = false ∧
  validateRegistration (Some (<["fullName" := VNum (of_Z 42)]> ada)) = None ∧
  ¬ (∀ p k, (∀ j, (rank j < rank k)%nat → satisfies j p = true) →
            satisfies k p = false →
            validateRegistration (Some p) = Some (rule_message k)).
Proof.
  split; [vm_compute; reflexivity|]. split; [vm_compute; reflexivity|].
  intros H.
  specialize (H (<["fullName" := VNum (of_Z 42)]> ada) RFullName).
  assert (Hv : validateRegistration (Some (<["fullName" := VNum (of_Z 42)]> ada)) = None)
    by (vm_compute; reflexivity).
  rewrite Hv in H. discriminate H.
  - intros j Hj. destruct j; cbn in Hj; lia.
  - vm_compute; reflexivity.
Qed.

(** Without a body the validator answers before any rule. *)
Remark validate_missing_payload :
  validateRegistration None = Some "Missing registration data.".
Proof. reflexivity. Qed.

(** The phone boundary of the specification. *)
Example phone_boundary :
  matches phoneRegex "+234-801-234-5678" = true ∧
  matches phoneRegex "0801234567" = false ∧
  matches phoneRegex "+234-801-234-567" = false ∧
  matches phoneRegex "234-801-234-5678" = false ∧
  matches phoneRegex "+1-801-234-5678" = true ∧
  matches phoneRegex "+1234-801-234-5678" = false.
Proof. repeat split; vm_compute; reflexivity. Qed.

(** Numeric strings as [Number] reads them. *)
Example number_of_string :
  Number_ (VStr "3") = of_Z 3 ∧ Number_ (VStr " 20 ") = of_Z 20 ∧
  Number_ (VStr "abc") = NaN ∧ Number_ (VStr "") = of_Z 0 ∧
  Number_ (VStr "2.5") = of_decimal 25 (-1) ∧ Number_ (VStr "0x10") = of_Z 16 ∧
  Number_ (VStr "1e1") = of_Z 10 ∧ Number_isInteger (Number_ (VStr "2.5")) = false.
Proof. repeat split; vm_compute; reflexivity. Qed.

Example string_of_number :
  String_ (VNum (of_Z 20)) = "20" ∧ String_ (VNum (of_decimal 25 (-1))) = "2.5" ∧
  String_ (VNum (of_decimal 1 21)) = "1e+21" ∧ String_ (VNum (of_decimal 1 (-7))) = "1e-7".
Proof. repeat split; vm_compute; reflexivity. Qed.

(** ** The persons rule *)

Lemma get_insert_eq (p : gmap string value) k v : get (<[k := v]> p) k = v.
Proof. unfold get. by rewrite lookup_insert_eq. Qed.

Lemma get_insert_ne (p : gmap string value) k k' v :
  k ≠ k' → get (<[k := v]> p) k' = get p k'.
Proof. intros. unfold get. by rewrite lookup_insert_ne. Qed.

(** Once the other members are valid, the verdict depends on [persons]
    alone. *)
Lemma validate_persons (p : gmap string value) (v : value) :
  validateRegistration (Some (<["persons" := VNum (of_Z 1)]> p)) = None →
  validateRegistration (Some (<["persons" := v]> p)) =
    if integer_between 1 20 v then None else Some (rule_message RPersons).
Proof.
  unfold validateRegistration, integer_between.
  rewrite !persons_test_spec, !get_insert_eq, !get_insert_ne by done.
  destruct (not_ (get p "fullName") || _); [done|].
  destruct (not_ (get p "sex")); [done|].
  destruct (negb (test phoneRegex _)); [done|].
  destruct (not_ (get p "email") || _); [done|].
  destruct (not_ (get p "destination")); [done|].
  destruct (not_ (get p "city") || _); [done|].
  change (num_to_Z (Number_ (VNum (of_Z 1)))) with (Some 1). cbn [Z.leb negb andb].
  destruct (not_ (get p "travelTime")); [done|]. intros _.
  by destruct (num_to_Z (Number_ v)) as [z|]; [destruct ((1 <=? z) && (z <=? 20))|].
Qed.

(** C8: in a payload whose other members are valid, [persons] is
    accepted exactly when it denotes an integer from 1 to 20, and is
    otherwise answered with the message of the persons rule; 1 and 20
    are accepted, and 0, 21, "abc" and 2.5 are rejected with that
    message. *)
Theorem persons_boundary (p : gmap string value) :
  validateRegistration (Some (<["persons" := VNum (of_Z 1)]> p)) = None →
  (∀ v, validateRegistration (Some (<["persons" := v]> p)) = None
        ↔ ∃ z, num_to_Z (Number_ v) = Some z ∧ 1 <= z <= 20) ∧
  (∀ v, validateRegistration (Some (<["persons" := v]> p)) ≠ None →
        validateRegistration (Some (<["persons" := v]> p))
        = Some "Number of persons must be between 1 and 20.") ∧
  Forall (λ v, validateRegistration (Some (<["persons" := v]> p)) = None)
         [VNum (of_Z 1); VNum (of_Z 20)] ∧
  Forall (λ v, validateRegistration (Some (<["persons" := v]> p))
               = Some "Number of persons must be between 1 and 20.")
         [VNum (of_Z 0); VNum (of_Z 21); VStr "abc"; VNum (of_decimal 25 (-1))].
Proof.
  intros Hp. split; [|split; [|split]].
  - intros v. rewrite (validate_persons p v Hp). unfold integer_between.
    destruct (num_to_Z (Number_ v)) as [z|].
    + destruct (Z.leb_spec 1 z), (Z.leb_spec z 20); cbn [andb];
        (split; [intros ?; first [by exists z; split; [|lia] | done]
                |intros (z' & [= <-] & ?); first [done | lia]]).
    + split; [done|]. by intros (z & ? & _).
  - intros v. rewrite (validate_persons p v Hp).
    by destruct (integer_between 1 20 v).
  - repeat constructor; by rewrite (validate_persons p _ Hp).
  - repeat constructor; by rewrite (validate_persons p _ Hp).
Qed.

Lemma persons_boundary_witness :
  validateRegistration (Some (<["persons" := VNum (of_Z 20)]> ada)) = None ∧
  validateRegistration (Some (<["persons" := VNum (of_Z 21)]> ada))
  = Some "Number of persons must be between 1 and 20.".
Proof.
  destruct (persons_boundary ada) as (_ & _ & Hin & Hout);
    [vm_compute; reflexivity|].
  split.
  - exact (Forall_inv (Forall_inv_tail Hin)).
  - exact (Forall_inv (Forall_inv_tail Hout)).
Defined.

(** ** The gate *)

(** C5: a request to an admin-only registration operation (list, fetch,
    update, delete) whose session carries no administrator id is answered
    401 with the message "Unauthorized"; the store and the session are
    left as they were and no call leaves the handler.  The middleware
    gives this answer whatever handler it guards, so the guarded handler
    is not run. *)
Theorem unauthenticated_rejected (r : route) (e : env) (req : request)
    (db : gmap string table) :
  admin_only r = true → ToBoolean (adminId (req_session req)) = false →
  dispatch r e req db
  = Result (Response 401 [] (JMessage "Unauthorized")) db (Some (req_session req)) [] ∧
  ∀ next : handler,
    isAdmin next e req db
    = Result (Response 401 [] (JMessage "Unauthorized")) db (Some (req_session req)) [].
Proof.
  intros Hr Ha. split.
  - destruct r; try discriminate Hr; cbn [dispatch];
      unfold get_admin_registrations, get_admin_registration,
        put_admin_registration, delete_admin_registration, isAdmin;
      by rewrite Ha.
  - intros next. unfold isAdmin. by rewrite Ha.
Qed.

Lemma unauthenticated_rejected_witness :
  res (dispatch DeleteAdminRegistration sample_env
         (Request anonymous "1" None) sample_db1)
  = Response 401 [] (JMessage "Unauthorized") ∧
  stored (db_after (dispatch DeleteAdminRegistration sample_env
                      (Request anonymous "1" None) sample_db1)) 1
  = stored sample_db1 1.
Proof.
  destruct (unauthenticated_rejected DeleteAdminRegistration sample_env
              (Request anonymous "1" None) sample_db1) as [H _];
    [reflexivity | reflexivity |].
  rewrite H. split; reflexivity.
Defined.

(** ** Login *)

(** The lookup finds nothing exactly when no row of the table holds the
    username. *)
Lemma lookup_none_iff (db : gmap string table) (t : table) (cols : list string)
    (u : value) :
  db !! "admins" = Some t → unknown_column t ("username" :: cols) = false →
  select_where "admins" cols "username" u db = Done None ↔
  ∀ k r, tbl_rows t !! k = Some r →
         sql_eq (default VNull (r !! "username")) (bind u) = false.
Proof.
  intros Ht Hk. unfold select_where. rewrite Ht, Hk.
  set (P := λ kr : Z * gmap string value,
              sql_eq (default VNull (kr.2 !! "username")) (bind u) = true).
  split.
  - intros Hnone k r Hr.
    destruct (sql_eq _ _) eqn:Heq; [|done]. exfalso.
    assert (Hin : (k, r) ∈ filter P (map_to_list (tbl_rows t))).
    { apply list_elem_of_filter. split; [done|]. by apply elem_of_map_to_list. }
    destruct (filter P (map_to_list (tbl_rows t))) as [|y l]; [|done].
    by apply not_elem_of_nil in Hin.
  - intros Hall.
    destruct (filter P (map_to_list (tbl_rows t))) as [|[k r] l] eqn:Hf; [done|].
    exfalso.
    assert (Hin : (k, r) ∈ filter P (map_to_list (tbl_rows t)))
      by (rewrite Hf; apply list_elem_of_here).
    apply list_elem_of_filter in Hin as [HP Hin].
    apply elem_of_map_to_list in Hin. unfold P in HP. cbn in HP.
    by rewrite (Hall k r Hin) in HP.
Qed.

(** With both members present, the handler goes on to the lookup. *)
Lemma login_lookup (e : env) (req : request) (db : gmap string table) :
  let b := default ∅ (req_body req) in
  ToBoolean (get b "username") = true → ToBoolean (get b "password") = true →
  post_admin_login e req db =
    let lookup := [Sql "SELECT id, password_hash FROM admins WHERE username = ?"] in
    match select_where "admins" ["id"; "password_hash"] "username"
                       (get b "username") db with
    | Failed _ =>
        reply 500 [] (JMessage "Login failed.") req db
              (lookup ++ [ConsoleError "Admin lookup failed"])
    | Done None => reply 401 [] (JMessage "Invalid credentials.") req db lookup
    | Done (Some row) =>
        let calls := lookup ++ [BcryptCompare (get b "password") (get row "password_hash")] in
        match bcrypt_compare e (get b "password") (get row "password_hash") with
        | None =>
            reply 500 [] (JMessage "Login failed.") req db
                  (calls ++ [ConsoleError "Password compare failed"])
        | Some false => reply 401 [] (JMessage "Invalid credentials.") req db calls
        | Some true =>
            Result (Response 200 [] (JMessage "Logged in")) db
                   (Some (Session (get row "id") (get b "username"))) calls
        end
    end.
Proof.
  intros b Hu Hpw. unfold post_admin_login. fold b.
  unfold not_. by rewrite Hu, Hpw.
Qed.

(** C6 (as amended): a login whose username and password are
    non-empty strings is answered 401 "Invalid credentials." both when
    the lookup finds no administrator under the username, in which case
    the lookup is the only call made (no hash comparison), and when it
    finds one and the comparison reports that the password does not
    match the stored hash; in both cases the store and the session are
    left as they were.  Every 401 of the login is that same response,
    so it tells neither which member was wrong nor whether the username
    exists. *)
Theorem login_failures_uniform (e : env) (req : request) (db : gmap string table)
    (u pw : string) :
  get (default ∅ (req_body req)) "username" = VStr u → u ≠ "" →
  get (default ∅ (req_body req)) "password" = VStr pw → pw ≠ "" →
  (select_where "admins" ["id"; "password_hash"] "username" (VStr u) db = Done None →
     post_admin_login e req db
     = Result (Response 401 [] (JMessage "Invalid credentials.")) db
              (Some (req_session req))
              [Sql "SELECT id, password_hash FROM admins WHERE username = ?"] ∧
     existsb is_bcrypt_compare (trace (post_admin_login e req db)) = false) ∧
  (∀ row,
     select_where "admins" ["id"; "password_hash"] "username" (VStr u) db
     = Done (Some row) →
     bcrypt_compare e (VStr pw) (get row "password_hash") = Some false →
     res (post_admin_login e req db)
     = Response 401 [] (JMessage "Invalid credentials.") ∧
     db_after (post_admin_login e req db) = db ∧
     session_after (post_admin_login e req db) = Some (req_session req)) ∧
  (status (res (post_admin_login e req db)) = 401 →
     res (post_admin_login e req db)
     = Response 401 [] (JMessage "Invalid credentials.") ∧
     db_after (post_admin_login e req db) = db ∧
     session_after (post_admin_login e req db) = Some (req_session req)).
Proof.
  intros Hu Hne Hpw Hne'.
  assert (ToBoolean (get (default ∅ (req_body req)) "username") = true) as Hu'.
  { rewrite Hu. cbn. by destruct (String.eqb_spec u ""). }
  assert (ToBoolean (get (default ∅ (req_body req)) "password") = true) as Hpw'.
  { rewrite Hpw. cbn. by destruct (String.eqb_spec pw ""). }
  rewrite (login_lookup e req db Hu' Hpw'). cbv zeta. rewrite Hu, Hpw.
  split; [|split].
  - by intros ->.
  - by intros row -> ->.
  - destruct (select_where _ _ _ _ db) as [[row|]|err]; [|done|done].
    by destruct (bcrypt_compare e _ _) as [[]|].
Qed.

Lemma login_failures_uniform_witness :
  res (post_admin_login sample_env
         (Request anonymous ""
            (Some (list_to_map [("username", VStr "nobody"); ("password", VStr "x")])))
         sample_db)
  = Response 401 [] (JMessage "Invalid credentials.") ∧
  res (post_admin_login sample_env
         (Request anonymous ""
            (Some (list_to_map [("username", VStr "admin"); ("password", VStr "x")])))
         sample_db)
  = Response 401 [] (JMessage "Invalid credentials.").
Proof.
  split.
  - destruct (login_failures_uniform sample_env
                (Request anonymous ""
                   (Some (list_to_map [("username", VStr "nobody"); ("password", VStr "x")])))
                sample_db "nobody" "x") as [H _];
      [vm_compute; reflexivity | discriminate | vm_compute; reflexivity | discriminate |].
    destruct H as [H _]; [by_compute|]. by rewrite H.
  - destruct (login_failures_uniform sample_env
                (Request anonymous ""
                   (Some (list_to_map [("username", VStr "admin"); ("password", VStr "x")])))
                sample_db "admin" "x") as (_ & H & _);
      [vm_compute; reflexivity | discriminate | vm_compute; reflexivity | discriminate |].
    destruct (H (list_to_map [("id", VNum (of_Z 1));
                              ("password_hash", VStr "$2a$10$admin123")])) as [H' _];
      [by_compute | vm_compute; reflexivity |].
    exact H'.
Defined.

(** C6 (as stated) fails: both members of the two bodies are present
    and the password is the number 123.  Under the username "admin" the
    lookup finds the administrator, the comparison does not verify the
    password (it calls back with an error) and the answer is 500
    "Login failed."; under a username that does not exist the answer is
    401 "Invalid credentials.".  The response to a wrong password is
    not the 401, and it tells whether the username exists.  The store
    is the one the server starts with. *)
Lemma login_number_password_reveals_username :
  (initializeDatabase strict_env ∅).1 = sample_db ∧
  ToBoolean (get admin_123 "username") = true ∧
  ToBoolean (get admin_123 "password") = true ∧
  ToBoolean (get nobody_123 "username") = true ∧
  ToBoolean (get nobody_123 "password") = true ∧
  select_where "admins" ["id"; "password_hash"] "username" (get admin_123 "username")
               sample_db
  = Done (Some (list_to_map [("id", VNum (of_Z 1));
                             ("password_hash", VStr "$2a$10$admin123")])) ∧
  bcrypt_compare strict_env (get admin_123 "password") (VStr "$2a$10$admin123")
  ≠ Some true ∧
  select_where "admins" ["id"; "password_hash"] "username" (get nobody_123 "username")
               sample_db
  = Done None ∧
  res (post_admin_login strict_env (Request anonymous "" (Some admin_123)) sample_db)
  = Response 500 [] (JMessage "Login failed.") ∧
  res (post_admin_login strict_env (Request anonymous "" (Some nobody_123)) sample_db)
  = Response 401 [] (JMessage "Invalid credentials.") ∧
  res (post_admin_login strict_env (Request anonymous "" (Some admin_123)) sample_db)
  ≠ res (post_admin_login strict_env (Request anonymous "" (Some nobody_123)) sample_db).
Proof.
  repeat split; try (vm_compute; reflexivity); try by_compute.
Qed.

Lemma ready_write (db : gmap string table) (t : table) rows seq :
  ready db = true → db !! "registrations" = Some t →
  ready (<["registrations" := Table (tbl_columns t) rows seq]> db) = true.
Proof.
  unfold ready. intros Hr Ht. rewrite Ht in Hr. by rewrite lookup_insert_eq.
Qed.

Lemma stored_write (db : gmap string table) cols rows seq id :
  stored (<["registrations" := Table cols rows seq]> db) id = rows !! id.
Proof. unfold stored. by rewrite lookup_insert_eq. Qed.

(** A fetch by an administrator on an initialised store. *)
Lemma fetch_registration (e : env) (req : request) (db : gmap string table) (id : Z) :
  ready db = true → ToBoolean (adminId (req_session req)) = true →
  addresses (req_id req) id →
  get_admin_registration e req db =
    match stored db id with
    | Some r =>
        reply 200 [("Cache-Control", "no-store")]
              (JData (select_columns registration_select id r)) req db
              [Sql "SELECT FROM registrations WHERE id = ?"]
    | None =>
        reply 404 [("Cache-Control", "no-store")] (JMessage "Not found.") req db
              [Sql "SELECT FROM registrations WHERE id = ?"]
    end.
Proof.
  intros Hr Ha Hid. destruct (addresses_integer _ _ Hid) as [Hint Hrow].
  unfold get_admin_registration, isAdmin. rewrite Ha, Hint. cbn [negb].
  destruct (select_registration db (Number_ (VStr (req_id req))) Hr) as (t & Ht & ->).
  rewrite Hrow. unfold stored. rewrite Ht. cbn [mbind option_bind].
  by destruct (tbl_rows t !! id).
Qed.

(** C1 (as amended): a payload that passes validation, with its members
    typed as the data model says, is saved with status 201 under a fresh
    server-assigned id; on an initialised store, a later fetch of that id
    by an administrator returns the record whose seven text members are
    the ones sent, whose [persons] is the number [Number(persons)],
    whose [message] is [message || ""], and whose [created_at] is the
    server's clock at the time of the insertion. *)
Theorem create_then_fetch (e : env) (req : request) (db : gmap string table)
    (p : gmap string value) :
  ready db = true → req_body req = Some p → text_payload p = true →
  validateRegistration (Some p) = None →
  ∃ id,
    res (post_registrations e req db) = Response 201 [] (JSaved "Saved" id) ∧
    stored db id = None ∧
    ∀ e' req',
      ToBoolean (adminId (req_session req')) = true → addresses (req_id req') id →
      res (get_admin_registration e' req' (db_after (post_registrations e req db)))
      = Response 200 [("Cache-Control", "no-store")]
                 (JData (registration_record id (now e) p)).
Proof.
  intros Hr Hb Ht Hv.
  destruct (insert_registration db p (now e) Hr Hv) as (t & Htab & Hins).
  cbn zeta in Hins.
  exists (Z.max (tbl_seq t) (max_key (tbl_rows t)) + 1).
  unfold post_registrations. rewrite Hb, Hv. cbn [default from_option].
  unfold Datatypes.id. rewrite Hins. cbn [res db_after reply].
  split; [done|]. split.
  - unfold stored. rewrite Htab. apply next_id_fresh.
  - intros e' req' Ha Hid.
    rewrite (fetch_registration e' req' _ _ (ready_write _ _ _ _ Hr Htab) Ha Hid).
    rewrite stored_write, lookup_insert_eq. cbn [res reply].
    by rewrite select_written_row.
Qed.

Lemma create_then_fetch_witness :
  res (post_registrations sample_env (Request anonymous "" (Some ada)) sample_db)
  = Response 201 [] (JSaved "Saved" 1) ∧
  res (get_admin_registration sample_env (Request admin_session "1" None)
         (db_after (post_registrations sample_env
                      (Request anonymous "" (Some ada)) sample_db)))
  = Response 200 [("Cache-Control", "no-store")]
             (JData (registration_record 1 (now sample_env) ada)).
Proof.
  destruct (create_then_fetch sample_env (Request anonymous "" (Some ada)) sample_db ada)
    as (id & Hpost & _ & Hget);
    [vm_compute; reflexivity | reflexivity | vm_compute; reflexivity
    | vm_compute; reflexivity |].
  assert (Hid : id = 1).
  { assert (H : res (post_registrations sample_env
                       (Request anonymous "" (Some ada)) sample_db)
                = Response 201 [] (JSaved "Saved" 1)) by (vm_compute; reflexivity).
    rewrite Hpost in H. by injection H. }
  subst id. split; [exact Hpost|].
  apply Hget; vm_compute; reflexivity.
Defined.

(** C1 (as stated) fails: the form sends [persons] as the string "3";
    the payload passes validation and is saved, and the record fetched
    back holds the number 3, which is not the member that was sent. *)
Lemma fetched_persons_differs :
  validateRegistration (Some ada_form) = None ∧
  forallb (λ k, satisfies k ada_form)
    [RFullName; RSex; RPhone; REmail; RDestination; RCity; RPersons; RTravelTime]
  = true ∧
  res (post_registrations sample_env (Request anonymous "" (Some ada_form)) sample_db)
  = Response 201 [] (JSaved "Saved" 1) ∧
  res (get_admin_registration sample_env (Request admin_session "1" None)
         (db_after (post_registrations sample_env
                      (Request anonymous "" (Some ada_form)) sample_db)))
  = Response 200 [("Cache-Control", "no-store")]
             (JData (registration_record 1 (now sample_env) ada_form)) ∧
  get ada_form "persons" = VStr "3" ∧
  get (registration_record 1 (now sample_env) ada_form) "persons" = VNum (of_Z 3) ∧
  get (registration_record 1 (now sample_env) ada_form) "persons"
  ≠ get ada_form "persons".
Proof.
  repeat split; try (vm_compute; reflexivity). vm_compute. discriminate.
Qed.

(** An update by an administrator, with a valid body, on an initialised
    store. *)
Lemma update_by_admin (e : env) (req : request) (db : gmap string table)
    (p : gmap string value) (id : Z) :
  ready db = true → ToBoolean (adminId (req_session req)) = true →
  addresses (req_id req) id → req_body req = Some p →
  validateRegistration (Some p) = None →
  ∃ t, db !! "registrations" = Some t ∧
    put_admin_registration e req db =
      match tbl_rows t !! id with
      | Some old =>
          reply 200 [] (JMessage "Updated") req
            (<["registrations" :=
                 Table (tbl_columns t)
                       (<[id := assign_row (registration_params p) old]> (tbl_rows t))
                       (tbl_seq t)]> db)
            [Sql "UPDATE registrations SET ... WHERE id = ?"]
      | None =>
          reply 404 [] (JMessage "Not found.") req db
            [Sql "UPDATE registrations SET ... WHERE id = ?"]
      end.
Proof.
  intros Hr Ha Hid Hb Hv. destruct (addresses_integer _ _ Hid) as [Hint Hrow].
  destruct (update_registration db p (Number_ (VStr (req_id req))) Hr Hv)
    as (t & Ht & Hup).
  exists t. split; [done|].
  unfold put_admin_registration, isAdmin. rewrite Ha, Hint, Hb, Hv. cbn [negb].
  cbn [default from_option]. unfold Datatypes.id. rewrite Hup, Hrow.
  cbn [mbind option_bind]. by destruct (tbl_rows t !! id).
Qed.

(** A deletion by an administrator. *)
Lemma delete_by_admin (e : env) (req : request) (db : gmap string table)
    (t : table) (id : Z) :
  db !! "registrations" = Some t → ToBoolean (adminId (req_session req)) = true →
  addresses (req_id req) id →
  delete_admin_registration e req db =
    match tbl_rows t !! id with
    | Some _ =>
        reply 200 [] (JMessage "Deleted") req
          (<["registrations" :=
               Table (tbl_columns t) (delete id (tbl_rows t)) (tbl_seq t)]> db)
          [Sql "DELETE FROM registrations WHERE id = ?"]
    | None =>
        reply 404 [] (JMessage "Not found.") req db
          [Sql "DELETE FROM registrations WHERE id = ?"]
    end.
Proof.
  intros Ht Ha Hid. destruct (addresses_integer _ _ Hid) as [Hint Hrow].
  unfold delete_admin_registration, isAdmin, delete_by_id.
  rewrite Ha, Hint, Ht, Hrow. cbn [negb mbind option_bind].
  by destruct (tbl_rows t !! id).
Qed.

(** The record an administrator reads back after an update with a
    valid, typed payload: the members sent, with the id and the
    creation time the row had. *)
Lemma select_updated_row (p : gmap string value) (id : Z) (created : string)
    (old : gmap string value) :
  validateRegistration (Some p) = None → text_payload p = true →
  old !! "created_at" = Some (VStr created) →
  select_columns registration_select id (assign_row (registration_params p) old)
  = registration_record id created p.
Proof.
  intros Hv Ht Hc. apply validate_None_inv in Hv as (?&?&?&?&?&?&?&?).
  assert (Hk : ∀ k, k ∈ "message" :: validated_text_members →
               text_or_absent (get p k) = true)
    by (intros; by eapply text_members_get).
  unfold select_columns, registration_record, registration_select.
  cbn [fmap list_fmap String.eqb Ascii.eqb Bool.eqb].
  rewrite !assign_row_lookup.
  cbn [assoc registration_params app String.eqb Ascii.eqb Bool.eqb default from_option bind].
  unfold Datatypes.id. rewrite Hc. cbn [default from_option]. unfold Datatypes.id.
  rewrite message_text, !truthy_text;
    first [done | apply Hk; in_list].
Qed.

(** C4: on an initialised store, an update of an existing registration
    by an administrator with a valid body answers 200.  Afterwards the
    row under the same id holds in [persons] the number
    [Number(persons)] and, when the payload is typed as the data model
    says, in each of the seven text columns the member that was sent
    and in [message] the member sent or the empty text; whatever the
    payload, its nine written cells are those a creation with the same
    payload stores; its [created_at] and every cell outside the nine
    written columns are the old ones.  A later fetch of the id by an administrator returns
    the record made of the id, the members of the payload and the old
    creation time.  Every other registration is as before, and so is
    every other table. *)
Theorem update_replaces_fields (e : env) (req : request) (db : gmap string table)
    (p old : gmap string value) (id : Z) :
  ready db = true → ToBoolean (adminId (req_session req)) = true →
  addresses (req_id req) id → stored db id = Some old →
  req_body req = Some p → validateRegistration (Some p) = None →
  res (put_admin_registration e req db) = Response 200 [] (JMessage "Updated") ∧
  (∃ new, stored (db_after (put_admin_registration e req db)) id = Some new ∧
     (text_payload p = true →
      new !! "full_name" = Some (get p "fullName") ∧
      new !! "sex" = Some (get p "sex") ∧
      new !! "phone" = Some (get p "phone") ∧
      new !! "email" = Some (get p "email") ∧
      new !! "destination" = Some (get p "destination") ∧
      new !! "city" = Some (get p "city") ∧
      new !! "travel_time" = Some (get p "travelTime") ∧
      new !! "message" = Some (if ToBoolean (get p "message") then get p "message"
                               else VStr "")) ∧
     new !! "persons" = Some (VNum (Number_ (get p "persons"))) ∧
     (∀ e2 req2, req_body req2 = Some p →
        ∃ id2 fresh,
          stored db id2 = None ∧
          stored (db_after (post_registrations e2 req2 db)) id2 = Some fresh ∧
          ∀ c, c ∈ ["full_name"; "sex"; "phone"; "email"; "destination"; "city";
                    "persons"; "travel_time"; "message"] →
               new !! c = fresh !! c) ∧
     new !! "created_at" = old !! "created_at" ∧
     (∀ c, c ∉ ["full_name"; "sex"; "phone"; "email"; "destination"; "city";
                "persons"; "travel_time"; "message"] →
           new !! c = old !! c)) ∧
  (text_payload p = true →
   ∀ created, old !! "created_at" = Some (VStr created) →
   ∀ e' req',
     ToBoolean (adminId (req_session req')) = true → addresses (req_id req') id →
     res (get_admin_registration e' req' (db_after (put_admin_registration e req db)))
     = Response 200 [("Cache-Control", "no-store")]
                (JData (registration_record id created p))) ∧
  (∀ k, k ≠ id →
        stored (db_after (put_admin_registration e req db)) k = stored db k) ∧
  (∀ name, name ≠ "registrations" →
        db_after (put_admin_registration e req db) !! name = db !! name).
Proof.
  intros Hr Ha Hid Hold Hb Hv.
  destruct (update_by_admin e req db p id Hr Ha Hid Hb Hv) as (t & Htab & ->).
  unfold stored in Hold. rewrite Htab in Hold. cbn in Hold. rewrite Hold.
  cbn [res db_after reply]. split; [done|]. split; [|split; [|split]].
  - exists (assign_row (registration_params p) old).
    split; [by rewrite stored_write, lookup_insert_eq|].
    pose proof (validate_None_inv p Hv) as (?&?&?&?&?&?&?&?).
    split; [|split; [|split; [|split]]].
    + intros Ht.
      assert (Hk : ∀ k, k ∈ "message" :: validated_text_members →
                   text_or_absent (get p k) = true)
        by (intros; by eapply text_members_get).
      rewrite !assign_row_lookup.
      cbn [assoc registration_params String.eqb Ascii.eqb Bool.eqb].
      fold (or_ (get p "message") (VStr "")).
      rewrite message_text, !truthy_text by first [done | apply Hk; in_list].
      by repeat split.
    + by rewrite assign_row_lookup.
    + intros e2 req2 Hb2.
      destruct (insert_registration db p (now e2) Hr Hv) as (t2 & Htab2 & Hins).
      cbn zeta in Hins. rewrite Htab in Htab2. injection Htab2 as <-.
      exists (Z.max (tbl_seq t) (max_key (tbl_rows t)) + 1). eexists.
      split; [unfold stored; rewrite Htab; apply next_id_fresh|].
      unfold post_registrations. rewrite Hb2, Hv. cbn [default from_option].
      unfold Datatypes.id. rewrite Hins. cbn [db_after reply].
      split; [by rewrite stored_write, lookup_insert_eq|].
      intros c Hc. rewrite !assign_row_lookup.
      repeat (apply elem_of_cons in Hc as [->|Hc]; [done|]).
      by apply elem_of_nil in Hc.
    + by rewrite assign_row_lookup.
    + intros c Hc. rewrite assign_row_lookup.
      destruct (assoc c (registration_params p)) as [v|] eqn:Hv'; [|done].
      exfalso. apply Hc. rewrite <- list_to_map_assoc in Hv'.
      apply elem_of_list_to_map_2 in Hv'.
      change (c ∈ (registration_params p).*1).
      apply list_elem_of_fmap. by exists (c, v).
  - intros Ht created Hc e' req' Ha' Hid'.
    rewrite (fetch_registration e' req' _ _ (ready_write _ _ _ _ Hr Htab) Ha' Hid').
    rewrite stored_write, lookup_insert_eq. cbn [res reply].
    by rewrite (select_updated_row p id created old Hv Ht Hc).
  - intros k Hk. rewrite stored_write, lookup_insert_ne by done.
    unfold stored. by rewrite Htab.
  - intros name Hn. by rewrite lookup_insert_ne.
Qed.

Lemma update_replaces_fields_witness :
  res (put_admin_registration sample_env
         (Request admin_session "1" (Some ada_form)) sample_db1)
  = Response 200 [] (JMessage "Updated") ∧
  res (get_admin_registration sample_env (Request admin_session "1" None)
         (db_after (put_admin_registration sample_env
                      (Request admin_session "1" (Some ada_form)) sample_db1)))
  = Response 200 [("Cache-Control", "no-store")]
             (JData (registration_record 1 "2024-05-01T09:00:00.000Z" ada_form)) ∧
  get (registration_record 1 "2024-05-01T09:00:00.000Z" ada_form) "persons"
  = VNum (of_Z 3).
Proof.
  destruct (update_replaces_fields sample_env
              (Request admin_session "1" (Some ada_form)) sample_db1 ada_form
              (assign_row (registration_params ada
                             ++ [("created_at", VStr (now sample_env))])
                          (default_row (Table registrations_columns ∅ 0))) 1)
    as (H1 & _ & H3 & _);
    [vm_compute; reflexivity | vm_compute; reflexivity | vm_compute; reflexivity
    | by_compute | reflexivity | vm_compute; reflexivity |].
  split; [exact H1|]. split; [|vm_compute; reflexivity].
  apply (H3 ltac:(vm_compute; reflexivity) "2024-05-01T09:00:00.000Z"
            ltac:(by_compute) sample_env (Request admin_session "1" None));
    vm_compute; reflexivity.
Defined.

(** C7: on an initialised store and for an administrator, an update
    (with a valid body) or a deletion addressed to an id that holds no
    registration answers 404 and leaves the store as it was, the update
    without logging any error (the statement succeeds and changes no
    row); a deletion
    addressed to an existing registration answers 200, removes that
    registration and no other, and a later fetch of the id answers
    404. *)
Theorem missing_and_deleted_not_found (e : env) (req : request)
    (db : gmap string table) (id : Z) :
  ready db = true → ToBoolean (adminId (req_session req)) = true →
  addresses (req_id req) id →
  (stored db id = None →
     (validateRegistration (req_body req) = None →
        res (put_admin_registration e req db) = Response 404 [] (JMessage "Not found.") ∧
        db_after (put_admin_registration e req db) = db ∧
        existsb is_console_error (trace (put_admin_registration e req db)) = false) ∧
     res (delete_admin_registration e req db) = Response 404 [] (JMessage "Not found.") ∧
     db_after (delete_admin_registration e req db) = db) ∧
  (stored db id ≠ None →
     res (delete_admin_registration e req db) = Response 200 [] (JMessage "Deleted") ∧
     stored (db_after (delete_admin_registration e req db)) id = None ∧
     (∀ k, k ≠ id →
        stored (db_after (delete_admin_registration e req db)) k = stored db k) ∧
     (∀ name, name ≠ "registrations" →
        db_after (delete_admin_registration e req db) !! name = db !! name) ∧
     (∀ e' req', ToBoolean (adminId (req_session req')) = true →
        addresses (req_id req') id →
        res (get_admin_registration e' req'
               (db_after (delete_admin_registration e req db)))
        = Response 404 [("Cache-Control", "no-store")] (JMessage "Not found."))).
Proof.
  intros Hr Ha Hid.
  destruct (ready_table db Hr) as (t & Ht & _).
  rewrite (delete_by_admin e req db t id Ht Ha Hid).
  unfold stored at 1 2. rewrite Ht. cbn [mbind option_bind].
  split.
  - intros Hnone. rewrite Hnone. cbn [res db_after reply]. split; [|done].
    intros Hv. destruct (req_body req) as [p|] eqn:Hb; [|done].
    destruct (update_by_admin e req db p id Hr Ha Hid Hb Hv) as (t' & Ht' & ->).
    assert (t' = t) as -> by congruence. by rewrite Hnone.
  - intros Hsome. destruct (tbl_rows t !! id) as [old|] eqn:Hold; [|done].
    cbn [res db_after reply]. split; [done|].
    split; [by rewrite stored_write, lookup_delete_eq|].
    split; [|split].
    + intros k Hk. rewrite stored_write, lookup_delete_ne by done.
      unfold stored. by rewrite Ht.
    + intros name Hn. by rewrite lookup_insert_ne.
    + intros e' req' Ha' Hid'.
      rewrite (fetch_registration e' req' _ id (ready_write _ _ _ _ Hr Ht) Ha' Hid').
      by rewrite stored_write, lookup_delete_eq.
Qed.

Lemma missing_and_deleted_not_found_witness :
  (res (put_admin_registration sample_env
          (Request admin_session "999" (Some ada)) sample_db1)
   = Response 404 [] (JMessage "Not found.") ∧
   res (delete_admin_registration sample_env
          (Request admin_session "999" (Some ada)) sample_db1)
   = Response 404 [] (JMessage "Not found.")) ∧
  (res (delete_admin_registration sample_env
          (Request admin_session "1" None) sample_db1)
   = Response 200 [] (JMessage "Deleted") ∧
   stored (db_after (delete_admin_registration sample_env
                       (Request admin_session "1" None) sample_db1)) 1 = None).
Proof.
  split.
  - destruct (missing_and_deleted_not_found sample_env
                (Request admin_session "999" (Some ada)) sample_db1 999)
      as [H _]; [vm_compute; reflexivity | vm_compute; reflexivity
                | vm_compute; reflexivity |].
    destruct H as (Hput & Hdel & _); [by_compute|].
    destruct Hput as (Hput & _ & _); [vm_compute; reflexivity|].
    exact (conj Hput Hdel).
  - destruct (missing_and_deleted_not_found sample_env
                (Request admin_session "1" None) sample_db1 1)
      as [_ H]; [vm_compute; reflexivity | vm_compute; reflexivity
                | vm_compute; reflexivity |].
    destruct H as (Hdel & Hgone & _).
    + intros Hnone. apply (bool_decide_eq_true_2 _) in Hnone.
      vm_compute in Hnone. discriminate Hnone.
    + exact (conj Hdel Hgone).
Defined.

(** ** Numeric strings *)

Lemma get_Some_insert (p : gmap string value) k s :
  get p k = VStr s → <[k := VStr s]> p = p.
Proof.
  unfold get. intros H. apply insert_id.
  by destruct (p !! k) as [v|]; simplify_eq/=.
Qed.

(** C10: when [persons] is a string that [Number] reads as an integer
    from 1 to 20 and the other members are valid, the payload is
    accepted; on an initialised store the creation stores, in the
    [persons] column of the new row, the number read from the string,
    and so does an update by an administrator of an existing row: the
    cell holds a number that denotes that integer, not the string. *)
Theorem numeric_string_persons (e : env) (req : request) (db : gmap string table)
    (p : gmap string value) (s : string) (z : Z) :
  ready db = true → req_body req = Some p →
  get p "persons" = VStr s →
  num_to_Z (Number_ (VStr s)) = Some z → 1 <= z <= 20 →
  validateRegistration (Some (<["persons" := VNum (of_Z 1)]> p)) = None →
  validateRegistration (Some p) = None ∧
  (∃ id row,
     res (post_registrations e req db) = Response 201 [] (JSaved "Saved" id) ∧
     stored (db_after (post_registrations e req db)) id = Some row ∧
     row !! "persons" = Some (VNum (StringToNumber s)) ∧
     num_to_Z (StringToNumber s) = Some z) ∧
  (∀ id, ToBoolean (adminId (req_session req)) = true →
     addresses (req_id req) id → stored db id ≠ None →
     ∃ row,
       res (put_admin_registration e req db) = Response 200 [] (JMessage "Updated") ∧
       stored (db_after (put_admin_registration e req db)) id = Some row ∧
       row !! "persons" = Some (VNum (StringToNumber s))).
Proof.
  intros Hr Hb Hs Hz Hrange Hp.
  assert (Hv : validateRegistration (Some p) = None).
  { rewrite <- (get_Some_insert p "persons" s Hs), (validate_persons p _ Hp).
    unfold integer_between. rewrite Hz.
    by destruct (Z.leb_spec 1 z), (Z.leb_spec z 20); first [done | lia]. }
  split; [done|]. split.
  - destruct (insert_registration db p (now e) Hr Hv) as (t & Htab & Hins).
    cbn zeta in Hins. eexists _, _.
    unfold post_registrations. rewrite Hb, Hv. cbn [default from_option].
    unfold Datatypes.id. rewrite Hins. cbn [res db_after reply].
    split; [done|]. split; [by rewrite stored_write, lookup_insert_eq|].
    split; [|done].
    rewrite assign_row_lookup.
    cbn [assoc registration_params app String.eqb Ascii.eqb Bool.eqb bind].
    by rewrite Hs.
  - intros id Ha Hid Hex.
    destruct (update_by_admin e req db p id Hr Ha Hid Hb Hv) as (t & Htab & ->).
    unfold stored in Hex. rewrite Htab in Hex. cbn in Hex.
    destruct (tbl_rows t !! id) as [old|]; [|done].
    eexists. cbn [res db_after reply]. split; [done|].
    split; [by rewrite stored_write, lookup_insert_eq|].
    rewrite assign_row_lookup.
    cbn [assoc registration_params app String.eqb Ascii.eqb Bool.eqb bind].
    by rewrite Hs.
Qed.

Lemma numeric_string_persons_witness :
  validateRegistration (Some ada_form) = None ∧
  ∃ id row,
    res (post_registrations sample_env (Request anonymous "" (Some ada_form)) sample_db)
    = Response 201 [] (JSaved "Saved" id) ∧
    stored (db_after (post_registrations sample_env
                        (Request anonymous "" (Some ada_form)) sample_db)) id
    = Some row ∧
    row !! "persons" = Some (VNum (StringToNumber "3")) ∧
    num_to_Z (StringToNumber "3") = Some 3.
Proof.
  destruct (numeric_string_persons sample_env (Request anonymous "" (Some ada_form))
              sample_db ada_form "3" 3) as (H1 & H2 & _);
    [vm_compute; reflexivity | reflexivity | vm_compute; reflexivity
    | vm_compute; reflexivity | lia | vm_compute; reflexivity |].
  exact (conj H1 H2).
Defined.

(** ** Initialisation *)

Lemma create_table_present name cols (db : gmap string table) :
  ∃ t, create_table_if_not_exists name cols db !! name = Some t ∧
       (db !! name = None → t = Table cols ∅ 0) ∧
       (∀ t', db !! name = Some t' → t = t').
Proof.
  unfold create_table_if_not_exists. destruct (db !! name) as [t|] eqn:H.
  - exists t. by repeat split; intros; simplify_eq.
  - exists (Table cols ∅ 0). rewrite lookup_insert_eq. by repeat split.
Qed.

Lemma create_table_other name name' cols (db : gmap string table) :
  name ≠ name' → create_table_if_not_exists name cols db !! name' = db !! name'.
Proof.
  intros. unfold create_table_if_not_exists.
  destruct (db !! name); [done|]. by rewrite lookup_insert_ne.
Qed.

Lemma has_column_app (t : table) cols' rows seq c :
  has_column t c = true → has_column (Table (tbl_columns t ++ cols') rows seq) c = true.
Proof.
  unfold has_column, column_names. rewrite !bool_decide_eq_true. cbn.
  rewrite fmap_app, elem_of_app. by left.
Qed.

(** After an ALTER TABLE whose error is dropped, the table has the
    column, and the columns it had. *)
Lemma add_column_present name (col : column) (db : gmap string table) t :
  db !! name = Some t → col_name col ≠ "id" → is_null (col_default col) = false →
  ∃ t', ignore_error db (alter_table_add_column name col db) !! name = Some t' ∧
        has_column t' (col_name col) = true ∧
        (∀ c, has_column t c = true → has_column t' c = true).
Proof.
  intros Ht Hid Hdef. unfold alter_table_add_column. rewrite Ht.
  destruct (has_column t (col_name col)) eqn:Hc.
  - exists t. by repeat split.
  - destruct (String.eqb_spec (col_name col) "id"); [done|]. cbn [orb].
    rewrite Hdef, andb_false_r. cbn [ignore_error]. rewrite lookup_insert_eq.
    eexists. split; [done|]. split.
    + unfold has_column, column_names. cbn.
      rewrite bool_decide_eq_true, fmap_app, elem_of_app. right. in_list.
    + intros c. apply has_column_app.
Qed.

Lemma head_filter_Some {A} (P : A → Prop) `{∀ x, Decision (P x)} (l : list A) x :
  x ∈ l → P x → ∃ y, head (filter P l) = Some y.
Proof.
  intros Hx HP. assert (Hin : x ∈ filter P l) by (by apply list_elem_of_filter).
  destruct (filter P l) as [|y l']; [by apply not_elem_of_nil in Hin|by exists y].
Qed.

(** An administrator that was just inserted is found by the lookup. *)
Lemma admin_inserted_found (u hash : string) (db db' : gmap string table) id :
  select_where "admins" ["id"] "username" (VStr u) db = Done None →
  insert_into "admins" [("username", VStr u); ("password_hash", VStr hash)] db
  = Done (db', id) →
  (∃ row, select_where "admins" ["id"] "username" (VStr u) db' = Done (Some row)) ∧
  ∀ name, name ≠ "admins" → db' !! name = db !! name.
Proof.
  unfold select_where, insert_into.
  destruct (db !! "admins") as [t|]; [|done].
  destruct (unknown_column t ("username" :: ["id"])) eqn:Hk; [done|]. intros _.
  destruct (unknown_column t [("username", VStr u); ("password_hash", VStr hash)].*1);
    [done|].
  destruct (violates_notnull _ _ _); [done|].
  destruct (violates_unique _ _ _); [done|].
  intros [= <- <-]. split; [|intros; by rewrite lookup_insert_ne].
  rewrite lookup_insert_eq.
  change (unknown_column (Table (tbl_columns t) _ _) ("username" :: ["id"]))
    with (unknown_column t ("username" :: ["id"])).
  rewrite Hk. cbn [tbl_rows].
  set (id := Z.max (tbl_seq t) (max_key (tbl_rows t)) + 1).
  set (r := assign_row _ _).
  destruct (head_filter_Some
              (λ kr : Z * gmap string value,
                 sql_eq (default VNull (kr.2 !! "username")) (bind (VStr u)) = true)
              (map_to_list (<[id := r]> (tbl_rows t))) (id, r)) as [y ->].
  - apply elem_of_map_to_list, lookup_insert_eq.
  - unfold r. cbn [snd]. rewrite assign_row_lookup. cbn. apply String.eqb_refl.
  - by eexists.
Qed.

Lemma ensureDefaultAdmin_other (e : env) (db : gmap string table) name :
  name ≠ "admins" → (ensureDefaultAdmin e db).1 !! name = db !! name.
Proof.
  intros Hn. unfold ensureDefaultAdmin.
  destruct (select_where _ _ _ _ db) as [[row|]|err]; try done.
  destruct (bcrypt_hash e _) as [hash|]; [|done].
  unfold insert_into. destruct (db !! "admins") as [t|]; [|done].
  destruct (unknown_column _ _); [done|].
  destruct (violates_notnull _ _ _); [done|].
  destruct (violates_unique _ _ _); [done|].
  cbn [fst]. by rewrite lookup_insert_ne.
Qed.

(** What [initializeDatabase] does after its schema statements. *)
Lemma initialize_unfold (e : env) (db : gmap string table) :
  initializeDatabase e db =
  ((ensureDefaultAdmin e (schema_statements db)).1,
   [Sql "CREATE TABLE IF NOT EXISTS registrations";
    Sql "ALTER TABLE registrations ADD COLUMN city";
    Sql "ALTER TABLE registrations ADD COLUMN email";
    Sql "CREATE TABLE IF NOT EXISTS admins"]
   ++ (ensureDefaultAdmin e (schema_statements db)).2).
Proof.
  unfold initializeDatabase, schema_statements. cbv zeta.
  by destruct (ensureDefaultAdmin e _).
Qed.

(** The schema statements leave both tables in place, the registrations
    table with its two migrated columns. *)
Lemma schema_established (db : gmap string table) : schema_ready (schema_statements db).
Proof.
  unfold schema_statements.
  set (db1 := create_table_if_not_exists "registrations" _ db).
  set (db2 := ignore_error db1 _).
  set (db3 := ignore_error db2 _).
  destruct (create_table_present "registrations" registrations_columns db)
    as (t1 & Ht1 & _). fold db1 in Ht1.
  destruct (add_column_present "registrations"
              (Column "city" "TEXT" true false (VStr "")) db1 t1 Ht1)
    as (t2 & Ht2 & Hcity & _); [done|done|]. fold db2 in Ht2.
  destruct (add_column_present "registrations"
              (Column "email" "TEXT" true false (VStr "")) db2 t2 Ht2)
    as (t3 & Ht3 & Hemail & Hkeep); [done|done|]. fold db3 in Ht3.
  split.
  - exists t3. rewrite create_table_other by done.
    repeat split; [done|by apply Hkeep|done].
  - destruct (create_table_present "admins" admins_columns db3) as (ta & Hta & _).
    by exists ta.
Qed.

(** On such a store the schema statements change nothing. *)
Lemma schema_noop (db : gmap string table) : schema_ready db → schema_statements db = db.
Proof.
  intros [(t & Ht & Hcity & Hemail) [ta Hta]].
  assert (H1 : ∀ cols, create_table_if_not_exists "registrations" cols db = db)
    by (intros; unfold create_table_if_not_exists; by rewrite Ht).
  assert (H2 : ∀ ty nn un d,
             ignore_error db
               (alter_table_add_column "registrations" (Column "city" ty nn un d) db) = db)
    by (intros; unfold alter_table_add_column; rewrite Ht; cbn [col_name];
        by rewrite Hcity).
  assert (H3 : ∀ ty nn un d,
             ignore_error db
               (alter_table_add_column "registrations" (Column "email" ty nn un d) db) = db)
    by (intros; unfold alter_table_add_column; rewrite Ht; cbn [col_name];
        by rewrite Hemail).
  assert (H4 : ∀ cols, create_table_if_not_exists "admins" cols db = db)
    by (intros; unfold create_table_if_not_exists; by rewrite Hta).
  unfold schema_statements. cbv zeta. by rewrite H1, H2, H3, H4.
Qed.

Lemma ensureDefaultAdmin_schema_ready (e : env) (db : gmap string table) :
  schema_ready db → schema_ready (ensureDefaultAdmin e db).1.
Proof.
  intros Hs. pose proof Hs as [Hreg [ta Hta]]. unfold ensureDefaultAdmin.
  destruct (select_where _ _ _ _ db) as [[row|]|err]; [done| |done].
  destruct (bcrypt_hash e _) as [hash|]; [|done].
  unfold insert_into. rewrite Hta.
  destruct (unknown_column _ _); [done|].
  destruct (violates_notnull _ _ _); [done|].
  destruct (violates_unique _ _ _); [done|].
  cbn [fst]. split.
  - by rewrite lookup_insert_ne.
  - rewrite lookup_insert_eq. by eexists.
Qed.

(** A run that logs no error leaves the store initialised. *)
Lemma initialize_establishes (e : env) (db : gmap string table) :
  existsb is_console_error (initializeDatabase e db).2 = false →
  initialised (env_or (ADMIN_USERNAME e) "admin") (initializeDatabase e db).1.
Proof.
  rewrite initialize_unfold. cbn [fst snd].
  pose proof (schema_established db) as Hs.
  pose proof (ensureDefaultAdmin_schema_ready e _ Hs) as Hs'.
  intros Hok. split; [done|]. clear Hs'. revert Hok.
  generalize (schema_statements db). intros db4.
  unfold ensureDefaultAdmin.
  destruct (select_where _ _ _ _ db4) as [[row|]|err] eqn:Hsel; cbn [fst snd].
  - intros _. by exists row.
  - destruct (bcrypt_hash e _) as [hash|]; cbn [fst snd]; [|done].
    destruct (insert_into _ _ db4) as [[db' id]|err] eqn:Hins; cbn [fst snd]; [|done].
    intros _. by destruct (admin_inserted_found _ _ _ _ _ Hsel Hins) as [Hrow _].
  - done.
Qed.

(** On an initialised store a run changes nothing and logs no error. *)
Lemma initialize_noop (e : env) (db : gmap string table) :
  initialised (env_or (ADMIN_USERNAME e) "admin") db →
  initializeDatabase e db = (db, quiet_run).
Proof.
  intros [Hs (row & Hsel)].
  rewrite initialize_unfold, (schema_noop db Hs).
  unfold ensureDefaultAdmin. by rewrite Hsel.
Qed.

(** C9: on every store, running the schema statements a second time
    changes nothing: no table and no column is added twice and no row is
    touched.  For the whole of [initializeDatabase]: after a run that
    logged no error, a second run under the same administrator name logs
    no error, makes no insertion and leaves the store exactly as the
    first run left it; and so does any number of later runs. *)
Theorem initialize_idempotent (e1 : env) (db : gmap string table) :
  schema_statements (schema_statements db) = schema_statements db ∧
  (existsb is_console_error (initializeDatabase e1 db).2 = false →
   (∀ e2, env_or (ADMIN_USERNAME e2) "admin" = env_or (ADMIN_USERNAME e1) "admin" →
      initializeDatabase e2 (initializeDatabase e1 db).1
      = ((initializeDatabase e1 db).1, quiet_run)) ∧
   existsb is_console_error quiet_run = false ∧
   (∀ es : list env,
      Forall (λ e2, env_or (ADMIN_USERNAME e2) "admin"
                    = env_or (ADMIN_USERNAME e1) "admin") es →
      foldl (λ d e2, (initializeDatabase e2 d).1) (initializeDatabase e1 db).1 es
      = (initializeDatabase e1 db).1)).
Proof.
  split; [apply schema_noop, schema_established|].
  intros Hok. pose proof (initialize_establishes e1 db Hok) as Hinit.
  assert (Hrun : ∀ e2, env_or (ADMIN_USERNAME e2) "admin"
                       = env_or (ADMIN_USERNAME e1) "admin" →
            initializeDatabase e2 (initializeDatabase e1 db).1
            = ((initializeDatabase e1 db).1, quiet_run)).
  { intros e2 He. apply initialize_noop. by rewrite He. }
  split; [done|]. split; [done|].
  intros es Hes. induction Hes as [|e2 es He _ IH]; [done|].
  cbn [foldl]. by rewrite (Hrun e2 He).
Qed.

Lemma initialize_idempotent_witness :
  initializeDatabase sample_env sample_db = (sample_db, quiet_run).
Proof.
  destruct (initialize_idempotent sample_env ∅) as [_ H].
  destruct H as [H _]; [vm_compute; reflexivity|].
  exact (H sample_env eq_refl).
Defined.

(** ** Stored registrations *)

(** The validator reads eight members, [persons] through [Number]. *)
Lemma validate_ext (p q : gmap string value) :
  (∀ k, k ∈ validated_text_members → get q k = get p k) →
  Number_ (get q "persons") = Number_ (get p "persons") →
  validateRegistration (Some q) = validateRegistration (Some p).
Proof.
  intros Hk Hn. unfold validateRegistration.
  rewrite Hn, !Hk by in_list. done.
Qed.

Lemma get_list_to_map (l : list (string * value)) k :
  get (list_to_map l) k = default VUndefined (assoc k l).
Proof. unfold get. by rewrite list_to_map_assoc. Qed.

(** The row a valid, typed payload writes passes validation again. *)
Lemma written_row_ok (p : gmap string value) (extra : list (string * value))
    (old : gmap string value) :
  validateRegistration (Some p) = None → text_payload p = true →
  row_ok (assign_row (registration_params p ++ extra) old).
Proof.
  intros Hv Ht. pose proof (validate_None_inv p Hv) as (?&?&?&?&?&?&?&?).
  assert (Hk : ∀ k, k ∈ "message" :: validated_text_members →
               text_or_absent (get p k) = true)
    by (intros; by eapply text_members_get).
  assert (Hget : ∀ c v, assoc c (registration_params p) = Some v →
            get (assign_row (registration_params p ++ extra) old) c = bind v).
  { intros c v Hc. unfold get. rewrite assign_row_lookup.
    assert (assoc c (registration_params p ++ extra) = Some v) as ->; [|done].
    revert Hc. generalize (registration_params p). intros l.
    induction l as [|[k' v'] l IH]; [done|]. cbn. by destruct (String.eqb k' c). }
  split.
  - rewrite <- Hv. apply validate_ext.
    + intros k Hk'. unfold row_payload. rewrite get_list_to_map.
      unfold validated_text_members in Hk'. set_unfold in Hk'.
      destruct Hk' as [->|[->|[->|[->|[->|[->|[->|[]]]]]]]];
        cbn [assoc String.eqb Ascii.eqb Bool.eqb default from_option];
        unfold Datatypes.id; (erewrite Hget; [|reflexivity]);
        apply truthy_text; first [done | apply Hk; in_list].
    + unfold row_payload. rewrite get_list_to_map.
      cbn [assoc String.eqb Ascii.eqb Bool.eqb default from_option].
      unfold Datatypes.id. by erewrite Hget; [|reflexivity].
  - unfold text_payload, text_members, row_payload.
    cbn [forallb validated_text_members]. rewrite !get_list_to_map.
    cbn [assoc String.eqb Ascii.eqb Bool.eqb default from_option].
    unfold Datatypes.id.
    repeat (erewrite Hget; [|reflexivity]).
    rewrite message_text, !truthy_text by first [done | apply Hk; in_list].
    assert (text_or_absent (or_ (get p "message") (VStr "")) = true) as ->.
    { unfold or_. destruct (ToBoolean (get p "message")); [|done]. apply Hk. in_list. }
    by rewrite !Hk by in_list.
Qed.

(** The registrations table after a run is the one the schema
    statements leave. *)
Lemma initialize_registrations (e : env) (db : gmap string table) :
  (initializeDatabase e db).1 !! "registrations"
  = schema_statements db !! "registrations".
Proof. rewrite initialize_unfold. cbn [fst]. by rewrite ensureDefaultAdmin_other. Qed.

(** A fresh database is initialised with an empty registrations
    table. *)
Lemma boot_registrations (e : env) :
  (initializeDatabase e ∅).1 !! "registrations" = Some (Table registrations_columns ∅ 0).
Proof.
  rewrite initialize_registrations. by_compute.
Qed.

(** A restart leaves an initialised registrations table alone. *)
Lemma restart_registrations (e : env) (db : gmap string table) :
  ready db = true →
  (initializeDatabase e db).1 !! "registrations" = db !! "registrations".
Proof.
  intros Hr. destruct (ready_table db Hr) as (t & Ht & _ & Hhas).
  rewrite initialize_registrations. unfold schema_statements. cbv zeta.
  rewrite create_table_other by done.
  assert (H1 : create_table_if_not_exists "registrations" registrations_columns db = db)
    by (unfold create_table_if_not_exists; by rewrite Ht).
  rewrite H1.
  assert (H2 : ∀ c ty nn un d, c ∈ stored_columns →
             ignore_error db
               (alter_table_add_column "registrations" (Column c ty nn un d) db) = db).
  { intros. unfold alter_table_add_column. rewrite Ht. cbn [col_name].
    by rewrite Hhas. }
  rewrite H2 by in_list. by rewrite H2 by in_list.
Qed.

Lemma store_ok_same_table (db db' : gmap string table) :
  db' !! "registrations" = db !! "registrations" → store_ok db → store_ok db'.
Proof.
  intros He [Hr Hrows]. split.
  - unfold ready. rewrite He. exact Hr.
  - intros id r. unfold stored. rewrite He. apply Hrows.
Qed.

Lemma store_ok_write (db : gmap string table) (t : table) (id : Z)
    (r : gmap string value) seq :
  db !! "registrations" = Some t → store_ok db → row_ok r →
  store_ok (<["registrations" := Table (tbl_columns t) (<[id := r]> (tbl_rows t)) seq]> db).
Proof.
  intros Ht [Hr Hrows] Hok. split; [by apply ready_write|].
  intros k r'. rewrite stored_write, lookup_insert.
  case_decide; [by intros [= <-]|].
  intros Hk. apply (Hrows k). unfold stored. by rewrite Ht.
Qed.

Lemma store_ok_delete (db : gmap string table) (t : table) (id : Z) :
  db !! "registrations" = Some t → store_ok db →
  store_ok (<["registrations" := Table (tbl_columns t) (delete id (tbl_rows t))
                                       (tbl_seq t)]> db).
Proof.
  intros Ht [Hr Hrows]. split; [by apply ready_write|].
  intros k r'. rewrite stored_write, lookup_delete.
  case_decide; [done|].
  intros Hk. apply (Hrows k). unfold stored. by rewrite Ht.
Qed.

(** Every request with a typed body keeps the store in order. *)
Lemma request_keeps_store_ok (r : route) (e : env) (req : request)
    (db : gmap string table) :
  text_body (req_body req) = true → store_ok db →
  store_ok (db_after (dispatch r e req db)).
Proof.
  intros Hb Hok. pose proof Hok as [Hr Hrows].
  destruct r; cbn [dispatch].
  - (* create *)
    unfold post_registrations.
    destruct (validateRegistration (req_body req)) as [err|] eqn:Hv; [done|].
    destruct (req_body req) as [p|] eqn:Hp; [|done].
    cbn [default from_option]. unfold Datatypes.id.
    destruct (insert_registration db p (now e) Hr Hv) as (t & Ht & ->).
    cbn [db_after reply]. apply store_ok_write; [done|done|].
    by apply written_row_ok.
  - (* login *)
    unfold post_admin_login.
    destruct (_ || _); [done|].
    destruct (select_where _ _ _ _ db) as [[row|]|err]; try done.
    by destruct (bcrypt_compare e _ _) as [[]|].
  - done.
  - unfold get_admin_me. by destruct (not_ _).
  - unfold get_admin_registrations, isAdmin.
    destruct (ToBoolean _); [|done].
    by destruct (select_all_desc _ _ _ db).
  - unfold get_admin_registration, isAdmin.
    destruct (ToBoolean _); [|done].
    destruct (negb _); [done|].
    by destruct (select_by_id _ _ _ db) as [[row|]|err].
  - (* update *)
    unfold put_admin_registration, isAdmin.
    destruct (ToBoolean _); [|done].
    destruct (negb _); [done|].
    destruct (validateRegistration (req_body req)) as [err|] eqn:Hv; [done|].
    destruct (req_body req) as [p|] eqn:Hp; [|done].
    cbn [default from_option]. unfold Datatypes.id.
    destruct (update_registration db p (Number_ (VStr (req_id req))) Hr Hv)
      as (t & Ht & ->).
    destruct (_ ≫= _) as [[k old]|]; [|done].
    cbn [Z.eqb db_after reply]. apply store_ok_write; [done|done|].
    rewrite <- (app_nil_r (registration_params p)). by apply written_row_ok.
  - (* delete *)
    unfold delete_admin_registration, isAdmin, delete_by_id.
    destruct (ToBoolean _); [|done].
    destruct (negb _); [done|].
    destruct (ready_table db Hr) as (t & Ht & _). rewrite Ht.
    destruct (_ ≫= _) as [k|]; [|done].
    cbn [Z.eqb db_after reply]. by apply store_ok_delete.
Qed.

Lemma reachable_store_ok (db : gmap string table) : reachable db → store_ok db.
Proof.
  induction 1 as [e|db r e req _ IH Hb|db e _ IH].
  - split.
    + unfold ready. by rewrite boot_registrations.
    + intros id r. unfold stored. by rewrite boot_registrations.
  - by apply request_keeps_store_ok.
  - eapply store_ok_same_table; [|done]. apply restart_registrations, IH.
Qed.

(** A store the server has reached is initialised. *)
Lemma reachable_ready (db : gmap string table) : reachable db → ready db = true.
Proof. intros H. by destruct (reachable_store_ok db H). Qed.

(** C3 (as amended): in every state the store reaches from a fresh
    database, through requests whose bodies are typed as the data model
    says and through restarts, every stored registration passes the
    validator and satisfies its eight rules; in particular its [sex] is
    a non-empty text (the validator asks no more of it). *)
Theorem stored_registrations_valid (db : gmap string table) (id : Z)
    (r : gmap string value) :
  reachable db → stored db id = Some r →
  validateRegistration (Some (row_payload r)) = None ∧
  (∀ k, satisfies k (row_payload r) = true) ∧
  ∃ s, get r "sex" = VStr s ∧ s ≠ "".
Proof.
  intros Hreach Hst. destruct (reachable_store_ok db Hreach) as [_ Hrows].
  destruct (Hrows id r Hst) as [Hv Ht]. split; [done|].
  assert (Ht' : text_members validated_text_members (row_payload r) = true).
  { unfold text_payload, text_members in Ht. cbn [forallb] in Ht.
    by apply andb_true_iff in Ht as [_ Ht]. }
  assert (Hall : ∀ k, satisfies k (row_payload r) = true).
  { rewrite (validate_text_spec _ Ht') in Hv.
    intros k. destruct k;
      repeat match type of Hv with
             | (if negb ?b then _ else _) = _ => destruct b eqn:?; [cbn [negb] in Hv|done]
             end; done. }
  split; [done|].
  pose proof (Hall RSex) as Hsex.
  pose proof (text_members_get _ _ "sex" Ht' ltac:(in_list)) as Htext.
  unfold satisfies, row_payload in Hsex. unfold row_payload in Htext.
  rewrite get_list_to_map in Hsex, Htext.
  cbn [assoc String.eqb Ascii.eqb Bool.eqb default from_option] in Hsex, Htext.
  unfold Datatypes.id in Hsex, Htext.
  destruct (get r "sex") as [| |b|n|s]; try done.
  exists s. split; [done|]. intros ->. done.
Qed.

Lemma stored_registrations_valid_witness :
  validateRegistration
    (Some (row_payload
       (assign_row (registration_params ada ++ [("created_at", VStr (now sample_env))])
                   (default_row (Table registrations_columns ∅ 0))))) = None ∧
  ∃ s, get (assign_row (registration_params ada
                          ++ [("created_at", VStr (now sample_env))])
                       (default_row (Table registrations_columns ∅ 0))) "sex" = VStr s
       ∧ s ≠ "".
Proof.
  destruct (stored_registrations_valid sample_db1 1
              (assign_row (registration_params ada
                             ++ [("created_at", VStr (now sample_env))])
                          (default_row (Table registrations_columns ∅ 0))))
    as (H1 & _ & H2).
  - apply (reachable_request _ PostRegistrations sample_env
             (Request anonymous "" (Some ada))).
    + apply reachable_boot.
    + vm_compute; reflexivity.
  - by_compute.
  - exact (conj H1 H2).
Defined.

(** C3 (as stated) fails: a registration whose [sex] is "other" passes
    validation and is stored; the store so reached holds a registration
    whose [sex] is none of female, male, nonbinary, prefer-not. *)
Lemma stored_sex_outside_enumeration :
  reachable other_db ∧
  validateRegistration (Some (<["sex" := VStr "other"]> ada)) = None ∧
  (λ r, get r "sex") <$> stored other_db 1 = Some (VStr "other") ∧
  (VStr "other" ∉ sex_enumeration) ∧
  ¬ (∀ db id r, reachable db → stored db id = Some r →
       get r "sex" ∈ sex_enumeration).
Proof.
  assert (Hreach : reachable other_db).
  { apply (reachable_request _ PostRegistrations sample_env
             (Request anonymous "" (Some (<["sex" := VStr "other"]> ada)))).
    - apply reachable_boot.
    - vm_compute; reflexivity. }
  assert (Hnot : VStr "other" ∉ sex_enumeration).
  { unfold sex_enumeration. intros H. set_unfold in H.
    destruct H as [H|[H|[H|[H|[]]]]]; discriminate H. }
  split; [done|]. split; [vm_compute; reflexivity|].
  split; [vm_compute; reflexivity|]. split; [done|].
  intros Hall.
  destruct (stored other_db 1) as [r|] eqn:Hr.
  - specialize (Hall other_db 1 r Hreach Hr).
    assert (Hsex : get r "sex" = VStr "other").
    { assert (H : (λ r, get r "sex") <$> stored other_db 1 = Some (VStr "other"))
        by (vm_compute; reflexivity).
      rewrite Hr in H. by injection H. }
    rewrite Hsex in Hall. by apply Hnot.
  - assert (H : bool_decide (stored other_db 1 = None) = false) by (vm_compute; reflexivity).
    by rewrite Hr in H.
Qed.

(* ================================================================== *)
(** * Further properties of the server *)
(* ================================================================== *)

(** ** What a request may change *)

(** The registrations table after an INSERT, an UPDATE or a DELETE that
    succeeded: same columns, a sequence number that did not go down. *)
Lemma insert_into_inv name a (db db' : gmap string table) id :
  insert_into name a db = Done (db', id) →
  ∃ t r, db !! name = Some t ∧ tbl_rows t !! id = None ∧ tbl_seq t < id ∧
         db' = <[name := Table (tbl_columns t) (<[id := r]> (tbl_rows t)) id]> db ∧
         r = assign_row a (default_row t).
Proof.
  unfold insert_into. destruct (db !! name) as [t|]; [|done].
  destruct (unknown_column _ _); [done|].
  destruct (violates_notnull _ _ _); [done|].
  destruct (violates_unique _ _ _); [done|].
  intros [= <- <-]. exists t, (assign_row a (default_row t)).
  repeat split; [apply next_id_fresh | lia].
Qed.

Lemma update_by_id_inv name a id (db db' : gmap string table) changes :
  update_by_id name a id db = Done (db', changes) →
  (db' = db ∧ changes = 0) ∨
  ∃ t k old, db !! name = Some t ∧ row_id id = Some k ∧ tbl_rows t !! k = Some old ∧
    changes = 1 ∧
    db' = <[name := Table (tbl_columns t) (<[k := assign_row a old]> (tbl_rows t))
                          (tbl_seq t)]> db.
Proof.
  unfold update_by_id. destruct (db !! name) as [t|]; [|done].
  destruct (unknown_column _ _); [done|].
  destruct (row_id id) as [k|]; cbn [mbind option_bind]; [|by intros [= <- <-]; left].
  destruct (tbl_rows t !! k) as [old|] eqn:Hold; cbn [fmap option_fmap option_map];
    [|by intros [= <- <-]; left].
  destruct (violates_notnull _ _ _); [done|].
  destruct (violates_unique _ _ _); [done|].
  intros [= <- <-]. right. by exists t, k, old.
Qed.

Lemma delete_by_id_inv name id (db db' : gmap string table) changes :
  delete_by_id name id db = Done (db', changes) →
  (db' = db ∧ changes = 0) ∨
  ∃ t k old, db !! name = Some t ∧ row_id id = Some k ∧ tbl_rows t !! k = Some old ∧
    changes = 1 ∧
    db' = <[name := Table (tbl_columns t) (delete k (tbl_rows t)) (tbl_seq t)]> db.
Proof.
  unfold delete_by_id. destruct (db !! name) as [t|]; [|done].
  destruct (row_id id) as [k|]; cbn [mbind option_bind]; [|by intros [= <- <-]; left].
  destruct (tbl_rows t !! k) as [old|] eqn:Hold; cbn [fmap option_fmap option_map];
    [|by intros [= <- <-]; left].
  intros [= <- <-]. right. by exists t, k, old.
Qed.

Lemma assign_row_unwritten (p : gmap string value) (old : gmap string value) c :
  c ∉ written_columns → assign_row (registration_params p) old !! c = old !! c.
Proof.
  intros Hc. rewrite assign_row_lookup.
  destruct (assoc c (registration_params p)) as [v|] eqn:Hv; [|done].
  exfalso. apply Hc. rewrite <- list_to_map_assoc in Hv.
  apply elem_of_list_to_map_2 in Hv.
  change written_columns with (registration_params p).*1.
  apply list_elem_of_fmap. by exists (c, v).
Qed.

(** Every request either leaves the store as it is, or is a creation
    answered 201, an update answered 200 or a deletion answered 200 that
    changes the registrations table in the one way it may. *)
Lemma dispatch_effect (r : route) (e : env) (req : request) (db : gmap string table) :
  db_after (dispatch r e req db) = db ∨
  (store_change db (db_after (dispatch r e req db)) ∧
   ((r = PostRegistrations ∧ status (res (dispatch r e req db)) = 201) ∨
    ((r = PutAdminRegistration ∨ r = DeleteAdminRegistration) ∧
     status (res (dispatch r e req db)) = 200))).
Proof.
  destruct r; cbn [dispatch].
  - unfold post_registrations.
    destruct (validateRegistration (req_body req)) as [err|]; [by left|].
    destruct (insert_into _ _ db) as [[db' id]|err] eqn:Hins; [|by left].
    apply insert_into_inv in Hins as (t & r & Ht & Hfresh & Hseq & -> & _).
    right. split; [|by left]. by eapply change_insert.
  - left. unfold post_admin_login.
    destruct (_ || _); [done|].
    destruct (select_where _ _ _ _ db) as [[row|]|err]; try done.
    by destruct (bcrypt_compare e _ _) as [[]|].
  - by left.
  - left. unfold get_admin_me. by destruct (not_ _).
  - left. unfold get_admin_registrations, isAdmin.
    destruct (ToBoolean _); [|done]. by destruct (select_all_desc _ _ _ db).
  - left. unfold get_admin_registration, isAdmin.
    destruct (ToBoolean _); [|done]. destruct (negb _); [done|].
    by destruct (select_by_id _ _ _ db) as [[row|]|err].
  - unfold put_admin_registration, isAdmin.
    destruct (ToBoolean _); [|by left]. destruct (negb _); [by left|].
    destruct (validateRegistration (req_body req)) as [err|]; [by left|].
    destruct (update_by_id _ _ _ db) as [[db' changes]|err] eqn:Hup; [|by left].
    apply update_by_id_inv in Hup as [[-> ->]|(t & k & old & Ht & _ & Hold & -> & ->)];
      [by left|].
    right. split; [|by right; split; [left|]].
    eapply change_update; [done|done| |done]. intros c. apply assign_row_unwritten.
  - unfold delete_admin_registration, isAdmin.
    destruct (ToBoolean _); [|by left]. destruct (negb _); [by left|].
    destruct (delete_by_id _ _ db) as [[db' changes]|err] eqn:Hdel; [|by left].
    apply delete_by_id_inv in Hdel as [[-> ->]|(t & k & old & Ht & _ & Hold & -> & ->)];
      [by left|].
    right. split; [|by right; split; [right|]]. by eapply change_delete.
Qed.

(** X1.  A request changes the store only when it is a creation that is
    answered 201, or an update or a deletion that is answered 200: the
    reading routes, login and logout, and every request answered with
    another status leave the store as it was. *)
Theorem store_changed_only_by_success (r : route) (e : env) (req : request)
    (db : gmap string table) :
  db_after (dispatch r e req db) ≠ db →
  (r = PostRegistrations ∧ status (res (dispatch r e req db)) = 201) ∨
  ((r = PutAdminRegistration ∨ r = DeleteAdminRegistration) ∧
   status (res (dispatch r e req db)) = 200).
Proof.
  intros Hne. destruct (dispatch_effect r e req db) as [Heq|[_ H]]; [done|exact H].
Qed.

Lemma store_changed_only_by_success_witness :
  db_after (dispatch PostRegistrations sample_env (Request anonymous "" (Some ada)) sample_db)
  ≠ sample_db ∧
  ((PostRegistrations = PostRegistrations ∧
    status (res (dispatch PostRegistrations sample_env
                   (Request anonymous "" (Some ada)) sample_db)) = 201) ∨
   ((PostRegistrations = PutAdminRegistration ∨
     PostRegistrations = DeleteAdminRegistration) ∧
    status (res (dispatch PostRegistrations sample_env
                   (Request anonymous "" (Some ada)) sample_db)) = 200)).
Proof.
  split; [by_compute|].
  apply (store_changed_only_by_success PostRegistrations sample_env
           (Request anonymous "" (Some ada)) sample_db).
  by_compute.
Defined.

Lemma store_change_frame (db db' : gmap string table) :
  store_change db db' →
  (∀ name, name ≠ "registrations" → db' !! name = db !! name) ∧
  ∃ t t', db !! "registrations" = Some t ∧ db' !! "registrations" = Some t' ∧
          tbl_columns t' = tbl_columns t ∧ tbl_seq t <= tbl_seq t'.
Proof.
  intros [t id r Ht _ Hseq ->|t k old r Ht _ _ ->|t k old Ht _ ->];
    (split; [by intros name Hn; rewrite lookup_insert_ne|]);
    eexists t, _; rewrite lookup_insert_eq; (split; [done|]); (split; [done|]);
    cbn; split; (done || lia).
Qed.

Lemma requests_keep_schema_issued (r : route) (e : env) (req : request)
    (db : gmap string table) :
  issued db <= issued (db_after (dispatch r e req db)).
Proof.
  destruct (dispatch_effect r e req db) as [->|[Hch _]]; [done|].
  apply store_change_frame in Hch as (_ & t & t' & Ht & Ht' & _ & Hseq).
  unfold issued. by rewrite Ht, Ht'.
Qed.

(** X2.  No request touches another table than registrations (so none
    creates, changes or removes an administrator), none creates or drops
    the registrations table or changes its columns, and the sequence
    number of the table never goes down. *)
Theorem requests_keep_schema (r : route) (e : env) (req : request)
    (db : gmap string table) :
  (∀ name, name ≠ "registrations" →
           db_after (dispatch r e req db) !! name = db !! name) ∧
  column_names <$> db_after (dispatch r e req db) !! "registrations"
  = column_names <$> db !! "registrations" ∧
  issued db <= issued (db_after (dispatch r e req db)).
Proof.
  destruct (dispatch_effect r e req db) as [->|[Hch _]]; [by repeat split|].
  apply store_change_frame in Hch as (Hother & t & t' & Ht & Ht' & Hcols & Hseq).
  split; [exact Hother|]. unfold issued, column_names. rewrite Ht, Ht'. cbn.
  by rewrite Hcols.
Qed.

Lemma requests_keep_schema_witness :
  db_after (dispatch DeleteAdminRegistration sample_env
              (Request admin_session "1" None) sample_db1) !! "admins"
  = sample_db1 !! "admins" ∧
  issued sample_db1
  <= issued (db_after (dispatch DeleteAdminRegistration sample_env
                         (Request admin_session "1" None) sample_db1)).
Proof.
  destruct (requests_keep_schema DeleteAdminRegistration sample_env
              (Request admin_session "1" None) sample_db1) as (H1 & _ & H3).
  split; [apply H1; discriminate|exact H3].
Defined.

Lemma store_change_row (db db' : gmap string table) (id : Z) (old new : gmap string value) :
  store_change db db' → stored db id = Some old → stored db' id = Some new →
  ∀ c, c ∉ written_columns → new !! c = old !! c.
Proof.
  unfold stored.
  intros [t k r Ht Hfresh _ ->|t k old' r Ht Hold Hkeep ->|t k old' Ht Hold ->];
    rewrite Ht, lookup_insert_eq; cbn; intros Ho Hn.
  - destruct (decide (k = id)) as [->|Hk]; [congruence|].
    rewrite lookup_insert_ne in Hn by done. congruence.
  - destruct (decide (k = id)) as [->|Hk].
    + rewrite lookup_insert_eq in Hn. intros c Hc. simplify_eq. by apply Hkeep.
    + rewrite lookup_insert_ne in Hn by done. congruence.
  - destruct (decide (k = id)) as [->|Hk].
    + by rewrite lookup_delete_eq in Hn.
    + rewrite lookup_delete_ne in Hn by done. congruence.
Qed.

(** X3.  Whatever the request, a registration that is in the store
    before and after it keeps every cell outside the nine columns the
    payload is written to: its creation time in particular is never
    changed once the row exists. *)
Theorem creation_time_kept (r : route) (e : env) (req : request)
    (db : gmap string table) (id : Z) (old new : gmap string value) :
  stored db id = Some old →
  stored (db_after (dispatch r e req db)) id = Some new →
  new !! "created_at" = old !! "created_at" ∧
  ∀ c, c ∉ written_columns → new !! c = old !! c.
Proof.
  intros Ho Hn.
  assert (∀ c, c ∉ written_columns → new !! c = old !! c) as H.
  { destruct (dispatch_effect r e req db) as [Heq|[Hch _]].
    - rewrite Heq in Hn. intros c _. congruence.
    - by eapply store_change_row. }
  split; [|exact H]. apply H. by_compute.
Qed.

Lemma creation_time_kept_witness :
  stored (db_after (dispatch PutAdminRegistration sample_env
            (Request admin_session "1" (Some ada_form)) sample_db1)) 1
  = Some (assign_row (registration_params ada_form)
            (assign_row (registration_params ada ++ [("created_at", VStr (now sample_env))])
                        (default_row (Table registrations_columns ∅ 0)))) ∧
  assign_row (registration_params ada_form)
    (assign_row (registration_params ada ++ [("created_at", VStr (now sample_env))])
                (default_row (Table registrations_columns ∅ 0))) !! "created_at"
  = Some (VStr "2024-05-01T09:00:00.000Z").
Proof.
  assert (stored (db_after (dispatch PutAdminRegistration sample_env
            (Request admin_session "1" (Some ada_form)) sample_db1)) 1
          = Some (assign_row (registration_params ada_form)
            (assign_row (registration_params ada ++ [("created_at", VStr (now sample_env))])
                        (default_row (Table registrations_columns ∅ 0))))) as Hn
    by by_compute.
  split; [exact Hn|].
  destruct (creation_time_kept PutAdminRegistration sample_env
              (Request admin_session "1" (Some ada_form)) sample_db1 1
              (assign_row (registration_params ada ++ [("created_at", VStr (now sample_env))])
                          (default_row (Table registrations_columns ∅ 0)))
              _ ltac:(by_compute) Hn) as [H _].
  rewrite H. by_compute.
Defined.

(** ** Restarts and sequences of requests *)

(** What an ALTER TABLE whose error is dropped leaves of the table. *)
Lemma add_column_lookup name (col : column) (db : gmap string table) t :
  db !! name = Some t →
  ignore_error db (alter_table_add_column name col db) !! name
  = Some (if has_column t (col_name col) || String.eqb (col_name col) "id"
             || (col_notnull col && is_null (col_default col))
          then t
          else Table (tbl_columns t ++ [col])
                     (insert (col_name col) (col_default col) <$> tbl_rows t)
                     (tbl_seq t)).
Proof.
  intros Ht. unfold alter_table_add_column. rewrite Ht.
  destruct (has_column t (col_name col) || String.eqb (col_name col) "id"); [done|].
  destruct (col_notnull col && is_null (col_default col)); [done|].
  cbn. by rewrite lookup_insert_eq.
Qed.

(** The registrations table after the schema statements: its sequence
    number and the ids of its rows are those it had. *)
Lemma schema_statements_rows (db : gmap string table) t :
  db !! "registrations" = Some t →
  ∃ t', schema_statements db !! "registrations" = Some t' ∧
        tbl_seq t' = tbl_seq t ∧
        ∀ id, tbl_rows t' !! id = None ↔ tbl_rows t !! id = None.
Proof.
  intros Ht. unfold schema_statements.
  rewrite create_table_other by done.
  assert (create_table_if_not_exists "registrations" registrations_columns db = db) as ->.
  { unfold create_table_if_not_exists. by rewrite Ht. }
  set (db2 := ignore_error db _).
  assert (∃ t2, db2 !! "registrations" = Some t2 ∧ tbl_seq t2 = tbl_seq t ∧
                ∀ id, tbl_rows t2 !! id = None ↔ tbl_rows t !! id = None)
    as (t2 & Ht2 & Hseq2 & Hrows2).
  { unfold db2. rewrite (add_column_lookup _ _ _ t Ht). eexists. split; [done|].
    destruct (_ || _); [done|]. cbn. split; [done|]. intros id.
    by rewrite lookup_fmap, fmap_None. }
  rewrite (add_column_lookup _ _ _ t2 Ht2). eexists. split; [done|].
  destruct (_ || _); [done|]. cbn. split; [done|]. intros id.
  by rewrite lookup_fmap, fmap_None.
Qed.

Lemma schema_statements_fresh (db : gmap string table) :
  db !! "registrations" = None →
  schema_statements db !! "registrations" = Some (Table registrations_columns ∅ 0).
Proof.
  intros Hn. unfold schema_statements. rewrite create_table_other by done.
  set (db1 := create_table_if_not_exists _ _ db).
  assert (db1 !! "registrations" = Some (Table registrations_columns ∅ 0)) as H1.
  { unfold db1, create_table_if_not_exists. by rewrite Hn, lookup_insert_eq. }
  set (db2 := ignore_error db1 _).
  assert (db2 !! "registrations" = Some (Table registrations_columns ∅ 0)) as H2.
  { unfold db2. by rewrite (add_column_lookup _ _ _ _ H1). }
  by rewrite (add_column_lookup _ _ _ _ H2).
Qed.

(** A restart keeps the ids in use and the sequence number. *)
Lemma restart_keeps_ids (e : env) (db : gmap string table) :
  issued (initializeDatabase e db).1 = issued db ∧
  ∀ id, stored (initializeDatabase e db).1 id = None ↔ stored db id = None.
Proof.
  unfold issued, stored. rewrite initialize_registrations.
  destruct (db !! "registrations") as [t|] eqn:Ht.
  - destruct (schema_statements_rows db t Ht) as (t' & -> & Hseq & Hrows). by cbn.
  - rewrite (schema_statements_fresh db Ht). cbn. split; [done|]. intros id.
    by rewrite lookup_empty.
Qed.

Lemma store_change_covers (db db' : gmap string table) :
  store_change db db' → sequence_covers db → sequence_covers db'.
Proof.
  unfold sequence_covers, issued, stored.
  intros [t k r Ht Hfresh Hseq ->|t k old r Ht Hold _ ->|t k old Ht Hold ->] Hcov id;
    rewrite Ht in Hcov; rewrite lookup_insert_eq; cbn; cbn in Hcov; specialize (Hcov id).
  - destruct (decide (k = id)) as [->|Hk]; [intros _; lia|].
    rewrite lookup_insert_ne by done. intros H. specialize (Hcov H). lia.
  - destruct (decide (k = id)) as [->|Hk].
    + intros _. apply Hcov. by rewrite Hold.
    + by rewrite lookup_insert_ne.
  - destruct (decide (k = id)) as [->|Hk].
    + by rewrite lookup_delete_eq.
    + by rewrite lookup_delete_ne.
Qed.

Lemma run_step_covers (s : step) (db : gmap string table) :
  sequence_covers db →
  sequence_covers (run_step db s) ∧ issued db <= issued (run_step db s).
Proof.
  intros Hcov. destruct s as [r e req|e]; cbn [run_step].
  - split; [|apply requests_keep_schema_issued].
    destruct (dispatch_effect r e req db) as [->|[Hch _]]; [done|].
    by eapply store_change_covers.
  - destruct (restart_keeps_ids e db) as [Hi Hs]. rewrite Hi. split; [|lia].
    intros id Hid. rewrite Hi. apply Hcov. by rewrite <- Hs.
Qed.

Lemma serve_covers (steps : list step) (db : gmap string table) :
  sequence_covers db →
  sequence_covers (serve steps db) ∧ issued db <= issued (serve steps db).
Proof.
  revert db. induction steps as [|s steps IH]; intros db Hcov; [by split|].
  cbn [serve foldl]. destruct (run_step_covers s db Hcov) as [Hcov' Hle].
  destruct (IH _ Hcov') as [Hcov'' Hle']. split; [exact Hcov''|].
  unfold serve in Hle'. lia.
Qed.

Lemma boot_covers (e : env) : sequence_covers (initializeDatabase e ∅).1.
Proof.
  intros id Hid. exfalso. apply Hid. apply (restart_keeps_ids e ∅). unfold stored.
  by rewrite lookup_empty.
Qed.

Lemma created_id_above (e : env) (req : request) (db : gmap string table) (id : Z) :
  res (post_registrations e req db) = Response 201 [] (JSaved "Saved" id) →
  issued db < id.
Proof.
  unfold post_registrations.
  destruct (validateRegistration (req_body req)); [done|].
  destruct (insert_into _ _ db) as [[db' k]|err] eqn:Hins; [|done].
  intros [= <-]. apply insert_into_inv in Hins as (t & r & Ht & _ & Hseq & _).
  unfold issued. by rewrite Ht.
Qed.

(** X4.  Registration ids are never used twice: from the first start of
    the server on an empty database, whatever requests and restarts
    follow, a creation returns an id above every id that was ever in
    use before it, also when the registration under that id has been
    deleted since. *)
Theorem ids_never_reused (e0 : env) (before after : list step) (e : env)
    (req : request) (id id' : Z) :
  stored (serve before (initializeDatabase e0 ∅).1) id ≠ None →
  res (post_registrations e req (serve after (serve before (initializeDatabase e0 ∅).1)))
  = Response 201 [] (JSaved "Saved" id') →
  id < id'.
Proof.
  intros Hid Hres.
  destruct (serve_covers before _ (boot_covers e0)) as [Hcov _].
  destruct (serve_covers after _ Hcov) as [_ Hle].
  apply created_id_above in Hres. specialize (Hcov id Hid). lia.
Qed.

Lemma ids_never_reused_witness :
  stored (serve [Handle PostRegistrations sample_env (Request anonymous "" (Some ada))]
                (initializeDatabase sample_env ∅).1) 1 ≠ None ∧
  stored (serve [Handle DeleteAdminRegistration sample_env (Request admin_session "1" None)]
           (serve [Handle PostRegistrations sample_env (Request anonymous "" (Some ada))]
                  (initializeDatabase sample_env ∅).1)) 1 = None ∧
  res (post_registrations sample_env (Request anonymous "" (Some ada_form))
         (serve [Handle DeleteAdminRegistration sample_env (Request admin_session "1" None)]
            (serve [Handle PostRegistrations sample_env (Request anonymous "" (Some ada))]
                   (initializeDatabase sample_env ∅).1)))
  = Response 201 [] (JSaved "Saved" 2) ∧
  1 < 2.
Proof.
  split; [by_compute|]. split; [by_compute|]. split; [by_compute|].
  apply (ids_never_reused sample_env
           [Handle PostRegistrations sample_env (Request anonymous "" (Some ada))]
           [Handle DeleteAdminRegistration sample_env (Request admin_session "1" None)]
           sample_env (Request anonymous "" (Some ada_form)) 1 2); by_compute.
Defined.

(** ** What a request reads *)

Lemma registration_params_ext (p q : gmap string value) :
  Forall (λ k, get q k = get p k) read_members →
  registration_params q = registration_params p.
Proof.
  intros H. rewrite Forall_forall in H. unfold registration_params.
  by rewrite !H by (unfold read_members; in_list).
Qed.

Lemma validate_read_members (p q : gmap string value) :
  Forall (λ k, get q k = get p k) read_members →
  validateRegistration (Some q) = validateRegistration (Some p).
Proof.
  intros H. rewrite Forall_forall in H. apply validate_ext.
  - intros k Hk. apply H. unfold validated_text_members in Hk. unfold read_members.
    repeat (apply elem_of_cons in Hk as [->|Hk]; [in_list|]).
    by apply elem_of_nil in Hk.
  - by rewrite H by (unfold read_members; in_list).
Qed.

(** X5.  Of the body of a request, the registration routes read the
    nine members of a registration and nothing else: two bodies that
    agree on them get the same response and leave the same store, so an
    id or a creation time sent by the client never reaches the
    database. *)
Theorem unread_members_ignored (r : route) (e : env) (s : session) (i : string)
    (p q : gmap string value) (db : gmap string table) :
  r ≠ PostAdminLogin →
  Forall (λ k, get q k = get p k) read_members →
  dispatch r e (Request s i (Some q)) db = dispatch r e (Request s i (Some p)) db.
Proof.
  intros Hr H. pose proof (registration_params_ext p q H) as Hp.
  pose proof (validate_read_members p q H) as Hv.
  destruct r; cbn [dispatch].
  - unfold post_registrations. cbn [req_body default from_option].
    unfold Datatypes.id. rewrite Hv, Hp. reflexivity.
  - contradiction.
  - reflexivity.
  - reflexivity.
  - reflexivity.
  - reflexivity.
  - unfold put_admin_registration, isAdmin. cbn [req_body default from_option].
    unfold Datatypes.id. rewrite Hv, Hp. reflexivity.
  - reflexivity.
Qed.

Lemma unread_members_ignored_witness :
  dispatch PostRegistrations sample_env
    (Request anonymous ""
       (Some (<["id" := VNum (of_Z 99)]> (<["created_at" := VStr "1999"]> ada))))
    sample_db
  = dispatch PostRegistrations sample_env (Request anonymous "" (Some ada)) sample_db.
Proof.
  apply (unread_members_ignored PostRegistrations sample_env anonymous ""
           ada (<["id" := VNum (of_Z 99)]> (<["created_at" := VStr "1999"]> ada))
           sample_db); [discriminate|by_compute].
Defined.

(** ** Responses and calls *)

(** Case analysis along the branches of the handlers. *)
Ltac walk_handlers r :=
  destruct r; cbn [dispatch];
  unfold post_registrations, post_admin_login, post_admin_logout, get_admin_me,
    get_admin_registrations, get_admin_registration, put_admin_registration,
    delete_admin_registration, isAdmin;
  repeat match goal with
    | |- context [if ToBoolean ?v then _ else _] => destruct (ToBoolean v)
    | |- context [if not_ ?v then _ else _] => destruct (not_ v)
    | |- context [if ?a || ?b then _ else _] => destruct (a || b)
    | |- context [if negb ?v then _ else _] => destruct v; cbn [negb]
    | |- context [if ?c =? 0 then _ else _] => destruct (c =? 0)
    | |- context [match validateRegistration ?b with _ => _ end] =>
        destruct (validateRegistration b)
    | |- context [match insert_into ?a ?b ?c with _ => _ end] =>
        destruct (insert_into a b c) as [[? ?]|?]
    | |- context [match update_by_id ?a ?b ?c ?d with _ => _ end] =>
        destruct (update_by_id a b c d) as [[? ?]|?]
    | |- context [match delete_by_id ?a ?b ?c with _ => _ end] =>
        destruct (delete_by_id a b c) as [[? ?]|?]
    | |- context [match select_by_id ?a ?b ?c ?d with _ => _ end] =>
        destruct (select_by_id a b c d) as [[?|]|?]
    | |- context [match select_all_desc ?a ?b ?c ?d with _ => _ end] =>
        destruct (select_all_desc a b c d) as [?|?]
    | |- context [match select_where ?a ?b ?c ?d ?f with _ => _ end] =>
        destruct (select_where a b c d f) as [[?|]|?]
    | |- context [match bcrypt_compare ?a ?b ?c with _ => _ end] =>
        destruct (bcrypt_compare a b c) as [[|]|]
    end;
  cbn [reply res db_after session_after trace status].

(** X6.  A request answered 400 was refused before anything was called:
    no statement was sent to the database, nothing was hashed or
    logged, and the store and the session are as they were. *)
Theorem bad_request_makes_no_call (r : route) (e : env) (req : request)
    (db : gmap string table) :
  status (res (dispatch r e req db)) = 400 →
  trace (dispatch r e req db) = [] ∧
  db_after (dispatch r e req db) = db ∧
  session_after (dispatch r e req db) = Some (req_session req).
Proof. walk_handlers r; intros H; first [discriminate H | done]. Qed.

Lemma bad_request_makes_no_call_witness :
  status (res (dispatch PutAdminRegistration sample_env
                 (Request admin_session "one" (Some ada)) sample_db1)) = 400 ∧
  trace (dispatch PutAdminRegistration sample_env
           (Request admin_session "one" (Some ada)) sample_db1) = [].
Proof.
  split; [vm_compute; reflexivity|].
  apply (bad_request_makes_no_call PutAdminRegistration sample_env
           (Request admin_session "one" (Some ada)) sample_db1).
  vm_compute; reflexivity.
Defined.

(** X7.  The server answers 500 exactly when it logs an error with
    [console.error]: every failure of a statement or of the password
    comparison is logged and answered 500, and nothing else is. *)
Theorem server_error_logged (r : route) (e : env) (req : request)
    (db : gmap string table) :
  status (res (dispatch r e req db)) = 500 ↔
  existsb is_console_error (trace (dispatch r e req db)) = true.
Proof. walk_handlers r; split; intros H; cbn in H |- *; first [discriminate H | done]. Qed.

Lemma server_error_logged_witness :
  status (res (dispatch GetAdminRegistrations sample_env
                 (Request admin_session "" None) ∅)) = 500 ∧
  existsb is_console_error
    (trace (dispatch GetAdminRegistrations sample_env
              (Request admin_session "" None) ∅)) = true.
Proof.
  split; [vm_compute; reflexivity|].
  apply (server_error_logged GetAdminRegistrations sample_env
           (Request admin_session "" None) ∅).
  vm_compute; reflexivity.
Defined.

(** X8.  A request leaves with an administrator's session only if it
    came with one, or if it is a login under a username the lookup
    finds with a password the comparison verifies against the stored
    hash: no other route, and no failed login, signs anybody in. *)
Theorem admin_granted_only_by_login (r : route) (e : env) (req : request)
    (db : gmap string table) (s : session) :
  session_after (dispatch r e req db) = Some s →
  ToBoolean (adminId s) = true →
  ToBoolean (adminId (req_session req)) = true ∨
  (r = PostAdminLogin ∧
   status (res (dispatch r e req db)) = 200 ∧
   ∃ row,
     select_where "admins" ["id"; "password_hash"] "username"
                  (get (default ∅ (req_body req)) "username") db = Done (Some row) ∧
     bcrypt_compare e (get (default ∅ (req_body req)) "password")
                    (get row "password_hash") = Some true ∧
     s = Session (get row "id") (get (default ∅ (req_body req)) "username")).
Proof.
  destruct (ToBoolean (adminId (req_session req))) eqn:Hs; [by left|].
  intros Hafter Hadm. right.
  destruct r; cbn [dispatch] in *;
    try (unfold post_registrations, post_admin_logout, get_admin_me,
           get_admin_registrations, get_admin_registration, put_admin_registration,
           delete_admin_registration, isAdmin, not_ in Hafter;
         rewrite ?Hs in Hafter; cbn [negb] in Hafter;
         repeat match type of Hafter with
           | context [match validateRegistration ?b with _ => _ end] =>
               destruct (validateRegistration b)
           | context [match insert_into ?a ?b ?c with _ => _ end] =>
               destruct (insert_into a b c) as [[? ?]|?]
           end;
         cbn [reply session_after] in Hafter; simplify_eq; congruence).
  unfold post_admin_login in *.
  destruct (_ || _); [cbn in Hafter; simplify_eq; congruence|].
  destruct (select_where _ _ _ _ db) as [[row|]|err] eqn:Hsel;
    [|cbn in Hafter; simplify_eq; congruence..].
  destruct (bcrypt_compare e _ _) as [[|]|] eqn:Hcmp;
    [|cbn in Hafter; simplify_eq; congruence..].
  cbn in Hafter. simplify_eq. split; [done|]. split; [done|]. by exists row.
Qed.

Lemma admin_granted_only_by_login_witness :
  session_after (dispatch PostAdminLogin sample_env
    (Request anonymous ""
       (Some (list_to_map [("username", VStr "admin"); ("password", VStr "admin123")])))
    sample_db) = Some admin_session ∧
  status (res (dispatch PostAdminLogin sample_env
    (Request anonymous ""
       (Some (list_to_map [("username", VStr "admin"); ("password", VStr "admin123")])))
    sample_db)) = 200.
Proof.
  assert (session_after (dispatch PostAdminLogin sample_env
    (Request anonymous ""
       (Some (list_to_map [("username", VStr "admin"); ("password", VStr "admin123")])))
    sample_db) = Some admin_session) as H by (vm_compute; reflexivity).
  split; [exact H|].
  destruct (admin_granted_only_by_login PostAdminLogin sample_env _ sample_db
              admin_session H) as [Habs|(_ & Hst & _)];
    [vm_compute; reflexivity | discriminate Habs | exact Hst].
Defined.

(** ** Signing in and out *)

Lemma env_or_nonempty (a : option string) (b : string) : b ≠ "" → env_or a b ≠ "".
Proof.
  intros Hb. unfold env_or. destruct a as [s|]; [|done].
  by destruct (String.eqb_spec s "").
Qed.

Lemma truthy_string (s : string) : s ≠ "" → ToBoolean (VStr s) = true.
Proof. intros H. cbn. by destruct (String.eqb_spec s ""). Qed.

(** The administrators after the first start on an empty database, when
    the password could be hashed: one, under id 1, with the configured
    name and the hash. *)
Lemma boot_admins (e0 : env) (h : string) :
  bcrypt_hash e0 (env_or (ADMIN_PASSWORD e0) "admin123") = Some h →
  (initializeDatabase e0 ∅).1 !! "admins"
  = Some (Table admins_columns
            {[ 1 := list_to_map
                      [("username", VStr (env_or (ADMIN_USERNAME e0) "admin"));
                       ("password_hash", VStr h)] ]} 1).
Proof.
  intros Hh. rewrite initialize_unfold. cbn [fst].
  assert (schema_statements ∅
          = <["admins" := Table admins_columns ∅ 0]>
              (<["registrations" := Table registrations_columns ∅ 0]> ∅)) as ->
    by by_compute.
  unfold ensureDefaultAdmin.
  assert (∀ u, select_where "admins" ["id"] "username" (VStr u)
                 (<["admins" := Table admins_columns ∅ 0]>
                    (<["registrations" := Table registrations_columns ∅ 0]> ∅))
               = Done None) as -> by (intros u; vm_compute; reflexivity).
  rewrite Hh. vm_compute. reflexivity.
Qed.

(** The lookup of the login on a table that holds one administrator. *)
Lemma lookup_single_admin (db : gmap string table) (id : Z) (u h : string) :
  db !! "admins"
  = Some (Table admins_columns
            {[ id := list_to_map [("username", VStr u); ("password_hash", VStr h)] ]} id) →
  select_where "admins" ["id"; "password_hash"] "username" (VStr u) db
  = Done (Some (list_to_map [("id", VNum (of_Z id)); ("password_hash", VStr h)])).
Proof.
  intros Ht. unfold select_where. rewrite Ht.
  assert (unknown_column
            (Table admins_columns
               {[ id := list_to_map [("username", VStr u); ("password_hash", VStr h)] ]} id)
            ("username" :: ["id"; "password_hash"]) = false) as -> by (vm_compute; reflexivity).
  cbn [tbl_rows]. rewrite map_to_list_singleton. cbn [filter list_filter].
  assert (sql_eq (default VNull
                    ((id, (list_to_map [("username", VStr u); ("password_hash", VStr h)]
                            : gmap string value)).2 !! "username"))
                 (bind (VStr u)) = true) as Heq.
  { cbn [snd]. rewrite list_to_map_assoc. cbn. apply String.eqb_refl. }
  case_decide; [|done]. cbn [head fmap option_fmap option_map fst snd].
  do 2 f_equal.
Qed.

(** X9.  The administrator that the first start creates can sign in:
    when the configured password could be hashed and the comparison
    verifies it against that hash, a login with the configured name and
    password is answered 200 and leaves a session with id 1 and that
    name; the session check then returns the name, and after a logout
    it answers 401. *)
Theorem default_admin_signs_in (e0 e : env) (h : string) (req : request) :
  bcrypt_hash e0 (env_or (ADMIN_PASSWORD e0) "admin123") = Some h →
  bcrypt_compare e (VStr (env_or (ADMIN_PASSWORD e0) "admin123")) (VStr h) = Some true →
  req_body req
  = Some (list_to_map [("username", VStr (env_or (ADMIN_USERNAME e0) "admin"));
                       ("password", VStr (env_or (ADMIN_PASSWORD e0) "admin123"))]) →
  post_admin_login e req (initializeDatabase e0 ∅).1
  = Result (Response 200 [] (JMessage "Logged in")) (initializeDatabase e0 ∅).1
           (Some (Session (VNum (of_Z 1)) (VStr (env_or (ADMIN_USERNAME e0) "admin"))))
           [Sql "SELECT id, password_hash FROM admins WHERE username = ?";
            BcryptCompare (VStr (env_or (ADMIN_PASSWORD e0) "admin123")) (VStr h)] ∧
  ∀ e' i b db,
    res (get_admin_me e'
           (Request (next_session (post_admin_login e req (initializeDatabase e0 ∅).1)) i b)
           db)
    = Response 200 [("Cache-Control", "no-store")]
               (JUsername (VStr (env_or (ADMIN_USERNAME e0) "admin"))) ∧
    res (get_admin_me e'
           (Request
              (next_session
                 (post_admin_logout e'
                    (Request (next_session
                                (post_admin_login e req (initializeDatabase e0 ∅).1)) i b)
                    db)) i b)
           db)
    = Response 401 [] (JMessage "Unauthorized").
Proof.
  intros Hh Hcmp Hb.
  set (name := env_or (ADMIN_USERNAME e0) "admin") in *.
  set (pw := env_or (ADMIN_PASSWORD e0) "admin123") in *.
  assert (get (default ∅ (req_body req)) "username" = VStr name) as Hu
    by (rewrite Hb; unfold get; cbn [default from_option]; unfold Datatypes.id;
        by rewrite list_to_map_assoc).
  assert (get (default ∅ (req_body req)) "password" = VStr pw) as Hp
    by (rewrite Hb; unfold get; cbn [default from_option]; unfold Datatypes.id;
        by rewrite list_to_map_assoc).
  assert (post_admin_login e req (initializeDatabase e0 ∅).1
          = Result (Response 200 [] (JMessage "Logged in")) (initializeDatabase e0 ∅).1
              (Some (Session (VNum (of_Z 1)) (VStr name)))
              [Sql "SELECT id, password_hash FROM admins WHERE username = ?";
               BcryptCompare (VStr pw) (VStr h)]) as Hlogin.
  { rewrite login_lookup;
      [|rewrite Hu; apply truthy_string; by apply env_or_nonempty
       |rewrite Hp; apply truthy_string; by apply env_or_nonempty].
    cbv zeta. rewrite Hu, Hp.
    rewrite (lookup_single_admin _ 1 name h (boot_admins e0 h Hh)).
    rewrite !get_list_to_map. cbn [assoc String.eqb Ascii.eqb Bool.eqb default from_option].
    unfold Datatypes.id. by rewrite Hcmp. }
  split; [exact Hlogin|]. intros e' i b db. rewrite Hlogin. by split.
Qed.

Lemma default_admin_signs_in_witness :
  res (post_admin_login sample_env
         (Request anonymous ""
            (Some (list_to_map [("username", VStr "admin"); ("password", VStr "admin123")])))
         (initializeDatabase sample_env ∅).1)
  = Response 200 [] (JMessage "Logged in").
Proof.
  destruct (default_admin_signs_in sample_env sample_env "$2a$10$admin123"
              (Request anonymous ""
                 (Some (list_to_map [("username", VStr "admin");
                                     ("password", VStr "admin123")]))))
    as [H _]; [vm_compute; reflexivity | vm_compute; reflexivity | reflexivity |].
  by rewrite H.
Defined.

(** X10.  A logout destroys the session whatever it held, without
    touching the store or calling anything; the next request of the
    client comes with an empty session, so the session check and every
    admin-only route answer it 401. *)
Theorem logout_ends_session (e : env) (req : request) (db : gmap string table) :
  post_admin_logout e req db
  = Result (Response 200 [] (JMessage "Logged out")) db None [] ∧
  ∀ r e' i b db',
    r = GetAdminMe ∨ admin_only r = true →
    dispatch r e' (Request (next_session (post_admin_logout e req db)) i b) db'
    = Result (Response 401 [] (JMessage "Unauthorized")) db'
             (Some (Session VUndefined VUndefined)) [].
Proof.
  split; [done|]. intros r e' i b db' [->|Hr]; [done|]. by destruct r.
Qed.

Lemma logout_ends_session_witness :
  dispatch GetAdminRegistrations sample_env
    (Request (next_session (post_admin_logout sample_env
                              (Request admin_session "" None) sample_db1)) "" None)
    sample_db1
  = Result (Response 401 [] (JMessage "Unauthorized")) sample_db1
           (Some (Session VUndefined VUndefined)) [].
Proof.
  destruct (logout_ends_session sample_env (Request admin_session "" None) sample_db1)
    as [_ H].
  apply (H GetAdminRegistrations sample_env "" None sample_db1). by right.
Defined.

(** ** The phone pattern *)

Lemma matches_Void (s : string) : matches Void s = false.
Proof. by induction s. Qed.

Lemma matches_Alt (a b : regex) (s : string) :
  matches (Alt a b) s = matches a s || matches b s.
Proof. revert a b. induction s as [|c s IH]; intros a b; [done|]. cbn. apply IH. Qed.

Lemma matches_Cat_Void (r : regex) (s : string) : matches (Cat Void r) s = false.
Proof. by induction s. Qed.

Lemma matches_Cat_Eps (r : regex) (s : string) : matches (Cat Eps r) s = matches r s.
Proof.
  destruct s as [|c s]; [done|]. cbn. by rewrite matches_Alt, matches_Cat_Void.
Qed.

Lemma matches_Cat_Alt (x y r : regex) (s : string) :
  matches (Cat (Alt x y) r) s = matches (Cat x r) s || matches (Cat y r) s.
Proof.
  revert x y. induction s as [|c s IH]; intros x y.
  - cbn. by destruct (nullable x), (nullable y), (nullable r).
  - cbn. destruct (nullable x), (nullable y); cbn;
      rewrite ?matches_Alt, IH; repeat destruct (matches _ s); done.
Qed.

Lemma matches_Cat_Cat_Void (a r : regex) (s : string) :
  matches (Cat (Cat Void a) r) s = false.
Proof. by induction s. Qed.

Lemma matches_Cat_Cat_Eps (a r : regex) (s : string) :
  matches (Cat (Cat Eps a) r) s = matches (Cat a r) s.
Proof.
  destruct s as [|c s]; [done|]. cbn. destruct (nullable a); cbn.
  - by rewrite !matches_Alt, matches_Cat_Alt, matches_Cat_Cat_Void.
  - by rewrite matches_Cat_Alt, matches_Cat_Cat_Void.
Qed.

(** A literal character in front. *)
Lemma matches_Cat_Lit (a : ascii) (r : regex) (c : ascii) (s : string) :
  matches (Cat (Lit a) r) (String c s) = Ascii.eqb c a && matches r s.
Proof.
  cbn. destruct (Ascii.eqb c a); [apply matches_Cat_Eps|apply matches_Cat_Void].
Qed.

Lemma matches_Cat_Lit_nil (a : ascii) (r : regex) : matches (Cat (Lit a) r) "" = false.
Proof. done. Qed.

(** A run of digits in front. *)
Lemma matches_Cat_Rep_none (lo : nat) (r : regex) (s : string) :
  matches (Cat (Rep Digit lo 0) r) s = Nat.eqb lo 0 && matches r s.
Proof.
  destruct s as [|c s]; cbn; rewrite orb_false_r; [done|].
  destruct (Nat.eqb lo 0); [|apply matches_Cat_Void].
  by rewrite matches_Alt, matches_Cat_Void.
Qed.

Lemma matches_Cat_Rep_some (lo hi : nat) (r : regex) (c : ascii) (s : string) :
  matches (Cat (Rep Digit lo (S hi)) r) (String c s)
  = (is_digit c && matches (Cat (Rep Digit (Nat.pred lo) hi) r) s)
    || (Nat.eqb lo 0 && matches r (String c s)).
Proof.
  cbn. rewrite orb_false_r. destruct (Nat.eqb lo 0); cbn.
  - rewrite matches_Alt. f_equal.
    destruct (is_digit c); [apply matches_Cat_Cat_Eps|apply matches_Cat_Cat_Void].
  - rewrite orb_false_r.
    destruct (is_digit c); [apply matches_Cat_Cat_Eps|apply matches_Cat_Cat_Void].
Qed.

Lemma matches_Cat_Rep_nil (lo hi : nat) (r : regex) :
  matches (Cat (Rep Digit lo hi) r) "" = Nat.eqb lo 0 && matches r "".
Proof. cbn. by rewrite orb_false_r. Qed.

(** A run of digits at the end. *)
Lemma matches_Rep_some (lo hi : nat) (c : ascii) (s : string) :
  matches (Rep Digit lo (S hi)) (String c s)
  = is_digit c && matches (Rep Digit (Nat.pred lo) hi) s.
Proof. cbn. destruct (is_digit c); [apply matches_Cat_Eps|apply matches_Cat_Void]. Qed.

Lemma matches_Rep_none (lo : nat) (c : ascii) (s : string) :
  matches (Rep Digit lo 0) (String c s) = false.
Proof. cbn. apply matches_Void. Qed.

Lemma matches_Rep_nil (lo hi : nat) : matches (Rep Digit lo hi) "" = Nat.eqb lo 0.
Proof. cbn. by rewrite orb_false_r. Qed.

Lemma matches_Rep_Digit (lo hi : nat) (s : string) :
  matches (Rep Digit lo hi) s = true ↔
  all_digits s = true ∧ (lo <= String.length s <= hi)%nat.
Proof.
  revert lo s. induction hi as [|hi IH]; intros lo s.
  - destruct s as [|c s].
    + rewrite matches_Rep_nil, Nat.eqb_eq. cbn. split; [intros ->; split; [done|lia]|lia].
    + rewrite matches_Rep_none. cbn [String.length]. split; [done|lia].
  - destruct s as [|c s].
    + rewrite matches_Rep_nil, Nat.eqb_eq. cbn. split; [intros ->; split; [done|lia]|lia].
    + rewrite matches_Rep_some, andb_true_iff, IH. cbn [all_digits String.length].
      rewrite andb_true_iff. split.
      * intros (Hc & Hs & Hlen). split; [done|lia].
      * intros ([Hc Hs] & Hlen). repeat split; (done || lia).
Qed.

Lemma append_nil_l (s : string) : "" +:+ s = s.
Proof. done. Qed.

Lemma append_cons (c : ascii) (s t : string) : String c s +:+ t = String c (s +:+ t).
Proof. done. Qed.

Lemma matches_Lit_front (a : ascii) (r : regex) (s : string) :
  matches (Cat (Lit a) r) s = true ↔ ∃ rest, s = String a rest ∧ matches r rest = true.
Proof.
  destruct s as [|c s].
  - rewrite matches_Cat_Lit_nil. split; [done|]. by intros (rest & ? & _).
  - rewrite matches_Cat_Lit, andb_true_iff. split.
    + intros [Hc Hm]. apply Ascii.eqb_eq in Hc as ->. by exists s.
    + intros (rest & [= -> ->] & Hm). by rewrite Ascii.eqb_refl.
Qed.

Lemma matches_Rep_front (lo hi : nat) (r : regex) (s : string) :
  matches (Cat (Rep Digit lo hi) r) s = true ↔
  ∃ d rest, s = d +:+ rest ∧ all_digits d = true ∧
            (lo <= String.length d <= hi)%nat ∧ matches r rest = true.
Proof.
  revert lo s. induction hi as [|hi IH]; intros lo s.
  - rewrite matches_Cat_Rep_none, andb_true_iff, Nat.eqb_eq. split.
    + intros [-> Hm]. exists "", s. repeat split; (done || cbn; lia).
    + intros (d & rest & -> & _ & Hlen & Hm). destruct d; cbn in Hlen; [|lia].
      split; [lia|done].
  - destruct s as [|c s].
    + rewrite matches_Cat_Rep_nil, andb_true_iff, Nat.eqb_eq. split.
      * intros [-> Hm]. exists "", "". repeat split; (done || cbn; lia).
      * intros (d & rest & Hs & _ & Hlen & Hm). destruct d; [|done].
        rewrite append_nil_l in Hs. subst rest.
        cbn in Hlen. split; [lia|done].
    + rewrite matches_Cat_Rep_some, orb_true_iff, !andb_true_iff, IH, Nat.eqb_eq. split.
      * intros [[Hc (d & rest & -> & Hd & Hlen & Hm)]|[-> Hm]].
        -- exists (String c d), rest. cbn. rewrite Hc, Hd. repeat split; (done || lia).
        -- exists "", (String c s). repeat split; (done || cbn; lia).
      * intros (d & rest & Hs & Hd & Hlen & Hm). destruct d as [|c' d].
        -- right. rewrite append_nil_l in Hs. cbn in Hlen. subst rest. split; [lia|done].
        -- left. rewrite append_cons in Hs. cbn in Hd, Hlen. injection Hs as -> ->.
           apply andb_true_iff in Hd as [Hc Hd]. split; [done|].
           exists d, rest. repeat split; (done || lia).
Qed.

(** The strings the phone pattern accepts, group by group. *)
Lemma phone_groups_iff (s : string) :
  matches phoneRegex s = true ↔
  ∃ country part1 part2 part3,
    s = "+" +:+ country +:+ "-" +:+ part1 +:+ "-" +:+ part2 +:+ "-" +:+ part3 ∧
    all_digits country = true ∧ (1 <= String.length country <= 3)%nat ∧
    all_digits part1 = true ∧ String.length part1 = 3%nat ∧
    all_digits part2 = true ∧ String.length part2 = 3%nat ∧
    all_digits part3 = true ∧ String.length part3 = 4%nat.
Proof.
  unfold phoneRegex. rewrite matches_Lit_front. split.
  - intros (s1 & -> & H). apply matches_Rep_front in H as (cc & s2 & -> & Hcc & Lcc & H).
    apply matches_Lit_front in H as (s3 & -> & H).
    apply matches_Rep_front in H as (p1 & s4 & -> & Hp1 & Lp1 & H).
    apply matches_Lit_front in H as (s5 & -> & H).
    apply matches_Rep_front in H as (p2 & s6 & -> & Hp2 & Lp2 & H).
    apply matches_Lit_front in H as (p3 & -> & H).
    apply matches_Rep_Digit in H as [Hp3 Lp3].
    exists cc, p1, p2, p3. repeat split; (done || lia).
  - intros (cc & p1 & p2 & p3 & -> & Hcc & Lcc & Hp1 & Lp1 & Hp2 & Lp2 & Hp3 & Lp3).
    eexists. split; [done|]. apply matches_Rep_front.
    exists cc, ("-" +:+ p1 +:+ "-" +:+ p2 +:+ "-" +:+ p3). repeat split; try (done || lia).
    apply matches_Lit_front. eexists. split; [done|]. apply matches_Rep_front.
    exists p1, ("-" +:+ p2 +:+ "-" +:+ p3). repeat split; try (done || lia).
    apply matches_Lit_front. eexists. split; [done|]. apply matches_Rep_front.
    exists p2, ("-" +:+ p3). repeat split; try (done || lia).
    apply matches_Lit_front. eexists. split; [done|]. apply matches_Rep_Digit.
    split; [done|lia].
Qed.

(** X11.  The phone pattern accepts exactly the strings made of "+", a
    country code of one to three digits, and three groups of three,
    three and four digits, each group preceded by "-". *)
Theorem phone_pattern_shape (s : string) :
  matches phoneRegex s = true ↔
  ∃ country part1 part2 part3,
    s = "+" +:+ country +:+ "-" +:+ part1 +:+ "-" +:+ part2 +:+ "-" +:+ part3 ∧
    all_digits country = true ∧ (1 <= String.length country <= 3)%nat ∧
    all_digits part1 = true ∧ String.length part1 = 3%nat ∧
    all_digits part2 = true ∧ String.length part2 = 3%nat ∧
    all_digits part3 = true ∧ String.length part3 = 4%nat.
Proof. apply phone_groups_iff. Qed.

Lemma phone_pattern_shape_witness :
  matches phoneRegex "+234-801-234-5678" = true.
Proof.
  apply (phone_pattern_shape "+234-801-234-5678").
  exists "234", "801", "234", "5678". repeat split; (reflexivity || cbn; lia).
Defined.

(** ** The phone field of the form (script.js) *)

Lemma keep_digits_all (s : string) : all_digits (keep_digits s) = true.
Proof.
  induction s as [|c s IH]; [done|]. cbn. destruct (is_digit c) eqn:Hc; [|done].
  cbn. by rewrite Hc.
Qed.

Lemma keep_digits_id (d : string) : all_digits d = true → keep_digits d = d.
Proof.
  induction d as [|c d IH]; [done|]. cbn. intros [Hc Hd]%andb_prop.
  by rewrite Hc, IH.
Qed.

Lemma digit_not_dash (c : ascii) : is_digit c = true → Ascii.eqb c "-" = false.
Proof. by destruct c as [[] [] [] [] [] [] [] []]. Qed.

Lemma digit_not_plus (c : ascii) : is_digit c = true → Ascii.eqb c "+" = false.
Proof. by destruct c as [[] [] [] [] [] [] [] []]. Qed.

Lemma keep_digits_digit (c : ascii) (s : string) :
  is_digit c = true → keep_digits (String c s) = String c (keep_digits s).
Proof. intros H. cbn. by rewrite H. Qed.

Lemma keep_digits_plus (s : string) : keep_digits (String "+" s) = keep_digits s.
Proof. done. Qed.

Lemma keep_digits_dash (s : string) : keep_digits (String "-" s) = keep_digits s.
Proof. done. Qed.

(** Evaluating the formatter on a string whose first characters are
    known to be digits. *)
Ltac format_eval :=
  cbv delta [formatPhoneNumber]; cbv beta;
  repeat match goal with
    | H : is_digit ?c = true |- context [keep_digits (String ?c ?s)] =>
        rewrite (keep_digits_digit c s H)
    | |- context [keep_digits (String "+" ?s)] => rewrite (keep_digits_plus s)
    | |- context [keep_digits (String "-" ?s)] => rewrite (keep_digits_dash s)
    | H : all_digits ?d = true |- context [keep_digits ?d] =>
        rewrite (keep_digits_id d H)
    | |- context [keep_digits ""] => change (keep_digits "") with ""
    end;
  cbv [slice slice_from substring String.eqb String.length String.append
       Nat.sub Z.of_nat Pos.of_succ_nat Pos.succ Z.sub Z.add Z.opp Z.pos_sub
       Pos.pred_double Z.double Z.succ_double Z.pred_double Z.min Z.max Z.compare
       Pos.compare Pos.compare_cont Z.to_nat Pos.to_nat Pos.iter_op Nat.add
       Init.Nat.add Init.Nat.sub].

(** The value of the formatter on such a string, put in its place. *)
Ltac format_value :=
  match goal with
  | |- context [formatPhoneNumber (String ?c ?s)] =>
      let H := fresh "Hout" in
      eassert (formatPhoneNumber (String c s) = _) as H
        by (format_eval; reflexivity);
      rewrite !H; clear H
  | |- context [formatPhoneNumber ""] =>
      change (formatPhoneNumber "") with ""
  end.

(** The digits of a string built from literal characters and known
    digits. *)
Ltac digits_eval :=
  repeat match goal with
    | H : is_digit ?c = true |- context [keep_digits (String ?c ?s)] =>
        rewrite (keep_digits_digit c s H)
    | |- context [keep_digits (String "+" ?s)] => rewrite (keep_digits_plus s)
    | |- context [keep_digits (String "-" ?s)] => rewrite (keep_digits_dash s)
    | |- context [keep_digits ""] => change (keep_digits "") with ""
    end.

Lemma keep_digits_append (s t : string) :
  keep_digits (s +:+ t) = keep_digits s +:+ keep_digits t.
Proof.
  induction s as [|c s IH]; [done|]. rewrite append_cons. cbn [keep_digits].
  destruct (is_digit c); [|done]. by rewrite append_cons, IH.
Qed.

Lemma length_append (s t : string) :
  String.length (s +:+ t) = (String.length s + String.length t)%nat.
Proof. induction s as [|c s IH]; [done|]. rewrite append_cons. cbn. by rewrite IH. Qed.

(** What the phone pattern accepts holds eleven to thirteen digits. *)
Lemma matches_digit_count (s : string) :
  matches phoneRegex s = true → (11 <= String.length (keep_digits s) <= 13)%nat.
Proof.
  intros (cc & p1 & p2 & p3 & -> & Hcc & Lcc & Hp1 & Lp1 & Hp2 & Lp2 & Hp3 & Lp3)
    %phone_groups_iff.
  rewrite !keep_digits_append.
  change (keep_digits "+") with ""; change (keep_digits "-") with "".
  rewrite !append_nil_l, !keep_digits_id, !length_append by done. lia.
Qed.

(** Taking the next character off a string of digits. *)
Ltac next_digit d Hd :=
  destruct d as [|? d];
  [|cbn [all_digits] in Hd; apply andb_prop in Hd as [? Hd]].

(** The country code and the three groups of a formatted number. *)
Ltac phone_groups :=
  lazymatch goal with
  | |- ∃ _ _ _ _, String "+" (String ?a (String "-" ?r)) = _ ∧ _ =>
      exists (String a "")
  | |- ∃ _ _ _ _, String "+" (String ?a (String ?b (String "-" ?r))) = _ ∧ _ =>
      exists (String a (String b ""))
  | |- ∃ _ _ _ _, String "+" (String ?a (String ?b (String ?c (String "-" ?r)))) = _ ∧ _ =>
      exists (String a (String b (String c "")))
  end;
  lazymatch goal with
  | |- ∃ _ _ _, _ = _ +:+ _ +:+ "-" +:+ _ +:+ "-" +:+ _ +:+ "-" +:+ _ ∧ _ => idtac
  end;
  lazymatch goal with
  | |- context [String "-" (String ?a1 (String ?a2 (String ?a3
         (String "-" (String ?b1 (String ?b2 (String ?b3
           (String "-" (String ?c1 (String ?c2 (String ?c3 (String ?c4 ""))))))))))))] =>
      exists (String a1 (String a2 (String a3 ""))),
             (String b1 (String b2 (String b3 ""))),
             (String c1 (String c2 (String c3 (String c4 ""))))
  end.

Ltac format_case d :=
  let Hk := fresh "Hk" in
  assert (Hk : keep_digits (formatPhoneNumber d) = slice d 0 13)
    by (try format_value; digits_eval; reflexivity);
  split; [|split; [|exact Hk]];
  [ cbn [String.length Nat.leb];
    lazymatch goal with
    | |- _ = false =>
        let E := fresh "E" in
        destruct (matches phoneRegex (formatPhoneNumber d)) eqn:E; [|reflexivity];
        apply matches_digit_count in E; rewrite Hk in E;
        cbv [slice substring String.length Nat.sub] in E; lia
    | |- _ = true =>
        format_value; apply phone_groups_iff; phone_groups;
        cbn [all_digits String.length];
        repeat match goal with H : is_digit ?c = true |- _ => rewrite H; clear H end;
        repeat split; (reflexivity || lia)
    end
  | try format_value; try format_value; reflexivity ].

(** The formatter on a string of digits: whether its result passes the
    phone pattern, that formatting it again changes nothing, and the
    digits it holds. *)
Lemma format_on_digits (d : string) :
  all_digits d = true →
  matches phoneRegex (formatPhoneNumber d) = (11 <=? String.length d)%nat ∧
  formatPhoneNumber (formatPhoneNumber d) = formatPhoneNumber d ∧
  keep_digits (formatPhoneNumber d) = slice d 0 13.
Proof.
  intros Hd.
  do 14 (next_digit d Hd;
         [match goal with |- context [formatPhoneNumber ?x] => format_case x end|]).
  match goal with |- context [formatPhoneNumber ?x] => format_case x end.
Qed.

Lemma format_of_digits (value : string) :
  formatPhoneNumber value = formatPhoneNumber (keep_digits value).
Proof.
  unfold formatPhoneNumber. by rewrite (keep_digits_id _ (keep_digits_all value)).
Qed.

(** On any input: the pattern, the idempotence, and when the result is
    empty. *)
Lemma formatted_phone_shape (value : string) :
  matches phoneRegex (formatPhoneNumber value)
  = (11 <=? String.length (keep_digits value))%nat ∧
  formatPhoneNumber (formatPhoneNumber value) = formatPhoneNumber value ∧
  (formatPhoneNumber value = "" ↔ keep_digits value = "").
Proof.
  rewrite (format_of_digits value).
  destruct (format_on_digits _ (keep_digits_all value)) as (H1 & H2 & H3).
  split; [exact H1|]. split; [exact H2|]. split.
  - intros He. rewrite He in H3. cbn in H3.
    destruct (keep_digits value); [done|]. discriminate H3.
  - by intros ->.
Qed.

(** X12.  What the form leaves in the phone field passes the phone
    pattern, and so the phone rule of the server, exactly when at least
    eleven digits were typed: a country code of one digit needs the ten
    digits of the three groups after it. *)
Theorem formatted_phone_accepted (value : string) :
  matches phoneRegex (formatPhoneNumber value)
  = (11 <=? String.length (keep_digits value))%nat ∧
  test phoneRegex (or_ (VStr (formatPhoneNumber value)) (VStr ""))
  = (11 <=? String.length (keep_digits value))%nat.
Proof.
  rewrite (format_of_digits value).
  destruct (format_on_digits _ (keep_digits_all value)) as (H & _ & _).
  split; [exact H|]. rewrite <- H. unfold test, or_. cbn [ToBoolean].
  destruct (String.eqb_spec (formatPhoneNumber (keep_digits value)) "") as [->|]; done.
Qed.


(** X14.  The listener of the phone field leaves the formatted value in
    it and reports it as valid exactly when the field is empty of
    digits or holds at least eleven; what it reports as valid and not
    empty passes the phone rule of the server, and running the listener
    again on its own result gives the same result. *)
Theorem phone_input_validity (value : string) :
  (phone_input value).1 = formatPhoneNumber value ∧
  ((phone_input value).2 = "" ↔
   keep_digits value = "" ∨ (11 <= String.length (keep_digits value))%nat) ∧
  ((phone_input value).2 = "" → (phone_input value).1 ≠ "" →
   test phoneRegex (or_ (VStr (phone_input value).1) (VStr "")) = true) ∧
  phone_input (phone_input value).1 = phone_input value.
Proof.
  destruct (formatted_phone_shape value) as (Hm & Hidem & Hempty).
  assert (Hin : ∀ v, phone_input v
                     = (formatPhoneNumber v,
                        if negb (String.eqb (formatPhoneNumber v) "")
                           && negb (matches phoneRegex (formatPhoneNumber v))
                        then "Use the format +234-801-234-5678." else ""))
    by (intros v; unfold phone_input; by destruct (_ && _)).
  rewrite !Hin. cbn [fst snd]. rewrite !Hidem. split; [done|]. split; [|split; [|done]].
  - rewrite Hm. destruct (String.eqb_spec (formatPhoneNumber value) "") as [He|He];
      cbn [negb andb].
    + split; [|done]. intros _. left. by apply Hempty.
    + destruct (Nat.leb_spec 11 (String.length (keep_digits value))); cbn [negb].
      * split; [by right|done].
      * split; [done|]. intros [Hd|Hd]; [|lia]. by apply Hempty in Hd.
  - intros Hv Hne. unfold test, or_. cbn [ToBoolean].
    destruct (String.eqb_spec (formatPhoneNumber value) "") as [He|He]; [done|].
    cbn [negb String_]. cbn [negb andb] in Hv.
    by destruct (matches phoneRegex (formatPhoneNumber value)).
Qed.

Lemma formatted_phone_accepted_witness :
  formatPhoneNumber "2348012345678" = "+234-801-234-5678" ∧
  matches phoneRegex (formatPhoneNumber "2348012345678") = true ∧
  formatPhoneNumber "801 234 5678" = "+8-012-345-678" ∧
  matches phoneRegex (formatPhoneNumber "801 234 5678") = false.
Proof.
  split; [vm_compute; reflexivity|]. split.
  - destruct (formatted_phone_accepted "2348012345678") as [H _]. by rewrite H.
  - split; [vm_compute; reflexivity|]. vm_compute; reflexivity.
Defined.


Lemma phone_input_validity_witness :
  (phone_input "234801").2 = "Use the format +234-801-234-5678." ∧
  (phone_input "2348012345678").2 = "" ∧
  test phoneRegex (or_ (VStr (phone_input "2348012345678").1) (VStr "")) = true.
Proof.
  split; [vm_compute; reflexivity|].
  assert ((phone_input "2348012345678").2 = "") as H by (vm_compute; reflexivity).
  split; [exact H|].
  destruct (phone_input_validity "2348012345678") as (_ & _ & Hs & _).
  apply Hs; [exact H|]. vm_compute. discriminate.
Defined.

(** ** The list of registrations *)

Lemma fin_compare_antisym (m1 e1 m2 e2 : Z) :
  fin_compare m2 e2 m1 e1 = CompOpp (fin_compare m1 e1 m2 e2).
Proof. unfold fin_compare. rewrite (Z.min_comm e2 e1). apply Z.compare_antisym. Qed.

Lemma num_ltb_asym (x y : number) : num_ltb x y = true → num_ltb y x = false.
Proof.
  destruct x as [|[]|m1 e1], y as [|[]|m2 e2]; cbn; try done.
  rewrite (fin_compare_antisym m1 e1 m2 e2). by destruct (fin_compare m1 e1 m2 e2).
Qed.

(** The order of ORDER BY is total. *)
Lemma cell_leb_total (a b : value) : cell_leb a b = false → cell_leb b a = true.
Proof.
  unfold cell_leb.
  destruct (bind a) as [| | |x|s], (bind b) as [| | |y|t]; try done.
  - destruct (num_ltb y x) eqn:H; cbn; [|done]. intros _. by rewrite (num_ltb_asym y x H).
  - rewrite (String.compare_antisym s t). by destruct (String.compare t s).
Qed.

Lemma insert_desc_perm (c : string) (x : Z * gmap string value)
    (l : list (Z * gmap string value)) :
  insert_desc c x l ≡ₚ x :: l.
Proof.
  induction l as [|y l IH]; [done|]. cbn. destruct (cell_leb _ _); [done|].
  rewrite IH. apply Permutation_swap.
Qed.

Lemma insert_desc_descending (c : string) (x : Z * gmap string value)
    (l : list (Z * gmap string value)) :
  descending ((λ kr, default VNull (kr.2 !! c)) <$> l) = true →
  descending ((λ kr, default VNull (kr.2 !! c)) <$> insert_desc c x l) = true.
Proof.
  induction l as [|y l IH]; [done|]. intros Hl. cbn [insert_desc].
  destruct (cell_leb _ _) eqn:Hyx.
  - cbn [fmap list_fmap descending] in *. by rewrite Hyx.
  - apply cell_leb_total in Hyx. destruct l as [|z l].
    + cbn. by rewrite Hyx.
    + cbn [fmap list_fmap descending] in Hl. apply andb_prop in Hl as [Hzy Hl].
      specialize (IH Hl). cbn [insert_desc] in *.
      destruct (cell_leb (default VNull (z.2 !! c)) (default VNull (x.2 !! c)));
        cbn [fmap list_fmap descending] in *.
      * by rewrite Hyx, IH.
      * by rewrite Hzy, IH.
Qed.

Lemma sorted_rows (c : string) (l : list (Z * gmap string value)) :
  foldr (insert_desc c) [] l ≡ₚ l ∧
  descending ((λ kr, default VNull (kr.2 !! c)) <$> foldr (insert_desc c) [] l) = true.
Proof.
  induction l as [|x l [IHp IHd]]; [done|]. cbn [foldr]. split.
  - by rewrite insert_desc_perm, IHp.
  - by apply insert_desc_descending.
Qed.

Lemma selected_created_at (id : Z) (r : gmap string value) :
  get (select_columns registration_select id r) "created_at"
  = default VNull (r !! "created_at").
Proof. unfold select_columns. by rewrite get_list_to_map. Qed.

(** X15.  On an initialised store, the list an administrator asks for
    is answered 200 with one record for each stored registration and no
    other, in descending order of their creation time; the store is
    not changed. *)
Theorem list_complete_and_ordered (e : env) (req : request) (db : gmap string table)
    (t : table) :
  ready db = true → ToBoolean (adminId (req_session req)) = true →
  db !! "registrations" = Some t →
  ∃ rows,
    get_admin_registrations e req db
    = Result (Response 200 [("Cache-Control", "no-store")] (JRows rows)) db
             (Some (req_session req))
             [Sql "SELECT FROM registrations ORDER BY created_at DESC"] ∧
    rows ≡ₚ (λ kr, select_columns registration_select kr.1 kr.2)
            <$> map_to_list (tbl_rows t) ∧
    (∀ id r, stored db id = Some r → select_columns registration_select id r ∈ rows) ∧
    descending ((λ row, get row "created_at") <$> rows) = true.
Proof.
  intros Hr Ha Ht.
  destruct (ready_table db Hr) as (t' & Ht' & Hcols & Hhas).
  rewrite Ht in Ht'. injection Ht' as <-.
  unfold get_admin_registrations, isAdmin, select_all_desc. rewrite Ha, Ht.
  rewrite (ready_known t ("created_at" :: registration_select) Hhas) by done.
  destruct (sorted_rows "created_at" (map_to_list (tbl_rows t))) as [Hp Hd].
  eexists. split; [reflexivity|]. split; [by rewrite Hp|]. split.
  - intros id r Hs. unfold stored in Hs. rewrite Ht in Hs. cbn in Hs.
    apply list_elem_of_fmap. exists (id, r). split; [done|].
    rewrite Hp. by apply elem_of_map_to_list.
  - rewrite <- list_fmap_compose.
    erewrite list_fmap_ext; [exact Hd|]. intros i [k r] _. cbn.
    apply selected_created_at.
Qed.

Lemma list_complete_and_ordered_witness :
  ∃ rows,
    res (get_admin_registrations sample_env (Request admin_session "" None) sample_db1)
    = Response 200 [("Cache-Control", "no-store")] (JRows rows) ∧
    registration_record 1 "2024-05-01T09:00:00.000Z" ada ∈ rows.
Proof.
  destruct (list_complete_and_ordered sample_env (Request admin_session "" None)
              sample_db1
              (Table registrations_columns
                 {[ 1 := assign_row (registration_params ada
                                       ++ [("created_at", VStr (now sample_env))])
                           (default_row (Table registrations_columns ∅ 0)) ]} 1))
    as (rows & H & _ & Hin & _);
    [vm_compute; reflexivity | vm_compute; reflexivity | by_compute |].
  exists rows. split; [by rewrite H|].
  assert (registration_record 1 "2024-05-01T09:00:00.000Z" ada
          = select_columns registration_select 1
              (assign_row (registration_params ada
                             ++ [("created_at", VStr (now sample_env))])
                 (default_row (Table registrations_columns ∅ 0)))) as -> by by_compute.
  apply Hin. by_compute.
Defined.

(** ** Migration *)

Lemma has_column_added (t : table) (col : column) rows seq (c : string) :
  c ≠ col_name col →
  has_column (Table (tbl_columns t ++ [col]) rows seq) c = has_column t c.
Proof.
  intros Hc. unfold has_column, column_names. cbn [tbl_columns].
  apply bool_decide_ext. rewrite fmap_app, elem_of_app. cbn.
  rewrite list_elem_of_singleton. split; [|by left]. by intros [H|H].
Qed.

(** X16.  Started on a database whose registrations table predates the
    city and email columns, the server adds both, in that order and at
    the end; every registration keeps its id and the cells it had, and
    reads the empty text in the two new columns.  The sequence number
    of the table is kept. *)
Theorem migration_adds_columns (e : env) (db : gmap string table) (t : table) :
  db !! "registrations" = Some t →
  has_column t "city" = false → has_column t "email" = false →
  (initializeDatabase e db).1 !! "registrations"
  = Some (Table (tbl_columns t ++ [Column "city" "TEXT" true false (VStr "");
                                   Column "email" "TEXT" true false (VStr "")])
                ((λ r, <["email" := VStr ""]> (<["city" := VStr ""]> r)) <$> tbl_rows t)
                (tbl_seq t)) ∧
  ∀ id r, stored db id = Some r →
    ∃ r', stored (initializeDatabase e db).1 id = Some r' ∧
          r' !! "city" = Some (VStr "") ∧ r' !! "email" = Some (VStr "") ∧
          ∀ c, c ≠ "city" → c ≠ "email" → r' !! c = r !! c.
Proof.
  intros Ht Hcity Hemail.
  assert ((initializeDatabase e db).1 !! "registrations"
          = Some (Table (tbl_columns t ++ [Column "city" "TEXT" true false (VStr "");
                                           Column "email" "TEXT" true false (VStr "")])
                    ((λ r, <["email" := VStr ""]> (<["city" := VStr ""]> r)) <$> tbl_rows t)
                    (tbl_seq t))) as Hinit.
  { rewrite initialize_registrations. unfold schema_statements.
    rewrite create_table_other by done.
    assert (create_table_if_not_exists "registrations" registrations_columns db = db) as ->.
    { unfold create_table_if_not_exists. by rewrite Ht. }
    set (db2 := ignore_error db _).
    assert (db2 !! "registrations"
            = Some (Table (tbl_columns t ++ [Column "city" "TEXT" true false (VStr "")])
                      (insert "city" (VStr "") <$> tbl_rows t) (tbl_seq t))) as H2.
    { unfold db2. rewrite (add_column_lookup _ _ _ t Ht). cbn [col_name col_notnull
        col_default is_null String.eqb Ascii.eqb Bool.eqb andb orb]. by rewrite Hcity. }
    rewrite (add_column_lookup _ _ _ _ H2). cbn [col_name col_notnull
        col_default is_null String.eqb Ascii.eqb Bool.eqb andb orb].
    rewrite has_column_added by done. rewrite Hemail. cbn [orb tbl_columns tbl_rows tbl_seq].
    by rewrite <- app_assoc, <- map_fmap_compose. }
  split; [exact Hinit|]. intros id r Hs. unfold stored in *. rewrite Hinit.
  rewrite Ht in Hs. cbn in Hs |- *. rewrite lookup_fmap, Hs. cbn.
  eexists. split; [done|]. split; [by rewrite lookup_insert_ne, lookup_insert_eq|].
  split; [by rewrite lookup_insert_eq|].
  intros c Hc He. by rewrite !lookup_insert_ne.
Qed.

Lemma migration_adds_columns_witness :
  stored (initializeDatabase sample_env
            (<["registrations" :=
                 Table [Column "full_name" "TEXT" true false VNull]
                       {[ 7 := {[ "full_name" := VStr "Ada" ]} ]} 7]> ∅)).1 7
  = Some (list_to_map [("full_name", VStr "Ada"); ("city", VStr ""); ("email", VStr "")]).
Proof.
  destruct (migration_adds_columns sample_env
              (<["registrations" :=
                   Table [Column "full_name" "TEXT" true false VNull]
                         {[ 7 := {[ "full_name" := VStr "Ada" ]} ]} 7]> ∅)
              (Table [Column "full_name" "TEXT" true false VNull]
                     {[ 7 := {[ "full_name" := VStr "Ada" ]} ]} 7))
    as [H _]; [by_compute | vm_compute; reflexivity | vm_compute; reflexivity |].
  unfold stored. rewrite H. by_compute.
Defined.

(** ** Repeating an update *)

Lemma assign_row_twice (a : list (string * value)) (old : gmap string value) :
  assign_row a (assign_row a old) = assign_row a old.
Proof.
  apply map_eq. intros k. rewrite !assign_row_lookup. by destruct (assoc k a).
Qed.

(** X17.  An update is idempotent: on an initialised store, sending the
    same valid update to the same id a second time, at whatever time,
    gets the same response and leaves the store as the first left
    it. *)
Theorem update_idempotent (e e' : env) (req : request) (db : gmap string table)
    (p : gmap string value) (id : Z) :
  ready db = true → ToBoolean (adminId (req_session req)) = true →
  addresses (req_id req) id → req_body req = Some p →
  validateRegistration (Some p) = None →
  put_admin_registration e' req (db_after (put_admin_registration e req db))
  = put_admin_registration e req db.
Proof.
  intros Hr Ha Hid Hb Hv.
  destruct (update_by_admin e req db p id Hr Ha Hid Hb Hv) as (t & Htab & Hput).
  rewrite Hput. destruct (tbl_rows t !! id) as [old|] eqn:Hold; cbn [db_after reply].
  - destruct (update_by_admin e' req _ p id
                (ready_write db t (<[id := assign_row (registration_params p) old]>
                                     (tbl_rows t)) (tbl_seq t) Hr Htab) Ha Hid Hb Hv)
      as (t' & Htab' & ->).
    rewrite lookup_insert_eq in Htab'. injection Htab' as <-. cbn [tbl_rows tbl_columns tbl_seq].
    rewrite lookup_insert_eq, assign_row_twice. unfold reply.
    by rewrite !insert_insert_eq.
  - destruct (update_by_admin e' req db p id Hr Ha Hid Hb Hv) as (t' & Htab' & ->).
    rewrite Htab in Htab'. injection Htab' as <-. by rewrite Hold.
Qed.

Lemma update_idempotent_witness :
  put_admin_registration sample_env (Request admin_session "1" (Some ada_form))
    (db_after (put_admin_registration sample_env
                 (Request admin_session "1" (Some ada_form)) sample_db1))
  = put_admin_registration sample_env (Request admin_session "1" (Some ada_form))
      sample_db1.
Proof.
  apply (update_idempotent sample_env sample_env
           (Request admin_session "1" (Some ada_form)) sample_db1 ada_form 1);
    first [vm_compute; reflexivity | reflexivity].
Defined.

(** ** What the form submits *)

Lemma form_value_text (v : option string) : text_or_absent (form_value v) = true.
Proof. by destruct v. Qed.

(** X18.  The payload the registration form posts holds the nine members
    the server reads, each the text of its field or null, so it is
    typed as the data model says; when the server accepts it on an
    initialised store it answers 201 and the registration it stores
    passes validation again and holds text in its text columns. *)
Theorem form_payload_typed (formData : string → option string) (e : env)
    (req : request) (db : gmap string table) :
  text_payload (submit_payload formData) = true ∧
  Forall (λ k, get (submit_payload formData) k = form_value (formData k)) read_members ∧
  (ready db = true → req_body req = Some (submit_payload formData) →
   validateRegistration (Some (submit_payload formData)) = None →
   ∃ id r,
     res (post_registrations e req db) = Response 201 [] (JSaved "Saved" id) ∧
     stored (db_after (post_registrations e req db)) id = Some r ∧
     row_ok r).
Proof.
  assert (Hget : Forall (λ k, get (submit_payload formData) k = form_value (formData k))
                        read_members).
  { unfold read_members, submit_payload. repeat constructor; by rewrite get_list_to_map. }
  assert (Htyped : text_payload (submit_payload formData) = true).
  { pose proof Hget as H. rewrite Forall_forall in H.
    unfold text_payload, text_members. cbn [forallb validated_text_members].
    rewrite !H by (unfold read_members; in_list).
    by rewrite !form_value_text. }
  split; [exact Htyped|split; [exact Hget|]].
  intros Hr Hb Hv.
    destruct (insert_registration db _ (now e) Hr Hv) as (t & Htab & Hins).
    cbn zeta in Hins. unfold post_registrations. rewrite Hb, Hv.
    cbn [default from_option]. unfold Datatypes.id. rewrite Hins. cbn [res db_after reply].
    eexists _, _. split; [done|]. rewrite stored_write, lookup_insert_eq.
    split; [done|]. apply written_row_ok; [done|].
    exact Htyped.
Qed.

Lemma form_payload_typed_witness :
  ∃ id r,
    res (post_registrations sample_env
           (Request anonymous "" (Some (submit_payload ada_fields))) sample_db)
    = Response 201 [] (JSaved "Saved" id) ∧
    stored (db_after (post_registrations sample_env
              (Request anonymous "" (Some (submit_payload ada_fields))) sample_db)) id
    = Some r ∧
    row_ok r.
Proof.
  destruct (form_payload_typed ada_fields sample_env
              (Request anonymous "" (Some (submit_payload ada_fields))) sample_db)
    as (_ & _ & H).
  apply H; [vm_compute; reflexivity | reflexivity | vm_compute; reflexivity].
Defined.

(** ** Statements on a store the server has initialised *)

Lemma add_column_other name (col : column) (db : gmap string table) name' :
  name' ≠ name →
  ignore_error db (alter_table_add_column name col db) !! name' = db !! name'.
Proof.
  intros Hn. unfold alter_table_add_column. destruct (db !! name) as [t|]; [|done].
  destruct (_ || _); [done|]. destruct (_ && _); [done|]. cbn.
  by rewrite lookup_insert_ne.
Qed.

Lemma schema_statements_admins (db : gmap string table) :
  schema_statements db !! "admins"
  = Some (default (Table admins_columns ∅ 0) (db !! "admins")).
Proof.
  unfold schema_statements.
  set (db3 := ignore_error _ (alter_table_add_column _ _ (ignore_error _ _))).
  assert (db3 !! "admins" = db !! "admins") as H3.
  { unfold db3. rewrite !add_column_other by done. by rewrite create_table_other. }
  unfold create_table_if_not_exists. rewrite H3.
  destruct (db !! "admins") as [t|] eqn:Ht; [by rewrite H3|]. by rewrite lookup_insert_eq.
Qed.

(** The default administrator is added to the table as it is: its
    columns stay. *)
Lemma ensureDefaultAdmin_columns (e : env) (db : gmap string table) (t : table) :
  db !! "admins" = Some t →
  ∃ t', (ensureDefaultAdmin e db).1 !! "admins" = Some t' ∧
        tbl_columns t' = tbl_columns t.
Proof.
  intros Ht. unfold ensureDefaultAdmin.
  destruct (select_where _ _ _ _ db) as [[row|]|err]; try by exists t.
  destruct (bcrypt_hash e _) as [hash|]; [|by exists t].
  destruct (insert_into _ _ db) as [[db' id]|err] eqn:Hins; [|by exists t].
  apply insert_into_inv in Hins as (t0 & r & Ht0 & _ & _ & -> & _).
  rewrite Ht in Ht0. injection Ht0 as <-. cbn [fst]. rewrite lookup_insert_eq.
  by eexists.
Qed.

Lemma initialize_healthy (e : env) (db : gmap string table) :
  (db = ∅ ∨ healthy db = true) → healthy (initializeDatabase e db).1 = true.
Proof.
  intros Hdb. unfold healthy, admins_ready. apply andb_true_intro. split.
  - destruct Hdb as [->|[Hr _]%andb_prop].
    + unfold ready. by rewrite boot_registrations.
    + unfold ready in *. by rewrite restart_registrations.
  - rewrite initialize_unfold. cbn [fst].
    destruct (ensureDefaultAdmin_columns e (schema_statements db) _
                (schema_statements_admins db)) as (t' & -> & Hcols).
    unfold unknown_column, has_column, column_names in *. rewrite Hcols.
    destruct Hdb as [->|[_ Ha]%andb_prop]; [done|].
    unfold admins_ready in Ha. destruct (db !! "admins") as [t|]; [|done]. exact Ha.
Qed.

Lemma request_healthy (r : route) (e : env) (req : request) (db : gmap string table) :
  healthy db = true → healthy (db_after (dispatch r e req db)) = true.
Proof.
  intros Hh. destruct (dispatch_effect r e req db) as [->|[Hch _]]; [done|].
  apply store_change_frame in Hch as (Hother & t & t' & Ht & Ht' & Hcols & _).
  apply andb_prop in Hh as [Hr Ha]. unfold healthy, ready, admins_ready in *.
  rewrite (Hother "admins") by done. rewrite Ha, andb_true_r. rewrite Ht in Hr. rewrite Ht'.
  unfold table_ready, has_column, column_names in *. by rewrite Hcols.
Qed.

Lemma serve_healthy (steps : list step) (db : gmap string table) :
  healthy db = true → healthy (serve steps db) = true.
Proof.
  revert db. induction steps as [|s steps IH]; intros db Hh; [done|].
  cbn [serve foldl]. apply IH. destruct s as [r e req|e]; cbn [run_step].
  - by apply request_healthy.
  - apply initialize_healthy. by right.
Qed.

(** On a healthy store no statement of a handler fails: the only 500
    left is a password comparison that calls back with an error. *)
Lemma healthy_no_error (r : route) (e : env) (req : request) (db : gmap string table) :
  healthy db = true →
  status (res (dispatch r e req db)) = 500 →
  r = PostAdminLogin ∧
  ∃ row,
    select_where "admins" ["id"; "password_hash"] "username"
                 (get (default ∅ (req_body req)) "username") db = Done (Some row) ∧
    bcrypt_compare e (get (default ∅ (req_body req)) "password")
                   (get row "password_hash") = None.
Proof.
  intros [Hr Ha]%andb_prop.
  destruct r; cbn [dispatch].
  - unfold post_registrations.
    destruct (req_body req) as [p|] eqn:Hb; [|done].
    destruct (validateRegistration (Some p)) eqn:Hv; [done|].
    destruct (insert_registration db p (now e) Hr Hv) as (t & _ & Hins).
    cbn zeta in Hins. cbn [default from_option]. unfold Datatypes.id. by rewrite Hins.
  - unfold post_admin_login. destruct (_ || _); [done|].
    assert (∃ o, select_where "admins" ["id"; "password_hash"] "username"
                   (get (default ∅ (req_body req)) "username") db = Done o) as [o Ho].
    { unfold admins_ready in Ha. unfold select_where.
      destruct (db !! "admins") as [t|]; [|done].
      apply negb_true_iff in Ha. rewrite Ha. by eexists. }
    rewrite Ho. destruct o as [row|]; [|done].
    destruct (bcrypt_compare e _ _) as [[|]|] eqn:Hcmp; [done|done|].
    intros _. split; [done|]. by exists row.
  - done.
  - unfold get_admin_me. by destruct (not_ _).
  - unfold get_admin_registrations, isAdmin. destruct (ToBoolean _); [|done].
    destruct (ready_table db Hr) as (t & Ht & _ & Hhas).
    unfold select_all_desc. rewrite Ht.
    by rewrite (ready_known t ("created_at" :: registration_select) Hhas).
  - unfold get_admin_registration, isAdmin. destruct (ToBoolean _); [|done].
    destruct (negb _); [done|].
    destruct (select_registration db (Number_ (VStr (req_id req))) Hr) as (t & _ & ->).
    by destruct (_ ≫= _).
  - unfold put_admin_registration, isAdmin. destruct (ToBoolean _); [|done].
    destruct (negb _); [done|].
    destruct (req_body req) as [p|] eqn:Hb; [|done].
    destruct (validateRegistration (Some p)) eqn:Hv; [done|].
    destruct (update_registration db p (Number_ (VStr (req_id req))) Hr Hv)
      as (t & _ & Hup).
    cbn [default from_option]. unfold Datatypes.id. rewrite Hup.
    by destruct (_ ≫= _) as [[k old]|].
  - unfold delete_admin_registration, isAdmin. destruct (ToBoolean _); [|done].
    destruct (negb _); [done|].
    destruct (ready_table db Hr) as (t & Ht & _).
    unfold delete_by_id. rewrite Ht. by destruct (_ ≫= _).
Qed.

(** X19.  From the first start of the server on an empty database,
    through any requests and restarts, no statement a handler sends to
    the database fails: each finds its table and its columns, and what
    a validated registration binds meets the NOT NULL constraints.  The
    only request answered 500 is a login whose password comparison
    calls back with an error. *)
Theorem statements_never_fail (e0 : env) (steps : list step) (r : route) (e : env)
    (req : request) :
  status (res (dispatch r e req (serve steps (initializeDatabase e0 ∅).1))) = 500 →
  r = PostAdminLogin ∧
  ∃ row,
    select_where "admins" ["id"; "password_hash"] "username"
                 (get (default ∅ (req_body req)) "username")
                 (serve steps (initializeDatabase e0 ∅).1) = Done (Some row) ∧
    bcrypt_compare e (get (default ∅ (req_body req)) "password")
                   (get row "password_hash") = None.
Proof.
  apply healthy_no_error, serve_healthy, initialize_healthy. by left.
Qed.

Lemma statements_never_fail_witness :
  status (res (dispatch PostAdminLogin strict_env (Request anonymous "" (Some admin_123))
                 (serve [Handle PostRegistrations sample_env
                           (Request anonymous "" (Some ada))]
                        (initializeDatabase sample_env ∅).1))) = 500 ∧
  bcrypt_compare strict_env (get admin_123 "password") (VStr "$2a$10$admin123") = None.
Proof.
  assert (status (res (dispatch PostAdminLogin strict_env
                         (Request anonymous "" (Some admin_123))
                         (serve [Handle PostRegistrations sample_env
                                   (Request anonymous "" (Some ada))]
                                (initializeDatabase sample_env ∅).1))) = 500) as H
    by (vm_compute; reflexivity).
  split; [exact H|].
  destruct (statements_never_fail sample_env
              [Handle PostRegistrations sample_env (Request anonymous "" (Some ada))]
              PostAdminLogin strict_env (Request anonymous "" (Some admin_123)) H)
    as (_ & row & Hsel & Hcmp).
  assert (row = list_to_map [("id", VNum (of_Z 1));
                             ("password_hash", VStr "$2a$10$admin123")]) as ->.
  { assert (select_where "admins" ["id"; "password_hash"] "username"
              (get (default ∅ (req_body (Request anonymous "" (Some admin_123)))) "username")
              (serve [Handle PostRegistrations sample_env
                        (Request anonymous "" (Some ada))]
                     (initializeDatabase sample_env ∅).1)
            = Done (Some (list_to_map [("id", VNum (of_Z 1));
                                       ("password_hash", VStr "$2a$10$admin123")])))
      as Hsel' by by_compute.
    rewrite Hsel' in Hsel. by injection Hsel as <-. }
  exact Hcmp.
Defined.

(** X20.  A restart loses nothing: on a store the server has
    initialised, starting it again, under whatever configuration,
    leaves the registrations table exactly as it was and keeps every
    administrator with its id, name and hash. *)
Theorem restart_keeps_data (e : env) (db : gmap string table) (t : table) :
  healthy db = true → db !! "admins" = Some t →
  (initializeDatabase e db).1 !! "registrations" = db !! "registrations" ∧
  ∃ t', (initializeDatabase e db).1 !! "admins" = Some t' ∧
        tbl_columns t' = tbl_columns t ∧
        ∀ id r, tbl_rows t !! id = Some r → tbl_rows t' !! id = Some r.
Proof.
  intros [Hr _]%andb_prop Ht. split; [by apply restart_registrations|].
  rewrite initialize_unfold. cbn [fst].
  pose proof (schema_statements_admins db) as Hs. rewrite Ht in Hs. cbn in Hs.
  unfold ensureDefaultAdmin.
  destruct (select_where _ _ _ _ (schema_statements db)) as [[row|]|err];
    try by exists t.
  destruct (bcrypt_hash e _) as [hash|]; [|by exists t].
  destruct (insert_into _ _ (schema_statements db)) as [[db' id]|err] eqn:Hins;
    [|by exists t].
  apply insert_into_inv in Hins as (t0 & r & Ht0 & Hfresh & _ & -> & _).
  rewrite Hs in Ht0. injection Ht0 as <-. cbn [fst]. rewrite lookup_insert_eq.
  eexists. split; [done|]. split; [done|]. cbn [tbl_rows]. intros k r' Hk.
  rewrite lookup_insert_ne; [done|]. intros ->. congruence.
Qed.

Lemma restart_keeps_data_witness :
  (initializeDatabase strict_env sample_db1).1 !! "registrations"
  = sample_db1 !! "registrations".
Proof.
  destruct (restart_keeps_data strict_env sample_db1
              (Table admins_columns
                 {[ 1 := list_to_map [("username", VStr "admin");
                                      ("password_hash", VStr "$2a$10$admin123")] ]} 1))
    as [H _]; [vm_compute; reflexivity | by_compute | exact H].
Defined.
